(** * User database manager: a shallow embedding of [upgraded_datascience.py]

    The program is a console front end over one SQLite table [users] and a
    scatter plot.  The embedding follows the source function by function:

    - Python text is [string]; [str.strip], [str.lower] and [int(str)] are
      written out for ASCII text.  Python integers are unbounded, so they
      are [Z]; the store keeps the [INTEGER] columns as [Z] as well.  A
      theorem that depends on how a typed line is stripped, lowercased or
      refused as a number takes the line to be ASCII ([Py.isascii]); one
      that sends a typed number to the store takes it within the 64 bits
      of an SQLite integer ([Sqlite.int64]).
    - The database file is a finite map from table names to tables (the
      catalogue).  A table has the columns of the program's [CREATE TABLE]
      statement; it carries its rows in rowid order and the AUTOINCREMENT
      counter.
    - Console input is the list of lines still to be typed; [input()] on an
      exhausted list raises [EOFError], as the interpreter does at end of
      file.  Console output, executed statements and plotting calls are
      recorded in chronological order.
    - Exceptions are values; [try ... except] is a handler on the result of
      the protected block. *)

From Stdlib Require Import ZArith String Ascii List Lia SpecFloat.
From stdpp Require Import base tactics option list gmap sets strings pretty.

Local Open Scope string_scope.
Local Open Scope list_scope.
Local Open Scope Z_scope.

(** ** Python built-ins used by the program *)

Module Py.

(** Exceptions the program can meet; every one of them is a subclass of
    [Exception].  [ValueError] is the only class the source names. *)
Inductive exception :=
| ValueError (msg : string)
| EOFError
| OperationalError (msg : string)
| IntegrityError (msg : string)
| DatabaseError (msg : string).

(** [str(e)] *)
Definition exc_str (e : exception) : string :=
  match e with
  | ValueError msg | OperationalError msg
  | IntegrityError msg | DatabaseError msg => msg
  | EOFError => "EOF when reading a line"
  end.

(** [isinstance(e, ValueError)] *)
Definition is_ValueError (e : exception) : bool :=
  match e with ValueError _ => true | _ => false end.

(** [s.isascii()]: every character is below 128.  On such text the
    definitions below are [str.strip], [str.lower] and [int] exactly. *)
Fixpoint isascii (s : string) : bool :=
  match s with
  | EmptyString => true
  | String c s' => (nat_of_ascii c <? 128)%nat && isascii s'
  end.

(** [c.isspace()] on ASCII: TAB, LF, VT, FF, CR, FS, GS, RS, US, space. *)
Definition isspace (c : ascii) : bool :=
  let n := nat_of_ascii c in
  ((9 <=? n) && (n <=? 13) || (28 <=? n) && (n <=? 32))%nat.

(** The whitespace that [int()] skips around a number: TAB, LF, VT, FF,
    CR and space, but none of FS, GS, RS, US. *)
Definition int_space (c : ascii) : bool :=
  let n := nat_of_ascii c in
  ((9 <=? n) && (n <=? 13) || (n =? 32))%nat.

Fixpoint lstrip_of (space : ascii -> bool) (s : string) : string :=
  match s with
  | EmptyString => EmptyString
  | String c s' => if space c then lstrip_of space s' else s
  end.

Fixpoint rstrip_of (space : ascii -> bool) (s : string) : string :=
  match s with
  | EmptyString => EmptyString
  | String c s' =>
      match rstrip_of space s' with
      | EmptyString => if space c then EmptyString else String c EmptyString
      | t => String c t
      end
  end.

(** [s.strip()] *)
Definition strip (s : string) : string :=
  rstrip_of isspace (lstrip_of isspace s).

Definition lower_char (c : ascii) : ascii :=
  let n := nat_of_ascii c in
  if ((65 <=? n) && (n <=? 90))%nat then ascii_of_nat (n + 32) else c.

(** [s.lower()] *)
Fixpoint lower (s : string) : string :=
  match s with
  | EmptyString => EmptyString
  | String c s' => String (lower_char c) (lower s')
  end.

Definition digit_of (c : ascii) : option Z :=
  let n := nat_of_ascii c in
  if ((48 <=? n) && (n <=? 57))%nat then Some (Z.of_nat n - 48) else None.

(** Decimal digits, single underscores allowed between two digits. *)
Fixpoint int_digits (acc : Z) (after_digit : bool) (s : string) : option Z :=
  match s with
  | EmptyString => if after_digit then Some acc else None
  | String c s' =>
      if Ascii.eqb c "_"%char
      then (if after_digit then int_digits acc false s' else None)
      else match digit_of c with
           | Some d => int_digits (10 * acc + d) true s'
           | None => None
           end
  end.

(** The number of digits in a string. *)
Fixpoint digits_in (s : string) : Z :=
  match s with
  | EmptyString => 0
  | String c s' =>
      match digit_of c with Some _ => 1 | None => 0 end + digits_in s'
  end.

(** [sys.get_int_max_str_digits()] as the interpreter starts (Python
    3.11): [int] refuses a number with more digits. *)
Definition int_max_str_digits : Z := 4300.

(** A decimal number without its sign. *)
Definition int_unsigned (s : string) : option Z :=
  if digits_in s <=? int_max_str_digits then int_digits 0 false s else None.

(** [int(s)]: surrounding whitespace is ignored, one sign is allowed;
    [None] stands for the [ValueError] that [int] raises. *)
Definition int (s : string) : option Z :=
  match rstrip_of int_space (lstrip_of int_space s) with
  | String "-" t => Z.opp <$> int_unsigned t
  | String "+" t => int_unsigned t
  | t => int_unsigned t
  end.

(** The [ValueError] of [int(s)] for text that is not a number; the text
    is quoted as [repr] quotes a string without quotes, backslashes or
    control characters.  (For a number over the digit limit the
    interpreter has another message; no statement below is about the
    wording.) *)
Definition int_error (s : string) : exception :=
  ValueError ("invalid literal for int() with base 10: '" +:+ s +:+ "'").

End Py.

Example strip_ex : Py.strip "  Ann_Lee	" = "Ann_Lee".
Proof. reflexivity. Qed.

Example int_ex1 : Py.int " -42 " = Some (-42).
Proof. reflexivity. Qed.

Example int_ex2 : Py.int "1_000" = Some 1000.
Proof. reflexivity. Qed.

Example int_ex3 : Py.int "12a" = None /\ Py.int "" = None /\ Py.int "1__0" = None.
Proof. repeat split; reflexivity. Qed.

(** A unit separator is whitespace for [strip], not for [int]. *)
Example int_ex4 :
  Py.strip (String "031" "1") = "1" /\ Py.int (String "031" "1") = None /\
  Py.int (String "009" "1 ") = Some 1.
Proof. repeat split; reflexivity. Qed.

Example lower_ex : Py.lower "Yes" = "yes".
Proof. reflexivity. Qed.

Example isascii_ex :
  Py.isascii "Ann_Lee" = true /\ Py.isascii (String "194" (String "160" "")) = false.
Proof. split; reflexivity. Qed.

(** ** Data model *)

(** One row of [users]; the fields are the columns of the [CREATE TABLE]
    statement in [initialize_database]. *)
Record user := mk_user {
  id : Z;
  name : string;
  age : Z;
  iq : Z;
  bench_press : Z
}.

(** A table with the schema of [users]: its rows in rowid order and the
    AUTOINCREMENT counter (the largest rowid handed out so far). *)
Record table := mk_table {
  rows : list user;
  seq : Z
}.

(** The database file: the catalogue of its tables, by name. *)
Abbreviation database := (gmap string table).

(** What [pd.read_sql_query] and [pd.DataFrame()] build. *)
Record DataFrame := mk_frame {
  columns : list string;
  records : list user
}.

(** [df.empty]: some axis has length zero. *)
Definition df_empty (df : DataFrame) : bool :=
  match columns df, records df with
  | [], _ | _, [] => true
  | _, _ => false
  end.

Inductive result (A : Type) :=
| Ok (a : A)
| Raise (e : Py.exception).
Arguments Ok {A} a.
Arguments Raise {A} e.

(** ** The storage engine *)

Module Sqlite.

Inductive assignment :=
| SetBenchPress (v : Z)
| SetIq (v : Z)
| SetAge (v : Z)
| SetName (s : string).

(** The statements the program sends, with their bound parameters. *)
Inductive statement :=
| CreateUsersIfNotExists
| InsertUser (n : string) (a i b : Z)
| SelectCountWhereId (x : Z)
| DeleteWhereId (x : Z)
| UpdateWhereId (s : assignment) (x : Z)
| SelectAll.

Inductive answer :=
| NoRows
| Count (n : Z)
| Rows (rs : list user).

(** [cursor.fetchone()[0]] after a [SELECT COUNT( * )] *)
Definition fetchone_0 (a : answer) : Z :=
  match a with Count n => n | _ => 0 end.

(** The [CHECK] constraints of the table: [age > 0], [iq > 0],
    [bench_press >= 0].  [name] is [NOT NULL], which every string is. *)
Definition check (r : user) : bool :=
  (0 <? age r) && (0 <? iq r) && (0 <=? bench_press r).

(** On [UPDATE] the engine evaluates the constraints of the assigned
    column, for the rows it changes. *)
Definition check_assigned (s : assignment) : bool :=
  match s with
  | SetBenchPress v => 0 <=? v
  | SetIq v => 0 <? v
  | SetAge v => 0 <? v
  | SetName _ => true
  end.

Definition max_rowid (rs : list user) : Z :=
  foldr (fun r m => Z.max (id r) m) 0 rs.

(** AUTOINCREMENT: one more than the largest rowid the table ever had. *)
Definition next_rowid (t : table) : Z :=
  Z.max (seq t) (max_rowid (rows t)) + 1.

Definition assign (s : assignment) (r : user) : user :=
  match s with
  | SetBenchPress v => mk_user (id r) (name r) (age r) (iq r) v
  | SetIq v => mk_user (id r) (name r) (age r) v (bench_press r)
  | SetAge v => mk_user (id r) (name r) v (iq r) (bench_press r)
  | SetName s => mk_user (id r) s (age r) (iq r) (bench_press r)
  end.

Definition update_row (s : assignment) (x : Z) (r : user) : user :=
  if id r =? x then assign s r else r.

Definition no_such_table : Py.exception :=
  Py.OperationalError "no such table: users".

Definition check_failed : Py.exception :=
  Py.IntegrityError "CHECK constraint failed".

Definition on_users (d : database)
    (k : table -> result (answer * database)) : result (answer * database) :=
  match d !! "users" with
  | Some t => k t
  | None => Raise no_such_table
  end.

(** One statement against a database: the answer and the database
    after it, or the error; a failed statement changes nothing. *)
Definition execute (s : statement) (d : database) : result (answer * database) :=
  match s with
  | CreateUsersIfNotExists =>
      match d !! "users" with
      | Some _ => Ok (NoRows, d)
      | None => Ok (NoRows, <["users" := mk_table [] 0]> d)
      end
  | InsertUser n a i b =>
      on_users d (fun t =>
        let r := mk_user (next_rowid t) n a i b in
        if check r
        then Ok (NoRows, <["users" := mk_table (rows t ++ [r]) (id r)]> d)
        else Raise check_failed)
  | SelectCountWhereId x =>
      on_users d (fun t =>
        Ok (Count (Z.of_nat (length (filter (fun r => id r = x) (rows t)))), d))
  | DeleteWhereId x =>
      on_users d (fun t =>
        Ok (NoRows, <["users" := mk_table (filter (fun r => id r ≠ x) (rows t)) (seq t)]> d))
  | UpdateWhereId a x =>
      on_users d (fun t =>
        if check_assigned a
           || bool_decide (filter (fun r => id r = x) (rows t) = [])
        then Ok (NoRows,
                 <["users" := mk_table (map (update_row a x) (rows t)) (seq t)]> d)
        else Raise check_failed)
  | SelectAll =>
      on_users d (fun t => Ok (Rows (rows t), d))
  end.

(** An [INTEGER] of SQLite has 64 bits, signed.  The driver refuses to
    bind a Python [int] outside that range ([OverflowError]); [execute]
    above is the engine on parameters that were bound. *)
Definition int64 (z : Z) : Prop := - 2 ^ 63 <= z < 2 ^ 63.

(** The integer parameters of a statement can be bound. *)
Definition binds (s : statement) : Prop :=
  match s with
  | InsertUser _ a i b => int64 a /\ int64 i /\ int64 b
  | SelectCountWhereId x | DeleteWhereId x => int64 x
  | UpdateWhereId (SetBenchPress v) x | UpdateWhereId (SetIq v) x
  | UpdateWhereId (SetAge v) x => int64 v /\ int64 x
  | UpdateWhereId (SetName _) x => int64 x
  | CreateUsersIfNotExists | SelectAll => True
  end.

(** Statements that open a transaction on the connection. *)
Definition writes (s : statement) : bool :=
  match s with
  | SelectCountWhereId _ | SelectAll => false
  | _ => true
  end.

End Sqlite.

(** ** The world the program runs in *)

Inductive console_event :=
| Printed (s : string)            (* print(s) *)
| PrintedFrame (df : DataFrame)   (* print(df.to_string(index=False)) *)
| Prompted (s : string).          (* the prompt of input(s) *)

Inductive sql_event :=
| Executed (s : Sqlite.statement) (* cursor.execute / pd.read_sql_query *)
| Committed                       (* conn.commit() *)
| RolledBack.                     (* conn.rollback() *)

Inductive plot_event :=
| Scatter (xs ys : list Z)        (* plt.figure ... plt.grid *)
| CorrelationText (xs ys : list Z)(* plt.text with the correlation *)
| Saved (filename : string)       (* plt.savefig(filename) *)
| Shown.                          (* plt.show() *)

Record world := mk_world {
  disk : database;                (* my_database.db, as committed *)
  pending : option database;      (* the open transaction's view, if any *)
  stdin : list string;            (* lines the operator still types *)
  stdout : list console_event;
  sql_log : list sql_event;
  files : gset string;            (* paths that exist in the working directory *)
  plots : list plot_event
}.

(** A computation that may raise: the outcome and the world after it.
    [None] is reserved for a loop that ran out of fuel; no primitive
    returns it. *)
Definition M (A : Type) : Type := world -> option (result A * world).

#[global] Instance M_ret : MRet M := fun A a w => Some (Ok a, w).

#[global] Instance M_bind : MBind M := fun A B f m w =>
  match m w with
  | Some (Ok a, w') => f a w'
  | Some (Raise e, w') => Some (Raise e, w')
  | None => None
  end.

Definition raise {A} (e : Py.exception) : M A := fun w => Some (Raise e, w).

(** [try: body  except ValueError as e: on_value e  except Exception as e:
    on_other e]; an exception raised inside a handler propagates. *)
Definition try_except {A} (body : M A)
    (on_value : option (Py.exception -> M A))
    (on_other : option (Py.exception -> M A)) : M A := fun w =>
  match body w with
  | Some (Raise e, w') =>
      match (if Py.is_ValueError e then on_value else None), on_other with
      | Some h, _ | None, Some h => h e w'
      | None, None => Some (Raise e, w')
      end
  | done => done
  end.

Definition emit (ev : console_event) : M unit := fun w =>
  Some (Ok (), mk_world (disk w) (pending w) (stdin w) (stdout w ++ [ev])
                 (sql_log w) (files w) (plots w)).

Definition print (s : string) : M unit := emit (Printed s).

(** [input(prompt)]: the prompt is written, then a line is read. *)
Definition input (prompt : string) : M string := fun w =>
  let out := stdout w ++ [Prompted prompt] in
  match stdin w with
  | line :: rest =>
      Some (Ok line,
            mk_world (disk w) (pending w) rest out (sql_log w) (files w) (plots w))
  | [] =>
      Some (Raise Py.EOFError,
            mk_world (disk w) (pending w) [] out (sql_log w) (files w) (plots w))
  end.

(** [int(text)] *)
Definition int (text : string) : M Z :=
  match Py.int text with
  | Some z => mret z
  | None => raise (Py.int_error text)
  end.

(** [conn = connect_db()]: a fresh connection to the file, with no
    transaction open.  The world is one in which [my_database.db] can be
    opened; [sqlite3.connect] raises [OperationalError] where it cannot,
    see [unable_to_open] and [read_db_with]. *)
Definition connect_db : M unit := fun w =>
  Some (Ok (), mk_world (disk w) None (stdin w) (stdout w) (sql_log w)
                 (files w) (plots w)).

(** [cursor.execute(s)] on the open connection: the statement sees the
    connection's own uncommitted changes; a writing statement that
    succeeds leaves its changes pending until [commit]. *)
Definition cursor_execute (s : Sqlite.statement) : M Sqlite.answer := fun w =>
  let log := sql_log w ++ [Executed s] in
  match Sqlite.execute s (default (disk w) (pending w)) with
  | Ok (a, d) =>
      Some (Ok a,
            mk_world (disk w) (if Sqlite.writes s then Some d else pending w)
              (stdin w) (stdout w) log (files w) (plots w))
  | Raise e =>
      Some (Raise e,
            mk_world (disk w) (pending w) (stdin w) (stdout w) log
              (files w) (plots w))
  end.

(** [conn.commit()] *)
Definition conn_commit : M unit := fun w =>
  Some (Ok (), mk_world (default (disk w) (pending w)) None (stdin w) (stdout w)
                 (sql_log w ++ [Committed]) (files w) (plots w)).

(** [conn.rollback()] *)
Definition conn_rollback : M unit := fun w =>
  Some (Ok (), mk_world (disk w) None (stdin w) (stdout w)
                 (sql_log w ++ [RolledBack]) (files w) (plots w)).

(** [conn.close()]: changes that were not committed are lost. *)
Definition conn_close : M unit := fun w =>
  Some (Ok (), mk_world (disk w) None (stdin w) (stdout w) (sql_log w)
                 (files w) (plots w)).

(** ** Loops *)

Inductive control := Break | Continue.

(** [while True: body] with a bound on the number of iterations.  An
    exception that the body does not handle ends the loop and
    propagates. *)
Fixpoint while_true (fuel : nat) (body : M control) : M unit := fun w =>
  match fuel with
  | O => None
  | S n =>
      match body w with
      | Some (Ok Break, w') => Some (Ok (), w')
      | Some (Ok Continue, w') => while_true n body w'
      | Some (Raise e, w') => Some (Raise e, w')
      | None => None
      end
  end.

(** The program's retry loops read at least one line in every iteration
    that continues, so one more iteration than there are lines left is
    always enough (see [add_new_user_returns] and its siblings). *)
Definition retry_loop (body : M control) : M unit := fun w =>
  while_true (S (length (stdin w))) body w.

(** ** The program *)

(** [initialize_database()] *)
Definition initialize_database : M unit :=
  connect_db;;
  cursor_execute Sqlite.CreateUsersIfNotExists;;
  conn_commit;;
  conn_close.

(** The body of the [try] in [add_new_user]. *)
Definition add_new_user_try : M control :=
  line ← input "Name (Name_Lastname): ";
  let name := Py.strip line in
  if bool_decide (name = "") then raise (Py.ValueError "Name cannot be empty") else
  age ← input "Age: " ≫= int;
  if age <=? 0 then raise (Py.ValueError "Age must be a positive number") else
  iq ← input "IQ: " ≫= int;
  if iq <=? 0 then raise (Py.ValueError "IQ must be a positive number") else
  bench_press ← input "Bench press (kg): " ≫= int;
  if bench_press <? 0 then raise (Py.ValueError "Bench press cannot be negative") else
  cursor_execute (Sqlite.InsertUser name age iq bench_press);;
  conn_commit;;
  print "New user was added";;
  mret Break.

(** One iteration of the loop of [add_new_user]. *)
Definition add_new_user_iter : M control :=
  try_except add_new_user_try
    (Some (fun e =>
       print ("Invalid input: " +:+ Py.exc_str e +:+ ". Please try again");;
       mret Continue))
    (Some (fun e =>
       print ("An unexpected error occurred: " +:+ Py.exc_str e);;
       conn_rollback;;
       mret Break)).

(** [add_new_user()] *)
Definition add_new_user : M unit :=
  connect_db;;
  retry_loop add_new_user_iter;;
  conn_close.

Definition users_columns : list string :=
  ["id"; "name"; "age"; "iq"; "bench_press"].

Definition query_error (e : Py.exception) : Py.exception :=
  Py.DatabaseError
    ("Execution failed on sql 'SELECT * FROM users': " +:+ Py.exc_str e).

(** [pd.read_sql_query('SELECT * FROM users', conn)] *)
Definition read_sql_query : M DataFrame := fun w =>
  let w' := mk_world (disk w) (pending w) (stdin w) (stdout w)
              (sql_log w ++ [Executed Sqlite.SelectAll]) (files w) (plots w) in
  match Sqlite.execute Sqlite.SelectAll (disk w) with
  | Ok (Sqlite.Rows rs, _) => Some (Ok (mk_frame users_columns rs), w')
  | Ok (_, _) => Some (Ok (mk_frame [] []), w')
  | Raise e => Some (Raise (query_error e), w')
  end.

(** [pd.DataFrame()] *)
Definition DataFrame_new : DataFrame := mk_frame [] [].

(** What [sqlite3.connect] raises when the database file cannot be
    opened. *)
Definition unable_to_open : Py.exception :=
  Py.OperationalError "unable to open database file".

(** [connect_db()] where [my_database.db] cannot be opened: the call
    raises and there is no connection. *)
Definition connect_db_failing : M unit := raise unable_to_open.

(** [read_db()], with the two steps that may fail as parameters:
    [conn = connect_db()], which stands before the [try], and the query
    inside it.  [try: df = query  except Exception as e: print; df =
    pd.DataFrame()  finally: conn.close()  return df]. *)
Definition read_db_with (connect : M unit) (query : M DataFrame)
    : M DataFrame :=
  connect;;
  df ← try_except query None
         (Some (fun e =>
            print ("Error reading database: " +:+ Py.exc_str e);;
            mret DataFrame_new));
  conn_close;;
  mret df.

(** [read_db()] as the program runs it.  [connect_db] above is the call
    in a directory where [my_database.db] can be opened; the query reads
    what has been committed.  The operations call [read_db] when their
    own connection has no transaction open. *)
Definition read_db : M DataFrame := read_db_with connect_db read_sql_query.

(** The body of the [try] in [delete_user]. *)
Definition delete_user_try : M control :=
  user_id ← input "Enter user id to delete: " ≫= int;
  found ← cursor_execute (Sqlite.SelectCountWhereId user_id);
  if Sqlite.fetchone_0 found =? 0 then
    print "User with this ID does not exist. Please try again";;
    mret Continue
  else
    cursor_execute (Sqlite.DeleteWhereId user_id);;
    conn_commit;;
    print "User was deleted from DataBase";;
    mret Break.

Definition delete_user_iter : M control :=
  try_except delete_user_try
    (Some (fun _ =>
       print "Invalid input: Please enter a valid ID (number).";;
       mret Continue))
    (Some (fun e =>
       print ("Error deleting user: " +:+ Py.exc_str e);;
       conn_rollback;;
       mret Break)).

(** [delete_user()] *)
Definition delete_user : M unit :=
  connect_db;;
  df ← read_db;
  if df_empty df then
    print "Database is empty. Nothing to delete.";;
    conn_close
  else
    print "Current users:";;
    emit (PrintedFrame df);;
    retry_loop delete_user_iter;;
    conn_close.

(** The three numeric branches of [update_user] differ in the prompt, the
    range test, the two messages and the column: [try: v = int(input(..));
    if bad v: print; continue; execute; commit; print; break
    except ValueError: print; continue]. *)
Definition update_number (prompt : string) (bad : Z -> bool)
    (complaint : string) (set : Z -> Sqlite.assignment) (updated : string)
    (user_id : Z) : M control :=
  try_except
    (v ← input prompt ≫= int;
     if bad v then
       print complaint;;
       mret Continue
     else
       cursor_execute (Sqlite.UpdateWhereId (set v) user_id);;
       conn_commit;;
       print updated;;
       mret Break)
    (Some (fun _ =>
       print "Invalid input: Please enter a number.";;
       mret Continue))
    None.

(** [update_user], from the field menu on, for the id read before. *)
Definition update_user_menu (user_id : Z) : M control :=
  print "What do you want to update?";;
  print "1. Bench press";;
  print "2. IQ";;
  print "3. Age";;
  print "4. Name";;
  line ← input "Choose an option (1-4): ";
  let update_choice := Py.strip line in
  if bool_decide (update_choice = "1") then
    update_number "New bench press (kg): " (fun v => v <? 0)
      "Bench press cannot be negative." Sqlite.SetBenchPress
      "Bench press was updated" user_id
  else if bool_decide (update_choice = "2") then
    update_number "New IQ: " (fun v => v <=? 0)
      "IQ must be a positive number." Sqlite.SetIq
      "IQ was updated" user_id
  else if bool_decide (update_choice = "3") then
    update_number "New age: " (fun v => v <=? 0)
      "Age must be a positive number." Sqlite.SetAge
      "Age was updated" user_id
  else if bool_decide (update_choice = "4") then
    line ← input "New name: ";
    let new_name := Py.strip line in
    if bool_decide (new_name = "") then
      print "Name cannot be empty.";;
      mret Continue
    else
      cursor_execute (Sqlite.UpdateWhereId (Sqlite.SetName new_name) user_id);;
      conn_commit;;
      print "Name was updated";;
      mret Break
  else
    print "Invalid choice. Please enter 1, 2, 3, or 4.";;
    mret Continue.

(** The body of the outer [try] in [update_user]. *)
Definition update_user_try : M control :=
  user_id ← input "Enter user id to update: " ≫= int;
  found ← cursor_execute (Sqlite.SelectCountWhereId user_id);
  if Sqlite.fetchone_0 found =? 0 then
    print "User with this ID does not exist. Please try again";;
    mret Continue
  else
    update_user_menu user_id.

Definition update_user_iter : M control :=
  try_except update_user_try
    (Some (fun _ =>
       print "Invalid input: Please enter a valid ID (number).";;
       mret Continue))
    (Some (fun e =>
       print ("Error updating user: " +:+ Py.exc_str e);;
       conn_rollback;;
       mret Break)).

(** [update_user()] *)
Definition update_user : M unit :=
  connect_db;;
  df ← read_db;
  if df_empty df then
    print "Database is empty. Nothing to update.";;
    conn_close
  else
    print "Current users:";;
    emit (PrintedFrame df);;
    retry_loop update_user_iter;;
    conn_close.

(** [os.path.exists(filename)] *)
Definition path_exists (fs : gset string) (filename : string) : bool :=
  bool_decide (filename ∈ fs).

(** The [while True] of [get_unique_filename], from [counter] on. *)
Fixpoint unique_filename_from (fuel : nat) (fs : gset string)
    (base_name extension : string) (counter : Z) : option string :=
  match fuel with
  | O => None
  | S n =>
      let filename := base_name +:+ pretty counter +:+ extension in
      if negb (path_exists fs filename) then Some filename
      else unique_filename_from n fs base_name extension (counter + 1)
  end.

(** [get_unique_filename(base_name, extension)] in a directory holding
    [fs]: among the names probed, at most [size fs] exist, so
    [S (size fs)] probes of the counter are enough. *)
Definition get_unique_filename (base_name extension : string)
    (fs : gset string) : option string :=
  let filename := base_name +:+ extension in
  if negb (path_exists fs filename) then Some filename
  else unique_filename_from (S (size fs)) fs base_name extension 2.

Definition plot (ev : plot_event) : M unit := fun w =>
  Some (Ok (), mk_world (disk w) (pending w) (stdin w) (stdout w) (sql_log w)
                 (files w) (plots w ++ [ev])).

(** [plt.savefig(filename)]: the file exists afterwards. *)
Definition savefig (filename : string) : M unit := fun w =>
  Some (Ok (), mk_world (disk w) (pending w) (stdin w) (stdout w) (sql_log w)
                 ({[filename]} ∪ files w) (plots w ++ [Saved filename])).

(** The call [get_unique_filename()] with its default arguments. *)
Definition unique_scatter_filename : M string := fun w =>
  match get_unique_filename "scatter" ".png" (files w) with
  | Some filename => Some (Ok filename, w)
  | None => None
  end.

(** [draw_scatter()] *)
Definition draw_scatter : M unit :=
  df ← read_db;
  if df_empty df then
    print "No data available for visualization"
  else
    let x := map iq (records df) in
    let y := map bench_press (records df) in
    plot (Scatter x y);;
    (if 1 <? Z.of_nat (length (records df))
     then plot (CorrelationText x y) else mret ());;
    line ← input "Do you want to save the scatter? (y/n): ";
    let save_choice := Py.lower (Py.strip line) in
    (if bool_decide (save_choice = "y") then
       filename ← unique_scatter_filename;
       savefig filename;;
       print ("Scatter saved as " +:+ filename)
     else mret ());;
    plot Shown.

(** ** Statistics *)

(** The column arithmetic of pandas on an integer column.  Values are
    IEEE 754 binary64 numbers in the standard library's specification
    ([prec = 53], [emax = 1024]). *)
Module Pandas.

(** [float(z)] *)
Definition of_int (z : Z) : spec_float := binary_normalize 53 1024 z 0 false.

(** The sum of an integer column as [mean] takes it: every element is
    converted to binary64 and added to the running sum.  The additions
    are written from the left; numpy adds the elements in pairs.  As
    long as no addition rounds (no element is negative and the elements
    add up to less than [2^53]) every order gives the exact total, and
    what is proved of the printed averages is proved under that bound. *)
Definition sum (xs : list Z) : spec_float :=
  fold_left (fun acc x => SFadd 53 1024 acc (of_int x)) xs (S754_zero false).

(** [Series.mean()]: the sum divided by the count, both binary64. *)
Definition mean (xs : list Z) : spec_float :=
  SFdiv 53 1024 (sum xs) (of_int (Z.of_nat (length xs))).

(** [Series.max()] and [Series.min()]; an empty column has none. *)
Definition max (xs : list Z) : option Z :=
  match xs with
  | [] => None
  | x :: rest => Some (fold_left Z.max rest x)
  end.

Definition min (xs : list Z) : option Z :=
  match xs with
  | [] => None
  | x :: rest => Some (fold_left Z.min rest x)
  end.

End Pandas.

(** The integer nearest to [n / d] for [0 < d], the even one of two
    that are equally near. *)
Definition round_half_even (n d : Z) : Z :=
  let q := n / d in
  let r := n mod d in
  if 2 * r <? d then q
  else if d <? 2 * r then q + 1
  else if Z.even q then q else q + 1.

(** The magnitude [m * 2^e] in tenths, rounded to the nearest. *)
Definition tenths (m : positive) (e : Z) : Z :=
  if 0 <=? e then 10 * Z.pos m * 2 ^ e
  else round_half_even (10 * Z.pos m) (2 ^ (- e)).

Definition sign_str (s : bool) : string := if s then "-" else "".

(** [f"{x:.1f}"]: the decimal with one digit after the point that is
    nearest to the exact value of [x]. *)
Definition format_1f (x : spec_float) : string :=
  match x with
  | S754_nan => "nan"
  | S754_infinity s => sign_str s +:+ "inf"
  | S754_zero s => sign_str s +:+ "0.0"
  | S754_finite s m e =>
      let t := tenths m e in
      sign_str s +:+ pretty (t / 10) +:+ "." +:+ pretty (t mod 10)
  end.

(** [f"{v}"] for the result of [max] or [min]. *)
Definition format_stat (v : option Z) : string :=
  match v with
  | Some z => pretty z
  | None => "nan"
  end.

(** ["=" * n] *)
Fixpoint str_repeat (s : string) (n : nat) : string :=
  match n with
  | O => ""
  | S k => s +:+ str_repeat s k
  end.

(** [show_statistics()] *)
Definition show_statistics : M unit :=
  df ← read_db;
  if df_empty df then
    print "No data available for statistics"
  else
    let rs := records df in
    print (String "010" "Data Statistics:");;
    print (str_repeat "=" 30);;
    print ("Total users: " +:+ pretty (Z.of_nat (length rs)));;
    print ("Average age: " +:+ format_1f (Pandas.mean (map age rs)));;
    print ("Average IQ: " +:+ format_1f (Pandas.mean (map iq rs)));;
    print ("Average bench press: " +:+
             format_1f (Pandas.mean (map bench_press rs)) +:+ " kg");;
    print ("Max bench press: " +:+
             format_stat (Pandas.max (map bench_press rs)) +:+ " kg");;
    print ("Min bench press: " +:+
             format_stat (Pandas.min (map bench_press rs)) +:+ " kg").

(** ** The menu *)

(** The option list [main] prints at the top of every pass. *)
Definition main_menu : M unit :=
  print (String "010" "Options:");;
  print "1. View all users";;
  print "2. Add new user";;
  print "3. Delete user";;
  print "4. Update user";;
  print "5. Show statistics";;
  print "6. Create scatter plot";;
  print "7. Exit".

(** The branches of [main] on the stripped choice. *)
Definition main_choice (choice : string) : M control :=
  if bool_decide (choice = "1") then
    df ← read_db;
    (if df_empty df then
       print "Database is empty"
     else
       print (String "010" "Current database content:");;
       emit (PrintedFrame df));;
    mret Continue
  else if bool_decide (choice = "2") then
    add_new_user;; mret Continue
  else if bool_decide (choice = "3") then
    delete_user;; mret Continue
  else if bool_decide (choice = "4") then
    update_user;; mret Continue
  else if bool_decide (choice = "5") then
    show_statistics;; mret Continue
  else if bool_decide (choice = "6") then
    draw_scatter;; mret Continue
  else if bool_decide (choice = "7") then
    print "Program ended";;
    mret Break
  else
    print "Invalid choice. Please enter a number between 1 and 7.";;
    mret Continue.

(** One pass through the [while True] of [main]. *)
Definition main_iter : M control :=
  main_menu;;
  line ← input "Choose an option (1-7): ";
  main_choice (Py.strip line).

(** [main()].  Every pass that continues has read the choice, so the
    bound of [retry_loop] is enough here as well. *)
Definition main : M unit :=
  initialize_database;;
  print "=== User Database Manager ===";;
  retry_loop main_iter.

(** * Properties *)

(** ** Running the monad *)

Arguments Py.strip : simpl never.
Arguments Py.int : simpl never.
Arguments Py.lower : simpl never.
Arguments Sqlite.execute : simpl never.

Ltac unfold_M :=
  unfold try_except, int, input, cursor_execute, conn_commit, conn_rollback,
    conn_close, connect_db, print, emit, raise, plot, savefig,
    mbind, M_bind, mret, M_ret in *.

(** Case analysis over every path of a loop body. *)
Ltac run_body :=
  repeat (cbn -[Z.leb Z.ltb Z.eqb] in *; try case_match; simplify_eq).

(** Decide the comparisons of two string literals in the goal. *)
Ltac decide_literals :=
  repeat match goal with
  | |- context [bool_decide (String ?c ?s = String ?c' ?s')] =>
      let b := eval vm_compute in (bool_decide (String c s = String c' s')) in
      change (bool_decide (String c s = String c' s')) with b
  end.

(** A loop body progresses when it returns a control decision and has
    read at least one line whenever it asks for another iteration. *)
Definition progresses (body : M control) : Prop :=
  forall w, exists c w', body w = Some (Ok c, w') /\
    (c = Continue -> (length (stdin w') < length (stdin w))%nat).

Ltac solve_progress :=
  eexists _, _; split; [reflexivity | cbn; intros; first [discriminate | lia]].

Lemma add_new_user_iter_progresses : progresses add_new_user_iter.
Proof.
  intros [d p inp out log fs pl].
  unfold add_new_user_iter, add_new_user_try. unfold_M.
  run_body; solve_progress.
Qed.

Lemma delete_user_iter_progresses : progresses delete_user_iter.
Proof.
  intros [d p inp out log fs pl].
  unfold delete_user_iter, delete_user_try. unfold_M.
  run_body; solve_progress.
Qed.

(** ** Computations that return *)

(** [m] is steady when, from every world, it returns an outcome, reads
    input without ever giving lines back, and only adds to the console. *)
Definition steady {A} (m : M A) : Prop :=
  forall w, exists r w', m w = Some (r, w') /\
    (length (stdin w') <= length (stdin w))%nat /\
    exists tail, stdout w' = stdout w ++ tail.

Lemma steady_ret {A} (a : A) : steady (mret a).
Proof. intros w. exists (Ok a), w. repeat split; [done|]. exists []. by rewrite app_nil_r. Qed.

Lemma steady_raise {A} e : steady (@raise A e).
Proof. intros w. exists (Raise e), w. repeat split; [done|]. exists []. by rewrite app_nil_r. Qed.

Lemma steady_bind {A B} (m : M A) (f : A -> M B) :
  steady m -> (forall a, steady (f a)) -> steady (m ≫= f).
Proof.
  intros Hm Hf w. destruct (Hm w) as (r & w1 & Em & Hlen & tail & Hout).
  unfold mbind, M_bind. rewrite Em. destruct r as [a|e].
  - destruct (Hf a w1) as (r2 & w2 & Ef & Hlen2 & tail2 & Hout2).
    exists r2, w2. split; [done|]. split; [lia|].
    exists (tail ++ tail2). by rewrite Hout2, Hout, app_assoc.
  - exists (Raise e), w1. eauto.
Qed.

Lemma steady_try_except {A} (body : M A) on_value on_other :
  steady body ->
  (forall h e, on_value = Some h -> steady (h e)) ->
  (forall h e, on_other = Some h -> steady (h e)) ->
  steady (try_except body on_value on_other).
Proof.
  intros Hb Hv Ho w. destruct (Hb w) as (r & w1 & Eb & Hlen & tail & Hout).
  unfold try_except. rewrite Eb. destruct r as [a|e]; [by eauto 6|].
  assert (forall h : Py.exception -> M A, steady (h e) ->
            exists r w', h e w1 = Some (r, w') /\
              (length (stdin w') <= length (stdin w))%nat /\
              exists tail, stdout w' = stdout w ++ tail) as Hh.
  { intros h Hs. destruct (Hs w1) as (r2 & w2 & Eh & Hlen2 & tail2 & Hout2).
    exists r2, w2. split; [done|]. split; [lia|].
    exists (tail ++ tail2). by rewrite Hout2, Hout, app_assoc. }
  destruct (Py.is_ValueError e), on_value as [hv|], on_other as [ho|];
    eauto 6.
Qed.

Lemma steady_emit ev : steady (emit ev).
Proof. intros w. eexists _, _. split; [reflexivity|]. cbn. eauto. Qed.

Lemma steady_print s : steady (print s).
Proof. apply steady_emit. Qed.

Lemma steady_input prompt : steady (input prompt).
Proof.
  intros w. unfold input. destruct (stdin w) as [|l rest];
    eexists _, _; (split; [reflexivity|]); cbn; split; eauto; lia.
Qed.

Lemma steady_int text : steady (int text).
Proof. unfold int. destruct (Py.int text); [apply steady_ret|apply steady_raise]. Qed.

Lemma steady_cursor_execute s : steady (cursor_execute s).
Proof.
  intros w. unfold cursor_execute.
  destruct (Sqlite.execute s _) as [[a d]|e];
    eexists _, _; (split; [reflexivity|]); cbn; (split; [lia|]);
    exists []; by rewrite app_nil_r.
Qed.

Lemma steady_conn_commit : steady conn_commit.
Proof.
  intros w. eexists _, _. split; [reflexivity|]. cbn. split; [lia|].
  exists []. by rewrite app_nil_r.
Qed.

Lemma steady_conn_rollback : steady conn_rollback.
Proof.
  intros w. eexists _, _. split; [reflexivity|]. cbn. split; [lia|].
  exists []. by rewrite app_nil_r.
Qed.

Create HintDb steady.
#[local] Hint Resolve steady_ret steady_raise steady_print steady_emit
  steady_input steady_int steady_cursor_execute steady_conn_commit
  steady_conn_rollback : steady.

Ltac solve_steady :=
  repeat first
    [ solve [auto with steady]
    | apply steady_try_except; [ | intros ? ? [= <-] | intros ? ? ?; simplify_eq ]
    | apply steady_bind; [|intros ?]
    | match goal with |- steady (if ?b then _ else _) => destruct b end
    | progress cbv zeta ].

Lemma update_number_steady prompt bad complaint set updated user_id :
  steady (update_number prompt bad complaint set updated user_id).
Proof. unfold update_number. solve_steady. Qed.

#[local] Hint Resolve update_number_steady : steady.

Lemma update_user_menu_steady user_id : steady (update_user_menu user_id).
Proof. unfold update_user_menu. solve_steady. Qed.

#[local] Hint Resolve update_user_menu_steady : steady.

(** A loop body of the program's shape: a line is read and parsed as a
    number, the rest of the protected block is steady, a [ValueError]
    asks for another attempt and any other exception ends the loop. *)
Lemma number_first_progresses prompt (k : Z -> M control)
    (again stop : Py.exception -> M control) :
  (forall x, steady (k x)) ->
  (forall e w, exists w', again e w = Some (Ok Continue, w') /\
     stdin w' = stdin w /\ exists tail, stdout w' = stdout w ++ tail) ->
  (forall e w, exists w', stop e w = Some (Ok Break, w') /\
     exists tail, stdout w' = stdout w ++ tail) ->
  forall w, exists c w',
    try_except ((input prompt ≫= int) ≫= k) (Some again) (Some stop) w =
      Some (Ok c, w') /\
    (c = Continue -> (length (stdin w') < length (stdin w))%nat) /\
    exists tail, stdout w' = stdout w ++ Prompted prompt :: tail.
Proof.
  intros Hk Hagain Hstop [d p inp out log fs pl].
  unfold try_except, mbind, M_bind, input, int. cbn.
  destruct inp as [|l rest]; cbn.
  - destruct (Hstop Py.EOFError
                (mk_world d p [] (out ++ [Prompted prompt]) log fs pl))
      as (w' & -> & tail & Hout).
    exists Break, w'. split; [done|]. split; [done|].
    exists tail. rewrite Hout. cbn. by rewrite <- app_assoc.
  - destruct (Py.int l) as [x|]; cbn.
    + destruct (Hk x (mk_world d p rest (out ++ [Prompted prompt]) log fs pl))
        as (r & w1 & -> & Hlen & tail & Hout). cbn in Hlen, Hout.
      destruct r as [c|e].
      * exists c, w1. split; [done|]. split; [intros _; lia|].
        exists tail. by rewrite Hout, <- app_assoc.
      * destruct (Py.is_ValueError e).
        -- destruct (Hagain e w1) as (w' & -> & Hin & tail' & Hout').
           exists Continue, w'. split; [done|]. split; [rewrite Hin; lia|].
           exists (tail ++ tail'). by rewrite Hout', Hout, <- !app_assoc.
        -- destruct (Hstop e w1) as (w' & -> & tail' & Hout').
           exists Break, w'. split; [done|]. split; [done|].
           exists (tail ++ tail'). by rewrite Hout', Hout, <- !app_assoc.
    + destruct (Hagain (Py.int_error l)
                  (mk_world d p rest (out ++ [Prompted prompt]) log fs pl))
        as (w' & -> & Hin & tail & Hout). cbn in Hin, Hout.
      exists Continue, w'. split; [done|]. split; [rewrite Hin; lia|].
      exists tail. by rewrite Hout, <- app_assoc.
Qed.

Lemma update_user_iter_outcome w :
  exists c w', update_user_iter w = Some (Ok c, w') /\
    (c = Continue -> (length (stdin w') < length (stdin w))%nat) /\
    exists tail,
      stdout w' = stdout w ++ Prompted "Enter user id to update: " :: tail.
Proof.
  apply number_first_progresses.
  - intros x. solve_steady.
  - intros e w0. eexists. split; [reflexivity|]. cbn. eauto.
  - intros e w0. eexists. split; [reflexivity|]. cbn. eauto.
Qed.

Lemma update_user_iter_progresses : progresses update_user_iter.
Proof.
  intros w. destruct (update_user_iter_outcome w) as (c & w' & H & Hc & _).
  eauto.
Qed.

Section Loops.
Variable body : M control.
Hypothesis body_progresses : progresses body.

Lemma while_true_enough fuel w :
  (length (stdin w) < fuel)%nat ->
  exists w', while_true fuel body w = Some (Ok (), w').
Proof.
  revert w. induction fuel as [|fuel IH]; intros w Hlen; [lia|].
  destruct (body_progresses w) as (c & w1 & Hb & Hc). cbn. rewrite Hb.
  destruct c; [eauto|]. apply IH. specialize (Hc eq_refl). lia.
Qed.

Lemma while_true_fuel f1 f2 w :
  (length (stdin w) < f1)%nat -> (length (stdin w) < f2)%nat ->
  while_true f1 body w = while_true f2 body w.
Proof.
  revert f2 w. induction f1 as [|f1 IH]; intros [|f2] w H1 H2; try lia.
  destruct (body_progresses w) as (c & w1 & Hb & Hc). cbn. rewrite Hb.
  destruct c; [done|]. specialize (Hc eq_refl). apply IH; lia.
Qed.

(** The loop equation: the fuel of [retry_loop] never shows. *)
Lemma retry_loop_unfold w :
  retry_loop body w =
  match body w with
  | Some (Ok Break, w') => Some (Ok (), w')
  | Some (Ok Continue, w') => retry_loop body w'
  | Some (Raise e, w') => Some (Raise e, w')
  | None => None
  end.
Proof.
  unfold retry_loop at 1. cbn [while_true].
  destruct (body_progresses w) as (c & w1 & Hb & Hc). rewrite Hb.
  destruct c; [done|]. specialize (Hc eq_refl).
  unfold retry_loop. apply while_true_fuel; lia.
Qed.

Lemma retry_loop_continue w w1 :
  body w = Some (Ok Continue, w1) -> retry_loop body w = retry_loop body w1.
Proof. intros Hb. by rewrite retry_loop_unfold, Hb. Qed.

Lemma retry_loop_break w w1 :
  body w = Some (Ok Break, w1) -> retry_loop body w = Some (Ok (), w1).
Proof. intros Hb. by rewrite retry_loop_unfold, Hb. Qed.

(** Total correctness of a retry loop for a relation between the world
    before and the world after: it holds across a breaking iteration
    and composes with a continuing one. *)
Lemma retry_loop_rel (R : world -> world -> Prop) :
  (forall w w', body w = Some (Ok Break, w') -> R w w') ->
  (forall w w1 w', body w = Some (Ok Continue, w1) -> R w1 w' -> R w w') ->
  forall w, exists w', retry_loop body w = Some (Ok (), w') /\ R w w'.
Proof.
  intros Hbreak Hcont w.
  remember (length (stdin w)) as n eqn:Hn. revert w Hn.
  induction (lt_wf n) as [n _ IH]. intros w ->.
  rewrite retry_loop_unfold.
  destruct (body_progresses w) as (c & w1 & Hb & Hc). rewrite Hb.
  destruct c.
  - eauto.
  - destruct (IH (length (stdin w1)) (Hc eq_refl) w1 eq_refl) as (w' & Hl & HR).
    eauto.
Qed.
End Loops.

(** ** Typed lines *)

(** Lines of ASCII text: on these [Py.strip], [Py.lower] and [Py.int] are
    what Python computes. *)
Definition ascii_lines (lines : list string) : Prop :=
  Forall (fun l => Py.isascii l = true) lines.

(** Text that [Py.int] reads as a number is ASCII: blanks, a sign,
    digits and underscores.  A hypothesis [Py.int l = Some x] therefore
    needs no [Py.isascii l] next to it. *)
Lemma int_digits_isascii s : forall acc b z,
  Py.int_digits acc b s = Some z -> Py.isascii s = true.
Proof.
  induction s as [|c s IH]; intros acc b z H; [done|].
  cbn [Py.int_digits] in H. cbn [Py.isascii].
  destruct (Ascii.eqb c "_") eqn:E.
  - apply Ascii.eqb_eq in E as ->. destruct b; [|done].
    by rewrite (IH _ _ _ H).
  - unfold Py.digit_of in H.
    destruct ((48 <=? nat_of_ascii c)%nat && (nat_of_ascii c <=? 57)%nat)
      eqn:D; [|done].
    rewrite (IH _ _ _ H). apply andb_prop in D as [_ D].
    apply Nat.leb_le in D. rewrite andb_true_r. apply Nat.ltb_lt. lia.
Qed.

Lemma int_space_isascii c :
  Py.int_space c = true -> (nat_of_ascii c <? 128)%nat = true.
Proof. by destruct c as [[] [] [] [] [] [] [] []]. Qed.

Lemma lstrip_of_isascii space s :
  (forall c, space c = true -> (nat_of_ascii c <? 128)%nat = true) ->
  Py.isascii (Py.lstrip_of space s) = true -> Py.isascii s = true.
Proof.
  intros Hsp. induction s as [|c s IH]; [done|]. cbn [Py.lstrip_of].
  destruct (space c) eqn:Hc; [|done]. intros H%IH.
  cbn [Py.isascii]. by rewrite (Hsp _ Hc), H.
Qed.

Lemma rstrip_of_isascii space s :
  (forall c, space c = true -> (nat_of_ascii c <? 128)%nat = true) ->
  Py.isascii (Py.rstrip_of space s) = true -> Py.isascii s = true.
Proof.
  intros Hsp. induction s as [|c s IH]; [done|].
  cbn [Py.rstrip_of Py.isascii].
  destruct (Py.rstrip_of space s) as [|c' t].
  - rewrite (IH eq_refl). destruct (space c) eqn:Hc.
    + intros _. by rewrite (Hsp _ Hc).
    + cbn [Py.isascii]. by rewrite !andb_true_r.
  - cbn [Py.isascii] in *. intros [-> H]%andb_prop. by rewrite (IH H).
Qed.

Lemma int_isascii l x : Py.int l = Some x -> Py.isascii l = true.
Proof.
  unfold Py.int. intros H.
  apply (lstrip_of_isascii _ _ int_space_isascii),
        (rstrip_of_isascii _ _ int_space_isascii).
  destruct (Py.rstrip_of Py.int_space (Py.lstrip_of Py.int_space l))
    as [|c t]; [done|].
  assert (forall u z, Py.int_unsigned u = Some z -> Py.isascii u = true)
    as Hu.
  { intros u z. unfold Py.int_unsigned. destruct (_ <=? _); [|done].
    apply int_digits_isascii. }
  destruct c as [[] [] [] [] [] [] [] []];
    first [ destruct (Py.int_unsigned t) eqn:Ht in H; [|done];
            cbn [Py.isascii]; by rewrite (Hu _ _ Ht)
          | by apply Hu in H ].
Qed.

(** ** The record invariant *)

Definition valid_user (r : user) : Prop :=
  0 < age r /\ 0 < iq r /\ 0 <= bench_press r /\ name r <> "".

(** The rows of [users] in a database (none when the table is missing). *)
Definition users_of (d : database) : list user :=
  match d !! "users" with
  | Some t => rows t
  | None => []
  end.

Definition stored_valid (d : database) : Prop :=
  Forall valid_user (users_of d).

(** The values a statement asks the store to keep are within the
    constraints. *)
Definition valid_statement (s : Sqlite.statement) : Prop :=
  match s with
  | Sqlite.InsertUser n a i b => n <> "" /\ 0 < a /\ 0 < i /\ 0 <= b
  | Sqlite.UpdateWhereId (Sqlite.SetBenchPress v) _ => 0 <= v
  | Sqlite.UpdateWhereId (Sqlite.SetIq v) _ => 0 < v
  | Sqlite.UpdateWhereId (Sqlite.SetAge v) _ => 0 < v
  | Sqlite.UpdateWhereId (Sqlite.SetName s) _ => s <> ""
  | _ => True
  end.

Definition valid_event (ev : sql_event) : Prop :=
  match ev with
  | Executed s => valid_statement s
  | _ => True
  end.

(** [w'] continues [w] with the statements [new], all of them valid. *)
Definition issues_valid (w w' : world) : Prop :=
  exists new, sql_log w' = sql_log w ++ new /\ Forall valid_event new.

Lemma issues_valid_refl w : issues_valid w w.
Proof. exists []. by rewrite app_nil_r. Qed.

Lemma issues_valid_trans w1 w2 w3 :
  issues_valid w1 w2 -> issues_valid w2 w3 -> issues_valid w1 w3.
Proof.
  intros (n1 & E1 & F1) (n2 & E2 & F2). exists (n1 ++ n2).
  rewrite E2, E1, app_assoc. split; [done|]. by apply Forall_app.
Qed.

Lemma users_of_insert d t :
  users_of (<["users" := t]> d) = rows t.
Proof. unfold users_of. by rewrite lookup_insert_eq. Qed.

Lemma execute_insert_inv n a i b d ans d' :
  Sqlite.execute (Sqlite.InsertUser n a i b) d = Ok (ans, d') ->
  exists t, d !! "users" = Some t /\ 0 < a /\ 0 < i /\ 0 <= b /\
    d' = <["users" := mk_table
             (rows t ++ [mk_user (Sqlite.next_rowid t) n a i b])
             (Sqlite.next_rowid t)]> d.
Proof.
  unfold Sqlite.execute, Sqlite.on_users, Sqlite.check. cbn.
  destruct (d !! "users") as [t|]; [|done].
  destruct (0 <? a) eqn:Ha, (0 <? i) eqn:Hi, (0 <=? b) eqn:Hb;
    cbn; intros ?; simplify_eq.
  exists t. repeat split; lia.
Qed.

Lemma execute_select_count d x ans d' :
  Sqlite.execute (Sqlite.SelectCountWhereId x) d = Ok (ans, d') ->
  exists t, d !! "users" = Some t /\ d' = d /\
    ans = Sqlite.Count (Z.of_nat (length (filter (fun r => id r = x) (rows t)))).
Proof.
  unfold Sqlite.execute, Sqlite.on_users.
  destruct (d !! "users") as [t|]; intros ?; simplify_eq. eauto.
Qed.

(** One iteration of the create loop: what it sends to the store has
    passed validation, and the table changes only by a valid new row, on
    the iteration that ends the loop. *)
Definition inserted_valid (d d' : database) : Prop :=
  exists t r, d !! "users" = Some t /\ valid_user r /\
    id r = Sqlite.next_rowid t /\
    d' = <["users" := mk_table (rows t ++ [r]) (id r)]> d.

Ltac name_nonempty :=
  match goal with
  | H : bool_decide (_ = "") = false |- _ => apply bool_decide_eq_false in H
  end.

Ltac solve_issues :=
  unfold issues_valid; cbn;
  first
    [ by exists []; rewrite app_nil_r
    | rewrite <- ?app_assoc; eexists; split; [reflexivity|];
      repeat constructor; cbn; try lia; try (by name_nonempty) ].

Lemma add_new_user_iter_spec w c w1 :
  pending w = None ->
  add_new_user_iter w = Some (Ok c, w1) ->
  pending w1 = None /\ issues_valid w w1 /\
  match c with
  | Continue => disk w1 = disk w
  | Break => disk w1 = disk w \/ inserted_valid (disk w) (disk w1)
  end.
Proof.
  destruct w as [d p inp out log fs pl]. cbn. intros ->.
  unfold add_new_user_iter, add_new_user_try. unfold_M.
  run_body; intros; simplify_eq; cbn; (split; [done|]);
    (split; [solve_issues|]); auto.
  match goal with H : Sqlite.execute _ _ = _ |- _ =>
    apply execute_insert_inv in H as (t & Ht & ? & ? & ? & ->) end.
  right. exists t, (mk_user (Sqlite.next_rowid t) (Py.strip a) a0 a1 a2).
  repeat split; cbn; try done; try lia. by name_nonempty.
Qed.

Lemma inserted_valid_stored d d' :
  inserted_valid d d' -> stored_valid d -> stored_valid d'.
Proof.
  intros (t & r & Ht & Hr & _ & ->). unfold stored_valid.
  rewrite users_of_insert. unfold users_of. rewrite Ht. cbn.
  intros Hd. apply Forall_app. split; [done|]. by constructor.
Qed.

(** The store enforces the numeric constraints on its own as well: an
    insert outside them fails and leaves the database as it was. *)
Lemma execute_insert_checked n a i b d :
  ~ (0 < a /\ 0 < i /\ 0 <= b) ->
  exists e, Sqlite.execute (Sqlite.InsertUser n a i b) d = Raise e.
Proof.
  intros Hbad.
  destruct (Sqlite.execute (Sqlite.InsertUser n a i b) d) as [[ans d']|e] eqn:E;
    [|eauto].
  apply execute_insert_inv in E as (t & _ & ? & ? & ? & _). tauto.
Qed.

Definition create_effect (w w' : world) : Prop :=
  pending w = None ->
  pending w' = None /\ issues_valid w w' /\
  (disk w' = disk w \/ inserted_valid (disk w) (disk w')).

Lemma add_new_user_loop_spec w :
  exists w', retry_loop add_new_user_iter w = Some (Ok (), w') /\
    create_effect w w'.
Proof.
  apply (retry_loop_rel _ add_new_user_iter_progresses create_effect).
  - intros w0 w' Hb Hp. by apply (add_new_user_iter_spec _ _ _ Hp) in Hb.
  - intros w0 w1 w' Hb HR Hp.
    apply (add_new_user_iter_spec _ _ _ Hp) in Hb as (Hp1 & Hv1 & Hd1).
    destruct (HR Hp1) as (Hp' & Hv' & Hd'). split; [done|]. split.
    + by eapply issues_valid_trans.
    + by rewrite <- Hd1.
Qed.

(** C1.  Whatever the operator types, [add_new_user] returns, and every
    statement it has sent to the store carries values that passed
    validation: a non-empty name, [age > 0], [iq > 0], [bench_press >= 0].
    The committed table is either untouched or extended by exactly one
    row, which satisfies the invariant; so a table whose rows satisfy the
    invariant keeps satisfying it. *)
Theorem add_new_user_stores_valid (w : world) :
  exists w', add_new_user w = Some (Ok (), w') /\
    issues_valid w w' /\
    (disk w' = disk w \/ inserted_valid (disk w) (disk w')) /\
    (stored_valid (disk w) -> stored_valid (disk w')).
Proof.
  destruct w as [d p inp out log fs pl].
  destruct (add_new_user_loop_spec (mk_world d None inp out log fs pl))
    as (w' & Hloop & Heff).
  destruct (Heff eq_refl) as (Hp & Hv & Hd).
  exists (mk_world (disk w') None (stdin w') (stdout w') (sql_log w')
            (files w') (plots w')).
  unfold add_new_user. unfold_M. cbn -[retry_loop]. rewrite Hloop. cbn.
  repeat split; try done.
  destruct Hd as [->|Hd]; [done|]. by apply inserted_valid_stored.
Qed.

(** ** The engine on an existing table *)

Section Engine.
Variables (d : database) (t : table).
Hypothesis users_present : d !! "users" = Some t.

Lemma execute_select_all :
  Sqlite.execute Sqlite.SelectAll d = Ok (Sqlite.Rows (rows t), d).
Proof. unfold Sqlite.execute, Sqlite.on_users. by rewrite users_present. Qed.

Lemma execute_count x :
  Sqlite.execute (Sqlite.SelectCountWhereId x) d =
  Ok (Sqlite.Count (Z.of_nat (length (filter (fun r => id r = x) (rows t)))), d).
Proof. unfold Sqlite.execute, Sqlite.on_users. by rewrite users_present. Qed.

Lemma execute_delete x :
  Sqlite.execute (Sqlite.DeleteWhereId x) d =
  Ok (Sqlite.NoRows,
      <["users" := mk_table (filter (fun r => id r <> x) (rows t)) (seq t)]> d).
Proof. unfold Sqlite.execute, Sqlite.on_users. by rewrite users_present. Qed.

End Engine.

Lemma filter_id_length (rs : list user) x :
  length (filter (fun r => id r = x) rs) = 0%nat <-> x ∉ map id rs.
Proof.
  induction rs as [|r rs IH].
  - split; [intros _; apply not_elem_of_nil|done].
  - rewrite filter_cons. change (map id (r :: rs)) with (id r :: map id rs).
    rewrite not_elem_of_cons.
    destruct (decide (id r = x)) as [->|Hne]; cbn.
    + split; [done|]. by intros [? _].
    + rewrite IH. split; [by intros ?; split|by intros [_ ?]].
Qed.

(** ** Delete *)

(** The database as the open connection sees it. *)
Definition view (w : world) : database := default (disk w) (pending w).

Section DeleteAttempt.
Variables (w : world) (line : string) (rest : list string) (x : Z) (t : table).
Hypothesis typed : stdin w = line :: rest.
Hypothesis parsed : Py.int line = Some x.
Hypothesis users_present : view w !! "users" = Some t.


Lemma delete_user_iter_present :
  x ∈ map id (rows t) ->
  delete_user_iter w =
  Some (Ok Break,
        mk_world
          (<["users" := mk_table (filter (fun r => id r <> x) (rows t)) (seq t)]>
             (view w))
          None rest
          (stdout w ++ [Prompted "Enter user id to delete: "] ++
             [Printed "User was deleted from DataBase"])
          (sql_log w ++ [Executed (Sqlite.SelectCountWhereId x)] ++
             [Executed (Sqlite.DeleteWhereId x)] ++ [Committed])
          (files w) (plots w)).
Proof.
  intros Hpresent.
  assert (length (filter (fun r => id r = x) (rows t)) <> 0%nat) as Hn.
  { intros Hn. by apply filter_id_length in Hn. }
  destruct w as [d p inp out log fs pl]. unfold view in *. cbn in *. subst inp.
  unfold delete_user_iter, delete_user_try. unfold_M. cbn.
  rewrite parsed. cbn.
  rewrite (execute_count _ _ users_present). cbn.
  destruct (Z.eqb_spec (Z.of_nat (length (filter (fun r => id r = x) (rows t)))) 0)
    as [E|_]; [lia|].
  destruct p as [dp|]; cbn in *;
    rewrite (execute_delete _ _ users_present); cbn;
    by rewrite <- !app_assoc.
Qed.
End DeleteAttempt.



Definition ann : user := mk_user 1 "Ann_Lee" 30 110 60.
Definition bob : user := mk_user 2 "Bob_Ray" 41 95 80.

(** A world whose database holds [users] with the given rows. *)
Definition world_with (rs : list user) (n : Z) (lines : list string) : world :=
  mk_world {["users" := mk_table rs n]} None lines [] [] ∅ [].


(** ** Read-all *)

(** The world after a read: the query is on the log and the connection
    of [read_db] is closed; nothing else moved. *)
Definition after_query (w : world) : world :=
  mk_world (disk w) None (stdin w) (stdout w)
    (sql_log w ++ [Executed Sqlite.SelectAll]) (files w) (plots w).

Definition after_failed_query (e : Py.exception) (w : world) : world :=
  mk_world (disk w) None (stdin w)
    (stdout w ++ [Printed ("Error reading database: " +:+ Py.exc_str e)])
    (sql_log w) (files w) (plots w).

Lemma read_db_present w t :
  disk w !! "users" = Some t ->
  read_db w = Some (Ok (mk_frame users_columns (rows t)), after_query w).
Proof.
  intros Ht. unfold read_db, read_db_with, read_sql_query. unfold_M. cbn.
  by rewrite (execute_select_all _ _ Ht).
Qed.

Lemma read_db_absent w :
  disk w !! "users" = None ->
  read_db w =
  Some (Ok DataFrame_new,
        after_failed_query (query_error Sqlite.no_such_table) (after_query w)).
Proof.
  intros Ht. unfold read_db, read_db_with, read_sql_query. unfold_M. cbn.
  unfold Sqlite.execute, Sqlite.on_users. by rewrite Ht.
Qed.

(** An exception of the connecting step is the outcome of [read_db]. *)
Lemma read_db_with_unopened (connect : M unit) (query : M DataFrame) w e w1 :
  connect w = Some (Raise e, w1) ->
  read_db_with connect query w = Some (Raise e, w1).
Proof. intros Hc. unfold read_db_with, mbind, M_bind. by rewrite Hc. Qed.

(** An exception of the query is handled. *)
Lemma read_db_with_failed (connect : M unit) (query : M DataFrame) w e w0 w1 :
  connect w = Some (Ok (), w0) ->
  query w0 = Some (Raise e, w1) ->
  read_db_with connect query w =
  Some (Ok DataFrame_new, after_failed_query e w1).
Proof.
  intros Hc Hq. unfold read_db_with, mbind, M_bind, try_except.
  rewrite Hc, Hq. by destruct (Py.is_ValueError e).
Qed.

Lemma df_empty_users rs :
  df_empty (mk_frame users_columns rs) = bool_decide (rs = []).
Proof. by destruct rs. Qed.

(** The query on an open connection, whatever opened it. *)
Lemma read_db_with_present (connect : M unit) w w0 t :
  connect w = Some (Ok (), w0) ->
  disk w0 !! "users" = Some t ->
  read_db_with connect read_sql_query w =
  Some (Ok (mk_frame users_columns (rows t)), after_query w0).
Proof.
  intros Hc Ht. unfold read_db_with, mbind, M_bind. rewrite Hc.
  unfold read_sql_query, try_except. by rewrite (execute_select_all _ _ Ht).
Qed.

Lemma read_db_with_absent (connect : M unit) w w0 :
  connect w = Some (Ok (), w0) ->
  disk w0 !! "users" = None ->
  read_db_with connect read_sql_query w =
  Some (Ok DataFrame_new,
        after_failed_query (query_error Sqlite.no_such_table) (after_query w0)).
Proof.
  intros Hc Ht. unfold read_db_with, mbind, M_bind. rewrite Hc.
  unfold read_sql_query, try_except, Sqlite.execute, Sqlite.on_users.
  by rewrite Ht.
Qed.

(** C5, for failures of the query.  [read_db] opens its connection before
    the [try]: an exception of that step is raised to the caller.  Once
    the connection is open, [read_db] returns a frame, never an error.
    When [users] can be read, the frame holds all its rows in the order of
    the store, in which an inserted row comes after the rows already
    there; the frame is empty when the table has no rows.  When the query
    fails, for whatever reason, the failure is printed and the caller
    gets an empty frame. *)
Theorem read_db_returns_frame (connect : M unit) (w : world) :
  read_db = read_db_with connect_db read_sql_query /\
  (forall (query : M DataFrame) e w1,
     connect w = Some (Raise e, w1) ->
     read_db_with connect query w = Some (Raise e, w1)) /\
  (forall w0, connect w = Some (Ok (), w0) ->
     (exists df w', read_db_with connect read_sql_query w = Some (Ok df, w')) /\
     (forall t, disk w0 !! "users" = Some t ->
        read_db_with connect read_sql_query w =
          Some (Ok (mk_frame users_columns (rows t)), after_query w0) /\
        (rows t = [] -> df_empty (mk_frame users_columns (rows t)) = true) /\
        forall n a i b ans d',
          Sqlite.execute (Sqlite.InsertUser n a i b) (disk w0) = Ok (ans, d') ->
          users_of d' = rows t ++ [mk_user (Sqlite.next_rowid t) n a i b]) /\
     (forall (query : M DataFrame) e w1,
        query w0 = Some (Raise e, w1) ->
        read_db_with connect query w =
          Some (Ok DataFrame_new, after_failed_query e w1) /\
        df_empty DataFrame_new = true /\
        stdout (after_failed_query e w1) =
          stdout w1 ++ [Printed ("Error reading database: " +:+ Py.exc_str e)]) /\
     (disk w0 !! "users" = None ->
        exists w', read_db_with connect read_sql_query w =
                     Some (Ok DataFrame_new, w') /\
          stdout w' = stdout w0 ++
            [Printed ("Error reading database: Execution failed on sql " +:+
                      "'SELECT * FROM users': no such table: users")])).
Proof.
  split; [reflexivity|]. split.
  - intros query e w1. apply read_db_with_unopened.
  - intros w0 Hc. split; [|split; [|split]].
    + destruct (disk w0 !! "users") as [t|] eqn:Ht.
      * eexists _, _. by eapply read_db_with_present.
      * eexists _, _. by eapply read_db_with_absent.
    + intros t Ht. split; [by eapply read_db_with_present|]. split.
      * by intros ->.
      * intros n a i b ans d' He.
        apply execute_insert_inv in He as (t' & Ht' & _ & _ & _ & ->).
        rewrite users_of_insert. by simplify_eq.
    + intros query e w1 Hq. split; [by eapply read_db_with_failed|done].
    + intros Ht. eexists. split; [by eapply read_db_with_absent|done].
Qed.

Lemma read_db_returns_frame_witness :
  read_db (world_with [ann; bob] 2 []) =
    Some (Ok (mk_frame users_columns [ann; bob]),
          after_query (world_with [ann; bob] 2 [])) /\
  read_db_with connect_db (raise (Py.DatabaseError "database disk image is malformed"))
    (world_with [ann; bob] 2 []) =
    Some (Ok DataFrame_new,
          after_failed_query (Py.DatabaseError "database disk image is malformed")
            (world_with [ann; bob] 2 [])).
Proof.
  destruct (read_db_returns_frame connect_db (world_with [ann; bob] 2 []))
    as (_ & _ & Hopen).
  destruct (Hopen (world_with [ann; bob] 2 []) eq_refl)
    as (_ & Hrows & Hfail & _).
  split.
  - exact (proj1 (Hrows (mk_table [ann; bob] 2) eq_refl)).
  - exact (proj1 (Hfail (raise (Py.DatabaseError "database disk image is malformed"))
                    (Py.DatabaseError "database disk image is malformed")
                    (world_with [ann; bob] 2 []) eq_refl)).
Defined.

(** The claim as the specification words it: whichever step of the read
    fails, the caller gets an empty frame and the failure is printed. *)
Definition read_failure_reported (connect : M unit) (query : M DataFrame)
    (w : world) : Prop :=
  exists w' msg,
    read_db_with connect query w = Some (Ok DataFrame_new, w') /\
    stdout w' = stdout w ++ [Printed msg].

(** The database file cannot be opened: [connect_db()] raises before the
    [try] of [read_db] is entered, so no handler of [read_db] sees the
    error.  The caller gets the [OperationalError]; no frame is returned
    and nothing is printed. *)
Lemma read_db_connect_error_reaches_caller :
  read_db_with connect_db_failing read_sql_query
    (world_with [ann; bob] 2 []) =
    Some (Raise unable_to_open, world_with [ann; bob] 2 []) /\
  ~ read_failure_reported connect_db_failing read_sql_query
      (world_with [ann; bob] 2 []).
Proof.
  split; [reflexivity|]. intros (w' & msg & Hrun & _). discriminate Hrun.
Qed.

(** ** Delete, continued *)

Lemma filter_other_ids (rs : list user) x :
  x ∉ map id rs -> filter (fun r => id r <> x) rs = rs.
Proof.
  induction rs as [|r rs IH]; [done|].
  change (map id (r :: rs)) with (id r :: map id rs).
  rewrite not_elem_of_cons. intros [Hne Hrs].
  rewrite filter_cons. destruct (decide (id r <> x)) as [_|Heq].
  - by rewrite IH.
  - exfalso. apply Heq. congruence.
Qed.

(** Under the primary key, deleting by id takes exactly one row out and
    leaves the others in place. *)
Lemma filter_removes_one (rs : list user) x :
  NoDup (map id rs) -> x ∈ map id rs ->
  exists l1 r0 l2, rs = l1 ++ r0 :: l2 /\ id r0 = x /\
    filter (fun r => id r <> x) rs = l1 ++ l2.
Proof.
  induction rs as [|r rs IH]; [by intros _ ?%elem_of_nil|].
  change (map id (r :: rs)) with (id r :: map id rs).
  intros [Hr Hnd]%NoDup_cons Hx. rewrite filter_cons.
  destruct (decide (id r = x)) as [Heq|Hne].
  - exists [], r, rs. split; [done|]. split; [done|].
    destruct (decide (id r <> x)); [done|]. cbn.
    apply filter_other_ids. by rewrite <- Heq.
  - apply elem_of_cons in Hx as [Hx|Hx]; [congruence|].
    destruct (IH Hnd Hx) as (l1 & r0 & l2 & -> & Hid & Hf).
    exists (r :: l1), r0, l2. split; [done|]. split; [done|].
    destruct (decide (id r <> x)); [|done]. cbn. by rewrite Hf.
Qed.

(** C3.  On a table that holds a record with id [x] (ids being the
    primary key), [delete_user] given [x] returns with exactly that record
    removed: the rows are the old rows without it, in the same order, one
    fewer; no remaining row has id [x], and the read-all that follows
    returns these rows. *)
Theorem delete_user_removes_one (w : world) (line : string)
    (rest : list string) (x : Z) (t : table) :
  stdin w = line :: rest ->
  Py.int line = Some x ->
  disk w !! "users" = Some t ->
  NoDup (map id (rows t)) ->
  x ∈ map id (rows t) ->
  exists w' l1 r0 l2,
    delete_user w = Some (Ok (), w') /\
    rows t = l1 ++ r0 :: l2 /\ id r0 = x /\
    disk w' = <["users" := mk_table (l1 ++ l2) (seq t)]> (disk w) /\
    users_of (disk w') = l1 ++ l2 /\
    S (length (users_of (disk w'))) = length (rows t) /\
    (x ∉ map id (users_of (disk w'))) /\
    exists w'', read_db w' = Some (Ok (mk_frame users_columns (l1 ++ l2)), w'') /\
      (x ∉ map id (l1 ++ l2)).
Proof.
  intros Hin Hint Ht Hnd Hx.
  destruct (filter_removes_one _ _ Hnd Hx) as (l1 & r0 & l2 & Hrows & Hid & Hf).
  assert (x ∉ map id (l1 ++ l2)) as Hgone.
  { rewrite Hrows in Hnd. rewrite map_app in *. cbn in Hnd.
    rewrite <- Hid. apply NoDup_app in Hnd as [_ [Hl1 Hnd]].
    apply NoDup_cons in Hnd as [Hl2 _].
    intros [H1|H2]%elem_of_app; [|done].
    apply (Hl1 _ H1). apply elem_of_cons. by left. }
  destruct w as [d p inp out log fs pl]. cbn in Hin, Ht. subst inp.
  pose proof (read_db_present (mk_world d None (line :: rest) out log fs pl)
                t Ht) as Hread.
  pose proof (delete_user_iter_present
                (mk_world d None (line :: rest)
                   ((out ++ [Printed "Current users:"]) ++
                      [PrintedFrame (mk_frame users_columns (rows t))])
                   (log ++ [Executed Sqlite.SelectAll]) fs pl)
                line rest x t eq_refl Hint Ht Hx) as Hiter.
  apply (retry_loop_break _ delete_user_iter_progresses) in Hiter.
  eexists _, l1, r0, l2. split.
  - unfold delete_user. unfold_M. cbn -[retry_loop read_db].
    rewrite Hread. cbn -[retry_loop df_empty].
    rewrite df_empty_users, bool_decide_eq_false_2
      by (rewrite Hrows; by destruct l1).
    cbn -[retry_loop]. rewrite Hiter. cbn. reflexivity.
  - cbn. unfold view. cbn. rewrite Hf, users_of_insert. cbn.
    repeat split; try done.
    + rewrite Hrows, !length_app. cbn. lia.
    + eexists. split; [|done].
      apply (read_db_present _ (mk_table (l1 ++ l2) (seq t))). cbn.
      by rewrite lookup_insert_eq.
Qed.

Lemma delete_user_removes_one_witness :
  exists w', delete_user (world_with [ann; bob] 2 ["1"]) = Some (Ok (), w') /\
    S (length (users_of (disk w'))) = 2%nat /\ (1 ∉ map id (users_of (disk w'))).
Proof.
  destruct (delete_user_removes_one (world_with [ann; bob] 2 ["1"]) "1" [] 1
              (mk_table [ann; bob] 2))
    as (w' & l1 & r0 & l2 & Hrun & _ & _ & _ & _ & Hlen & Hgone & _);
    [reflexivity | reflexivity | reflexivity | | | ].
  - by apply (@bool_decide_unpack (NoDup (map id [ann; bob])) _).
  - by apply (@bool_decide_unpack (1 ∈ map id [ann; bob]) _).
  - exists w'. exact (conj Hrun (conj Hlen Hgone)).
Defined.

(** ** Update *)




Definition field_menu : list console_event :=
  [Printed "What do you want to update?"; Printed "1. Bench press";
   Printed "2. IQ"; Printed "3. Age"; Printed "4. Name";
   Prompted "Choose an option (1-4): "].

Definition id_prompt : console_event := Prompted "Enter user id to update: ".

(** *** One attempt, step by step *)

Arguments update_number : simpl never.
Arguments update_user_menu : simpl never.

Lemma try_except_ok {A} (body : M A) on_value on_other w a w' :
  body w = Some (Ok a, w') ->
  try_except body on_value on_other w = Some (Ok a, w').
Proof. intros H. unfold try_except. by rewrite H. Qed.

(** The world after the field menu has been shown and answered. *)
Definition after_menu (w : world) (rest : list string) : world :=
  mk_world (disk w) (pending w) rest (stdout w ++ field_menu) (sql_log w)
    (files w) (plots w).

Section UpdateNumber.
Variables (prompt complaint updated : string) (bad : Z -> bool).
Variables (set : Z -> Sqlite.assignment) (x : Z).
Variables (w : world) (l : string) (rest : list string).
Hypothesis typed : stdin w = l :: rest.


Lemma update_number_rejects msg :
  (exists v, Py.int l = Some v /\ bad v = true /\ msg = complaint) \/
  (Py.int l = None /\ msg = "Invalid input: Please enter a number.") ->
  update_number prompt bad complaint set updated x w =
  Some (Ok Continue,
        mk_world (disk w) (pending w) rest
          (stdout w ++ [Prompted prompt; Printed msg])
          (sql_log w) (files w) (plots w)).
Proof.
  destruct w as [d p inp out log fs pl]. cbn in *. subst inp.
  unfold update_number. unfold_M. cbn.
  intros [(v & Hv & Hb & ->)|[Hv ->]]; rewrite Hv; cbn; rewrite ?Hb; cbn;
    by rewrite <- !app_assoc.
Qed.
End UpdateNumber.

Section UpdateMenu.
Variables (x : Z) (w : world) (l : string) (rest : list string).
Hypothesis typed : stdin w = l :: rest.

Ltac run_menu :=
  destruct w as [d p inp out log fs pl]; cbn in *; subst inp;
  intros Hc; unfold update_user_menu, after_menu, field_menu; unfold_M;
  cbn -[update_number]; rewrite Hc; decide_literals; cbn -[update_number];
  rewrite <- ?app_assoc.

Lemma update_user_menu_bench :
  Py.strip l = "1" ->
  update_user_menu x w =
  update_number "New bench press (kg): " (fun v => v <? 0)
    "Bench press cannot be negative." Sqlite.SetBenchPress
    "Bench press was updated" x (after_menu w rest).
Proof. run_menu. reflexivity. Qed.

Lemma update_user_menu_iq :
  Py.strip l = "2" ->
  update_user_menu x w =
  update_number "New IQ: " (fun v => v <=? 0)
    "IQ must be a positive number." Sqlite.SetIq
    "IQ was updated" x (after_menu w rest).
Proof. run_menu. reflexivity. Qed.

Lemma update_user_menu_age :
  Py.strip l = "3" ->
  update_user_menu x w =
  update_number "New age: " (fun v => v <=? 0)
    "Age must be a positive number." Sqlite.SetAge
    "Age was updated" x (after_menu w rest).
Proof. run_menu. reflexivity. Qed.

Lemma update_user_menu_name_empty l2 rest2 :
  rest = l2 :: rest2 ->
  Py.strip l2 = "" ->
  Py.strip l = "4" ->
  update_user_menu x w =
  Some (Ok Continue,
        mk_world (disk w) (pending w) rest2
          (stdout w ++ field_menu ++
             [Prompted "New name: "; Printed "Name cannot be empty."])
          (sql_log w) (files w) (plots w)).
Proof.
  intros -> Hname. run_menu. rewrite Hname.
  rewrite bool_decide_eq_true_2 by done. cbn.
  by rewrite <- ?app_assoc.
Qed.

End UpdateMenu.

Lemma update_user_try_found w l rest x t :
  stdin w = l :: rest ->
  Py.int l = Some x ->
  view w !! "users" = Some t ->
  x ∈ map id (rows t) ->
  update_user_try w =
  update_user_menu x
    (mk_world (disk w) (pending w) rest (stdout w ++ [id_prompt])
       (sql_log w ++ [Executed (Sqlite.SelectCountWhereId x)])
       (files w) (plots w)).
Proof.
  intros Hin Hint Ht Hx.
  assert (length (filter (fun r => id r = x) (rows t)) <> 0%nat) as Hn.
  { intros Hn. by apply filter_id_length in Hn. }
  destruct w as [d p inp out log fs pl]. unfold view in *. cbn in *. subst inp.
  unfold update_user_try. unfold_M. cbn. rewrite Hint. cbn.
  rewrite (execute_count _ _ Ht). cbn.
  destruct (Z.eqb_spec (Z.of_nat (length (filter (fun r => id r = x) (rows t)))) 0)
    as [E|_]; [lia|]. reflexivity.
Qed.

Section UpdateAttempt.
Variables (w : world) (l_id l_choice l_value : string) (rest : list string).
Variables (x : Z) (t : table).
Hypothesis typed : stdin w = l_id :: l_choice :: l_value :: rest.
Hypothesis parsed : Py.int l_id = Some x.
Hypothesis users_present : view w !! "users" = Some t.
Hypothesis found : x ∈ map id (rows t).

End UpdateAttempt.













(** *** Rejected attempts *)

(** A menu choice and a new value that the chosen branch rejects, with the
    prompt shown for the value and the complaint printed: a number out of
    range, text that is not a number, or an empty name. *)
Inductive invalid_value : string -> string -> string -> string -> Prop :=
| bench_negative c l v :
    Py.strip c = "1" -> Py.int l = Some v -> v < 0 ->
    invalid_value c l "New bench press (kg): " "Bench press cannot be negative."
| bench_not_number c l :
    Py.strip c = "1" -> Py.int l = None ->
    invalid_value c l "New bench press (kg): " "Invalid input: Please enter a number."
| iq_not_positive c l v :
    Py.strip c = "2" -> Py.int l = Some v -> v <= 0 ->
    invalid_value c l "New IQ: " "IQ must be a positive number."
| iq_not_number c l :
    Py.strip c = "2" -> Py.int l = None ->
    invalid_value c l "New IQ: " "Invalid input: Please enter a number."
| age_not_positive c l v :
    Py.strip c = "3" -> Py.int l = Some v -> v <= 0 ->
    invalid_value c l "New age: " "Age must be a positive number."
| age_not_number c l :
    Py.strip c = "3" -> Py.int l = None ->
    invalid_value c l "New age: " "Invalid input: Please enter a number."
| name_empty c l :
    Py.strip c = "4" -> Py.strip l = "" ->
    invalid_value c l "New name: " "Name cannot be empty.".

(** The complaints about a new value. *)
Definition value_complaints : list string :=
  ["Bench press cannot be negative."; "IQ must be a positive number.";
   "Age must be a positive number."; "Name cannot be empty.";
   "Invalid input: Please enter a number."].

(** A failed attempt of the update loop against the database [d]: the
    lines it reads, what it writes to the console and what it sends to
    the store.  Either the id is not a number, or the id exists and the
    new value is rejected. *)
Inductive rejected_attempt (d : database) :
    list string -> list console_event -> list sql_event -> Prop :=
| id_not_number l_id :
    Py.int l_id = None ->
    rejected_attempt d [l_id]
      [id_prompt; Printed "Invalid input: Please enter a valid ID (number)."]
      []
| value_rejected l_id l_choice l_value x t prompt complaint :
    Py.int l_id = Some x ->
    d !! "users" = Some t -> x ∈ map id (rows t) ->
    invalid_value l_choice l_value prompt complaint ->
    rejected_attempt d [l_id; l_choice; l_value]
      ([id_prompt] ++ field_menu ++ [Prompted prompt; Printed complaint])
      [Executed (Sqlite.SelectCountWhereId x)].

Lemma update_user_iter_rejected w lines rest out log :
  stdin w = lines ++ rest ->
  rejected_attempt (view w) lines out log ->
  update_user_iter w =
  Some (Ok Continue,
        mk_world (disk w) (pending w) rest (stdout w ++ out)
          (sql_log w ++ log) (files w) (plots w)).
Proof.
  intros Hin Hrej.
  destruct Hrej as [l_id Hid|l_id l_choice l_value x t prompt complaint
                      Hid Ht Hx Hbad]; cbn in Hin.
  - destruct w as [d p inp out0 log0 fs pl]. cbn in *. subst inp.
    unfold update_user_iter, update_user_try. unfold_M. cbn.
    rewrite Hid. cbn. by rewrite <- app_assoc, app_nil_r.
  - unfold update_user_iter. apply try_except_ok.
    rewrite (update_user_try_found w l_id (l_choice :: l_value :: rest) x t
               Hin Hid Ht Hx).
    destruct Hbad as [c l v Hc Hv Hr|c l Hc Hv|c l v Hc Hv Hr|c l Hc Hv
                     |c l v Hc Hv Hr|c l Hc Hv|c l Hc Hv].
    +erewrite update_user_menu_bench; [|reflexivity|exact Hc].
      erewrite update_number_rejects; [|reflexivity|left; exists v; split; [exact Hv|split; [by apply Z.ltb_lt|reflexivity]]].
      unfold field_menu. cbn. by rewrite <- !app_assoc.
    +erewrite update_user_menu_bench; [|reflexivity|exact Hc].
      erewrite update_number_rejects; [|reflexivity|right; split; [exact Hv|reflexivity]].
      unfold field_menu. cbn. by rewrite <- !app_assoc.
    +erewrite update_user_menu_iq; [|reflexivity|exact Hc].
      erewrite update_number_rejects; [|reflexivity|left; exists v; split; [exact Hv|split; [by apply Z.leb_le|reflexivity]]].
      unfold field_menu. cbn. by rewrite <- !app_assoc.
    +erewrite update_user_menu_iq; [|reflexivity|exact Hc].
      erewrite update_number_rejects; [|reflexivity|right; split; [exact Hv|reflexivity]].
      unfold field_menu. cbn. by rewrite <- !app_assoc.
    +erewrite update_user_menu_age; [|reflexivity|exact Hc].
      erewrite update_number_rejects; [|reflexivity|left; exists v; split; [exact Hv|split; [by apply Z.leb_le|reflexivity]]].
      unfold field_menu. cbn. by rewrite <- !app_assoc.
    +erewrite update_user_menu_age; [|reflexivity|exact Hc].
      erewrite update_number_rejects; [|reflexivity|right; split; [exact Hv|reflexivity]].
      unfold field_menu. cbn. by rewrite <- !app_assoc.
    + erewrite update_user_menu_name_empty;
        [|reflexivity|reflexivity|exact Hv|exact Hc].
      unfold field_menu. cbn. by rewrite <- !app_assoc.
Qed.

(** Every attempt of the update loop begins with the prompt for the id. *)
Lemma update_user_iter_prompts w r w' :
  update_user_iter w = Some (r, w') ->
  exists tail, stdout w' = stdout w ++ id_prompt :: tail.
Proof.
  intros Hrun.
  destruct (update_user_iter_outcome w) as (c & w1 & Hw & _ & tail & Hout).
  rewrite Hw in Hrun. injection Hrun as _ <-. by exists tail.
Qed.

(** *** What an attempt shows *)

(** [m] writes [pre] to the console before anything else. *)
Definition shows {A} (pre : list console_event) (m : M A) : Prop :=
  forall w, exists r w', m w = Some (r, w') /\
    exists tail, stdout w' = stdout w ++ pre ++ tail.

Lemma shows_print_bind {B} s pre (f : unit -> M B) :
  shows pre (f ()) -> shows (Printed s :: pre) (print s ≫= f).
Proof.
  intros Hf w. unfold mbind, M_bind, print, emit.
  destruct (Hf (mk_world (disk w) (pending w) (stdin w)
                  (stdout w ++ [Printed s]) (sql_log w) (files w) (plots w)))
    as (r & w' & Hr & tail & Hout).
  exists r, w'. split; [exact Hr|]. exists tail.
  rewrite Hout. cbn. by rewrite <- app_assoc.
Qed.

Lemma shows_input_bind {B} prompt (f : string -> M B) :
  (forall l, steady (f l)) -> shows [Prompted prompt] (input prompt ≫= f).
Proof.
  intros Hf w. unfold mbind, M_bind, input. destruct (stdin w) as [|l rest].
  - eexists _, _. split; [reflexivity|]. by exists [].
  - destruct (Hf l (mk_world (disk w) (pending w) rest
                      (stdout w ++ [Prompted prompt]) (sql_log w) (files w)
                      (plots w)))
      as (r & w' & Hr & _ & tail & Hout).
    exists r, w'. split; [exact Hr|]. exists tail.
    rewrite Hout. cbn. by rewrite <- app_assoc.
Qed.

(** Once an id is found, the field menu is what comes next. *)
Lemma update_user_menu_shows x : shows field_menu (update_user_menu x).
Proof.
  unfold update_user_menu, field_menu.
  do 5 apply shows_print_bind. apply shows_input_bind.
  intros l. solve_steady.
Qed.

(** The line typed at the id prompt is the id of a record. *)
Definition finds_id (w : world) : Prop :=
  exists l rest x t, stdin w = l :: rest /\ Py.int l = Some x /\
    view w !! "users" = Some t /\ x ∈ map id (rows t).

Ltac no_menu :=
  let ev := fresh "ev" in
  let Hev := fresh "Hev" in
  let Htail := fresh "Htail" in
  intros ev Hev Htail; apply list_elem_of_singleton in Htail; subst ev;
  unfold field_menu in Hev;
  repeat (apply elem_of_cons in Hev as [Hev|Hev]; [discriminate Hev|]);
  by apply elem_of_nil in Hev.

(** Every attempt of the update loop begins with the prompt for the id;
    the field menu follows when the line typed is the id of a record, and
    only then. *)
Lemma update_user_iter_menu w r w' :
  update_user_iter w = Some (r, w') ->
  exists tail, stdout w' = stdout w ++ id_prompt :: tail /\
    (finds_id w -> exists tail', tail = field_menu ++ tail') /\
    (~ finds_id w -> forall ev, ev ∈ field_menu -> ev ∉ tail).
Proof.
  intros Hrun. destruct (stdin w) as [|l rest] eqn:Hin.
  { assert (~ finds_id w) as Hno
      by (intros (l & rest & x & t & Hl & _); congruence).
    destruct w as [d p inp out log fs pl]. cbn in Hin. subst inp.
    unfold update_user_iter, update_user_try in Hrun. unfold_M.
    cbn in Hrun. injection Hrun as <- <-. cbn.
    eexists. split; [by rewrite <- app_assoc|]. split; [done|].
    intros _. no_menu. }
  destruct (Py.int l) as [x|] eqn:Hint.
  2:{ assert (~ finds_id w) as Hno
        by (intros (l0 & rest0 & x & t & Hl & Hx & _); congruence).
      destruct w as [d p inp out log fs pl]. cbn in Hin. subst inp.
      unfold update_user_iter, update_user_try in Hrun. unfold_M.
      cbn in Hrun. rewrite Hint in Hrun. cbn in Hrun.
      injection Hrun as <- <-. cbn.
      eexists. split; [by rewrite <- app_assoc|]. split; [done|].
      intros _. no_menu. }
  destruct (view w !! "users") as [t|] eqn:Ht.
  2:{ assert (~ finds_id w) as Hno
        by (intros (l0 & rest0 & x0 & t & _ & _ & Hl & _); congruence).
      destruct w as [d p inp out log fs pl]. unfold view in Ht.
      cbn in Hin, Ht. subst inp.
      unfold update_user_iter, update_user_try in Hrun. unfold_M.
      cbn in Hrun. rewrite Hint in Hrun. cbn in Hrun.
      unfold Sqlite.execute, Sqlite.on_users in Hrun. rewrite Ht in Hrun.
      cbn in Hrun. injection Hrun as <- <-. cbn.
      eexists. split; [by rewrite <- !app_assoc|]. split; [done|].
      intros _. no_menu. }
  destruct (decide (x ∈ map id (rows t))) as [Hx|Hx].
  - assert (finds_id w) as Hyes by (by exists l, rest, x, t).
    unfold update_user_iter, try_except in Hrun.
    rewrite (update_user_try_found w l rest x t Hin Hint Ht Hx) in Hrun.
    destruct (update_user_menu_shows x
                (mk_world (disk w) (pending w) rest (stdout w ++ [id_prompt])
                   (sql_log w ++ [Executed (Sqlite.SelectCountWhereId x)])
                   (files w) (plots w)))
      as (r1 & w1 & Hmenu & tail1 & Hout1).
    rewrite Hmenu in Hrun. cbn in Hout1.
    destruct r1 as [c|e].
    + injection Hrun as <- <-. exists (field_menu ++ tail1).
      split; [by rewrite Hout1, <- app_assoc|]. split; [eauto|done].
    + destruct (Py.is_ValueError e); unfold_M; cbn in Hrun;
        injection Hrun as <- <-; cbn; rewrite Hout1;
        (eexists (field_menu ++ tail1 ++ [_]);
         split; [by rewrite <- !app_assoc|]; split; [eauto|done]).
  - assert (~ finds_id w) as Hno.
    { intros (l0 & rest0 & x0 & t0 & Hl & Hx0 & Ht0 & Hin0).
      rewrite Hin in Hl. injection Hl as <- <-. congruence. }
    apply filter_id_length in Hx.
    destruct w as [d p inp out log fs pl]. unfold view in Ht.
    cbn in Hin, Ht. subst inp.
    unfold update_user_iter, update_user_try in Hrun. unfold_M.
    cbn in Hrun. rewrite Hint in Hrun. cbn in Hrun.
    rewrite (execute_count _ _ Ht) in Hrun. cbn in Hrun.
    rewrite Hx in Hrun. change (Z.of_nat 0 =? 0) with true in Hrun.
    cbn in Hrun. injection Hrun as <- <-. cbn.
    eexists. split; [by rewrite <- !app_assoc|]. split; [done|].
    intros _. no_menu.
Qed.

(** C4, as the code has it.  A failed attempt of the update loop, be it a
    non-numeric id or a rejected new value, does not abort: the loop goes
    on with the lines that are left, the committed table and the
    connection's view are unchanged, and the next attempt starts at the
    top of the loop, with the prompt for the id; the field menu comes
    back only after an id has been entered and found again: it follows
    the prompt when the line typed there is the id of a record, and is
    not shown in that attempt otherwise.  The lines typed are ASCII
    text. *)
Theorem update_user_rejected_restarts (w : world) (lines rest : list string)
    (out : list console_event) (log : list sql_event) :
  stdin w = lines ++ rest ->
  ascii_lines (stdin w) ->
  rejected_attempt (view w) lines out log ->
  exists w1,
    update_user_iter w = Some (Ok Continue, w1) /\
    disk w1 = disk w /\ pending w1 = pending w /\
    stdin w1 = rest /\ stdout w1 = stdout w ++ out /\
    sql_log w1 = sql_log w ++ log /\
    Forall (fun ev => exists x, ev = Executed (Sqlite.SelectCountWhereId x)) log /\
    retry_loop update_user_iter w = retry_loop update_user_iter w1 /\
    exists c w2 tail,
      update_user_iter w1 = Some (Ok c, w2) /\
      stdout w2 = stdout w1 ++ id_prompt :: tail /\
      (finds_id w1 -> exists tail', tail = field_menu ++ tail') /\
      (~ finds_id w1 -> forall ev, ev ∈ field_menu -> ev ∉ tail).
Proof.
  intros Hin _ Hrej.
  pose proof (update_user_iter_rejected w lines rest out log Hin Hrej) as Hiter.
  eexists. split; [exact Hiter|]. cbn [disk pending stdin stdout sql_log].
  split; [done|]. split; [done|]. split; [done|]. split; [done|].
  split; [done|]. split; [|split].
  - destruct Hrej; repeat constructor. eauto.
  - by apply retry_loop_continue; [apply update_user_iter_progresses|].
  - match goal with |- context [update_user_iter ?w1] =>
      destruct (update_user_iter_progresses w1) as (c & w2 & Hnext & _);
      destruct (update_user_iter_menu w1 (Ok c) w2 Hnext)
        as (tail & Hout & Hmenu)
    end.
    by exists c, w2, tail.
Qed.

Lemma update_user_rejected_restarts_witness :
  exists w1,
    update_user_iter (world_with [ann; bob] 2 ["1"; "1"; "-5"; "2"; "1"; "70"]) =
      Some (Ok Continue, w1) /\
    stdin w1 = ["2"; "1"; "70"] /\
    disk w1 = {["users" := mk_table [ann; bob] 2]}.
Proof.
  destruct (update_user_rejected_restarts
              (world_with [ann; bob] 2 ["1"; "1"; "-5"; "2"; "1"; "70"])
              ["1"; "1"; "-5"] ["2"; "1"; "70"]
              ([id_prompt] ++ field_menu ++
                 [Prompted "New bench press (kg): ";
                  Printed "Bench press cannot be negative."])
              [Executed (Sqlite.SelectCountWhereId 1)])
    as (w1 & Hiter & Hdisk & _ & Hin & _); [reflexivity | | | ].
  - by repeat constructor.
  - apply (value_rejected _ "1" "1" "-5" 1 (mk_table [ann; bob] 2));
      [reflexivity | reflexivity | | ].
    + by apply (@bool_decide_unpack (1 ∈ map id [ann; bob]) _).
    + apply (bench_negative "1" "-5" (-5)); [reflexivity | reflexivity | lia].
  - exists w1. exact (conj Hiter (conj Hin Hdisk)).
Defined.

(** The claim as the specification words it: whenever the operation has
    printed a complaint about a new value and went on, what follows the
    complaint on the console is the field menu. *)
Definition menu_follows_rejection (w : world) : Prop :=
  forall w' complaint before after,
    update_user w = Some (Ok (), w') ->
    complaint ∈ value_complaints ->
    stdout w' = before ++ Printed complaint :: after ->
    after <> [] ->
    exists tail, after = field_menu ++ tail.

(** Ann (id 1) and Bob (id 2) are stored; the operator enters id 1, field
    1, the value -5, and then 2, 1, 70.  After the complaint the program
    asks for an id: it reads 2 as Bob's id, 1 as the field and sets Bob's
    bench press to 70.  Had the menu followed, 2 would have chosen the IQ
    of Ann. *)
Lemma update_user_restarts_at_id_prompt :
  ~ menu_follows_rejection
      (world_with [ann; bob] 2 ["1"; "1"; "-5"; "2"; "1"; "70"]).
Proof.
  intros Hmenu.
  destruct (Hmenu
    (mk_world {["users" := mk_table [ann; mk_user 2 "Bob_Ray" 41 95 70] 2]}
       None []
       ([Printed "Current users:";
         PrintedFrame (mk_frame users_columns [ann; bob]); id_prompt] ++
        field_menu ++
        [Prompted "New bench press (kg): ";
         Printed "Bench press cannot be negative."; id_prompt] ++
        field_menu ++
        [Prompted "New bench press (kg): "; Printed "Bench press was updated"])
       [Executed Sqlite.SelectAll; Executed (Sqlite.SelectCountWhereId 1);
        Executed (Sqlite.SelectCountWhereId 2);
        Executed (Sqlite.UpdateWhereId (Sqlite.SetBenchPress 70) 2); Committed]
       ∅ [])
    "Bench press cannot be negative."
    ([Printed "Current users:";
      PrintedFrame (mk_frame users_columns [ann; bob]); id_prompt] ++
     field_menu ++ [Prompted "New bench press (kg): "])
    ([id_prompt] ++ field_menu ++
     [Prompted "New bench press (kg): "; Printed "Bench press was updated"]))
    as [tail Htail].
  - vm_compute. reflexivity.
  - apply list_elem_of_here.
  - reflexivity.
  - discriminate.
  - discriminate Htail.
Qed.

(** ** Schema initialization *)

Lemma initialize_database_run w :
  initialize_database w =
  Some (Ok (),
        mk_world
          (match disk w !! "users" with
           | Some _ => disk w
           | None => <["users" := mk_table [] 0]> (disk w)
           end)
          None (stdin w) (stdout w)
          (sql_log w ++ [Executed Sqlite.CreateUsersIfNotExists; Committed])
          (files w) (plots w)).
Proof.
  destruct w as [d p inp out log fs pl].
  unfold initialize_database. unfold_M. cbn.
  unfold Sqlite.execute. destruct (d !! "users"); cbn; by rewrite <- app_assoc.
Qed.

(** C8.  [initialize_database] always succeeds; a second run leaves the
    database exactly as the first run left it.  A [users] table that
    exists is left as it is, rows and counter included; a missing one is
    created empty; no other table is added, dropped or changed. *)
Theorem initialize_database_idempotent (w : world) :
  exists w1 w2,
    initialize_database w = Some (Ok (), w1) /\
    initialize_database w1 = Some (Ok (), w2) /\
    disk w2 = disk w1 /\
    (forall t, disk w !! "users" = Some t ->
       disk w1 = disk w /\ disk w2 !! "users" = Some t) /\
    (disk w !! "users" = None -> disk w1 !! "users" = Some (mk_table [] 0)) /\
    (forall k, k <> "users" -> disk w2 !! k = disk w !! k) /\
    dom (disk w2) = {["users"]} ∪ dom (disk w).
Proof.
  eexists _, _. split; [apply initialize_database_run|].
  split; [apply initialize_database_run|]. cbn.
  destruct (disk w !! "users") as [t|] eqn:Ht.
  - rewrite Ht. repeat split; try done.
    + by simplify_eq.
    + apply set_eq. intros k. rewrite elem_of_union, elem_of_singleton.
      split; [by right|]. intros [->|?]; [|done]. by apply elem_of_dom.
  - rewrite lookup_insert_eq. repeat split; try done.
    + intros k Hk. by rewrite lookup_insert_ne.
    + by rewrite dom_insert_L.
Qed.

(** ** The filename chooser *)

Lemma string_length_app (s1 s2 : string) :
  String.length (s1 +:+ s2) = (String.length s1 + String.length s2)%nat.
Proof. induction s1 as [|c s1 IH]; simpl; [done|]. by f_equal. Qed.

Lemma string_app_inj_r (s1 s2 e : string) : s1 +:+ e = s2 +:+ e -> s1 = s2.
Proof.
  revert s2. induction s1 as [|c s1 IH]; intros [|c2 s2] H; simpl in H.
  - done.
  - apply (f_equal String.length) in H.
    rewrite ?string_length_app in H. simpl in H.
    rewrite ?string_length_app in H. lia.
  - apply (f_equal String.length) in H.
    rewrite ?string_length_app in H. simpl in H.
    rewrite ?string_length_app in H. lia.
  - injection H as -> H. f_equal. by apply IH.
Qed.

Section UniqueFilename.
Variables base_name extension : string.

(** [f"{base_name}{counter}{extension}"] *)
Definition numbered (counter : Z) : string :=
  base_name +:+ pretty counter +:+ extension.

Lemma numbered_inj m n : numbered m = numbered n -> m = n.
Proof.
  unfold numbered. intros H. apply (inj (String.app base_name)) in H.
  apply string_app_inj_r in H. by apply (inj pretty) in H.
Qed.

Lemma unique_filename_from_ext fuel (fs fs' : gset string) c :
  (forall m, c <= m -> numbered m ∈ fs <-> numbered m ∈ fs') ->
  unique_filename_from fuel fs base_name extension c =
  unique_filename_from fuel fs' base_name extension c.
Proof.
  revert c. induction fuel as [|fuel IH]; intros c Hagree; [done|].
  cbn. unfold path_exists. fold (numbered c).
  assert (bool_decide (numbered c ∈ fs) = bool_decide (numbered c ∈ fs')) as ->.
  { apply bool_decide_ext, Hagree. lia. }
  destruct (bool_decide (numbered c ∈ fs')); [|done]. cbn.
  apply IH. intros m Hm. apply Hagree. lia.
Qed.

(** With more fuel than there are files, the probing loop stops at the
    first free numbered name. *)
Lemma unique_filename_from_first fuel (fs : gset string) c :
  (size fs < fuel)%nat ->
  exists n, c <= n /\
    unique_filename_from fuel fs base_name extension c = Some (numbered n) /\
    (numbered n ∉ fs) /\
    forall m, c <= m < n -> numbered m ∈ fs.
Proof.
  revert fs c. induction fuel as [|fuel IH]; intros fs c Hsize; [lia|].
  cbn. unfold path_exists. fold (numbered c).
  destruct (decide (numbered c ∈ fs)) as [Hin|Hout].
  - rewrite bool_decide_eq_true_2 by done. cbn.
    destruct (IH (fs ∖ {[numbered c]}) (c + 1)) as (n & Hn & Hrun & Hfree & Hbusy).
    { assert (size fs = S (size (fs ∖ {[numbered c]}))) as Hs; [|lia].
      rewrite (union_difference_L {[numbered c]} fs) at 1
        by (by apply singleton_subseteq_l).
      rewrite size_union by set_solver. by rewrite size_singleton. }
    exists n. split; [lia|]. split.
    + rewrite <- Hrun. apply unique_filename_from_ext. intros m Hm.
      rewrite elem_of_difference, not_elem_of_singleton.
      split; [|by intros [? _]]. intros Hm'. split; [done|].
      intros Heq. apply numbered_inj in Heq. lia.
    + split.
      * intros Hn'. apply Hfree. apply elem_of_difference. split; [done|].
        apply not_elem_of_singleton. intros Heq. apply numbered_inj in Heq. lia.
      * intros m Hm. destruct (decide (m = c)) as [->|Hne]; [done|].
        assert (numbered m ∈ fs ∖ {[numbered c]}) as Hm'
          by (apply Hbusy; lia).
        by apply elem_of_difference in Hm' as [? _].
  - rewrite bool_decide_eq_false_2 by done. cbn.
    exists c. split; [lia|]. split; [done|]. split; [done|]. lia.
Qed.
End UniqueFilename.

(** C7.  For every set of existing files the chooser returns a name, and
    the name does not exist yet.  It is "scatter.png" when that is free;
    otherwise it is "scatter<n>.png" for the first [n >= 2] whose name is
    free: "scatter2.png" when only "scatter.png" is taken, "scatter3.png"
    when both are. *)
Theorem get_unique_filename_first_free (fs : gset string) :
  exists filename,
    get_unique_filename "scatter" ".png" fs = Some filename /\
    (filename ∉ fs) /\
    ("scatter.png" ∉ fs -> filename = "scatter.png") /\
    ("scatter.png" ∈ fs ->
       exists n, 2 <= n /\ filename = "scatter" +:+ pretty n +:+ ".png" /\
         forall m, 2 <= m < n -> "scatter" +:+ pretty m +:+ ".png" ∈ fs) /\
    ("scatter.png" ∈ fs -> "scatter2.png" ∉ fs -> filename = "scatter2.png") /\
    ("scatter.png" ∈ fs -> "scatter2.png" ∈ fs -> "scatter3.png" ∉ fs ->
       filename = "scatter3.png").
Proof.
  unfold get_unique_filename, path_exists.
  change ("scatter" +:+ ".png") with "scatter.png".
  destruct (decide ("scatter.png" ∈ fs)) as [Hin|Hout].
  - rewrite bool_decide_eq_true_2 by done. cbn [negb].
    destruct (unique_filename_from_first "scatter" ".png" (S (size fs)) fs 2)
      as (n & Hn & Hrun & Hfree & Hbusy); [lia|].
    exists (numbered "scatter" ".png" n). split; [done|]. split; [done|].
    split; [done|]. split; [by eauto|]. split.
    + intros _ H2. destruct (decide (n = 2)) as [->|Hne]; [done|].
      exfalso. apply H2. apply (Hbusy 2). lia.
    + intros _ H2 H3. destruct (decide (n = 3)) as [->|Hne]; [done|].
      destruct (decide (n = 2)) as [->|Hne2]; [done|].
      exfalso. apply H3. apply (Hbusy 3). lia.
  - rewrite bool_decide_eq_false_2 by done. cbn [negb].
    exists "scatter.png". by repeat split.
Qed.

Lemma get_unique_filename_total base_name extension (fs : gset string) :
  exists filename, get_unique_filename base_name extension fs = Some filename.
Proof.
  unfold get_unique_filename.
  destruct (negb (path_exists fs (base_name +:+ extension))); [eauto|].
  destruct (unique_filename_from_first base_name extension (S (size fs)) fs 2)
    as (n & _ & Hrun & _); [lia|]. eauto.
Qed.

(** ** The save prompt of the visualizer *)

(** The plotting calls of [draw_scatter] before the prompt. *)
Definition scatter_drawing (rs : list user) : list plot_event :=
  Scatter (map iq rs) (map bench_press rs) ::
  (if 1 <? Z.of_nat (length rs)
   then [CorrelationText (map iq rs) (map bench_press rs)] else []).

(** The ASCII characters that [str.strip] removes. *)
Definition blanks : list ascii :=
  ["009"; "010"; "011"; "012"; "013"; "028"; "029"; "030"; "031"; " "]%char.

Fixpoint all_chars (P : ascii -> Prop) (s : string) : Prop :=
  match s with
  | EmptyString => True
  | String c s' => P c /\ all_chars P s'
  end.

(** The answers that save the figure: one [y] or [Y], with as many blanks
    before and after as one likes. *)
Definition answers_y (line : string) : Prop :=
  exists before after c,
    line = before +:+ String c after /\
    (c = "y" \/ c = "Y")%char /\
    all_chars (fun c => c ∈ blanks) before /\
    all_chars (fun c => c ∈ blanks) after.

Lemma isspace_blanks c : Py.isspace c = true <-> c ∈ blanks.
Proof.
  assert (Py.isspace c = bool_decide (c ∈ blanks)) as ->
    by (destruct c as [[] [] [] [] [] [] [] []]; vm_compute; reflexivity).
  apply bool_decide_eq_true.
Qed.

Section Strip.
Variable space : ascii -> bool.

Lemma lstrip_of_spaces before s :
  all_chars (fun c => space c = true) before ->
  Py.lstrip_of space (before +:+ s) = Py.lstrip_of space s.
Proof.
  induction before as [|c before IH]; [done|]. intros [Hc Hrest].
  change (Py.lstrip_of space (String c (before +:+ s)) = Py.lstrip_of space s).
  cbn [Py.lstrip_of]. rewrite Hc. by apply IH.
Qed.

Lemma lstrip_of_split s :
  exists before, s = before +:+ Py.lstrip_of space s /\
    all_chars (fun c => space c = true) before.
Proof.
  induction s as [|c s IH]; [by exists ""|]. cbn [Py.lstrip_of].
  destruct (space c) eqn:Hc; [|by exists ""].
  destruct IH as (before & Hs & Hb). exists (String c before).
  split; [|done].
  change (String c s = String c (before +:+ Py.lstrip_of space s)).
  by rewrite <- Hs.
Qed.

Lemma rstrip_of_spaces s :
  all_chars (fun c => space c = true) s -> Py.rstrip_of space s = "".
Proof.
  induction s as [|c s IH]; [done|]. intros [Hc Hrest].
  cbn [Py.rstrip_of]. rewrite (IH Hrest). by rewrite Hc.
Qed.

Lemma rstrip_of_empty s :
  Py.rstrip_of space s = "" -> all_chars (fun c => space c = true) s.
Proof.
  induction s as [|c s IH]; [done|]. cbn [Py.rstrip_of all_chars].
  destruct (Py.rstrip_of space s); [|done].
  destruct (space c) eqn:Hc; [|done]. intros _. split; [done|by apply IH].
Qed.

Lemma rstrip_of_single s c :
  Py.rstrip_of space s = String c "" ->
  exists after, s = String c after /\
    all_chars (fun c => space c = true) after.
Proof.
  destruct s as [|a s]; [done|]. cbn [Py.rstrip_of].
  destruct (Py.rstrip_of space s) eqn:Hs.
  - destruct (space a); [done|]. intros [= ->].
    exists s. split; [done|]. by apply rstrip_of_empty.
  - by intros [= -> ?].
Qed.
End Strip.

Lemma lower_is_y s :
  Py.lower s = "y" <-> exists c, s = String c "" /\ (c = "y" \/ c = "Y")%char.
Proof.
  split.
  - destruct s as [|c [|c' s']]; [done| |done]. cbn. intros [= Hc].
    exists c. split; [done|].
    destruct c as [[] [] [] [] [] [] [] []]; vm_compute in Hc;
      first [discriminate Hc | by left | by right].
  - by intros (c & -> & [-> | ->]).
Qed.

Lemma all_blanks_spaces s :
  all_chars (fun c => c ∈ blanks) s <-> all_chars (fun c => Py.isspace c = true) s.
Proof.
  induction s as [|c s IH]; [done|]. cbn. by rewrite IH, isspace_blanks.
Qed.

(** Stripped and lowercased, a line is ["y"] exactly when it is one of
    the answers above. *)
Lemma strip_lower_y line :
  Py.lower (Py.strip line) = "y" <-> answers_y line.
Proof.
  rewrite lower_is_y. unfold Py.strip, answers_y. split.
  - intros (c & Hs & Hc).
    apply rstrip_of_single in Hs as (after & Hl & Hafter).
    destruct (lstrip_of_split Py.isspace line) as (before & Hline & Hbefore).
    exists before, after, c. rewrite Hl in Hline.
    by rewrite !all_blanks_spaces.
  - intros (before & after & c & -> & Hc & Hbefore & Hafter).
    rewrite all_blanks_spaces in Hbefore, Hafter.
    exists c. split; [|done].
    rewrite lstrip_of_spaces by done.
    assert (Py.isspace c = false) as Hns by (by destruct Hc as [-> | ->]).
    cbn [Py.lstrip_of]. rewrite Hns. cbn [Py.rstrip_of].
    rewrite rstrip_of_spaces by done. by rewrite Hns.
Qed.

(** C9.  With data to plot and an answer in ASCII typed at the save
    prompt, [draw_scatter] returns.  When the answer, stripped and
    lowercased, is exactly "y" (a [y] or [Y] between blanks), the figure
    is saved once, under the chosen free name, and then shown; for every
    other answer nothing is saved, no file appears, and the figure is
    shown all the same. *)
Theorem draw_scatter_saves_on_y (w : world) (t : table) (line : string)
    (rest : list string) :
  disk w !! "users" = Some t ->
  rows t <> [] ->
  stdin w = line :: rest ->
  Py.isascii line = true ->
  exists w',
    draw_scatter w = Some (Ok (), w') /\
    disk w' = disk w /\ stdin w' = rest /\
    (Py.lower (Py.strip line) = "y" <-> answers_y line) /\
    (Py.lower (Py.strip line) = "y" ->
       exists filename,
         get_unique_filename "scatter" ".png" (files w) = Some filename /\
         plots w' = plots w ++ scatter_drawing (rows t) ++ [Saved filename; Shown] /\
         files w' = {[filename]} ∪ files w) /\
    (Py.lower (Py.strip line) <> "y" ->
       plots w' = plots w ++ scatter_drawing (rows t) ++ [Shown] /\
       files w' = files w).
Proof.
  intros Ht Hrows Hin _.
  pose proof (read_db_present w t Ht) as Hread.
  pose proof (strip_lower_y line) as Hyes.
  destruct (get_unique_filename_total "scatter" ".png" (files w))
    as [filename Hname].
  destruct w as [d p inp out log fs pl]. cbn in Ht, Hin, Hname. subst inp.
  unfold draw_scatter. unfold_M. rewrite Hread.
  cbn -[df_empty Z.ltb get_unique_filename].
  rewrite df_empty_users, bool_decide_eq_false_2 by done.
  unfold scatter_drawing, unique_scatter_filename.
  destruct (1 <? Z.of_nat (length (rows t)));
    cbn -[get_unique_filename];
    (destruct (decide (Py.lower (Py.strip line) = "y")) as [Hy|Hn];
     [ rewrite (bool_decide_eq_true_2 _ Hy); cbn [files]; rewrite Hname
     | rewrite (bool_decide_eq_false_2 _ Hn) ]);
    cbn -[get_unique_filename];
    eexists; (split; [reflexivity|]); cbn -[get_unique_filename];
    (split; [reflexivity|]); (split; [reflexivity|]);
    (split; [exact Hyes|]);
    (split; [intros Hy'|intros Hn']); try done;
    try (exists filename; split; [reflexivity|]);
    rewrite <- ?app_assoc; (split; reflexivity).
Qed.

Lemma draw_scatter_saves_on_y_witness :
  exists w',
    draw_scatter (world_with [ann; bob] 2 ["yes"]) = Some (Ok (), w') /\
    files w' = ∅ /\
    plots w' = [Scatter [110; 95] [60; 80]; CorrelationText [110; 95] [60; 80]; Shown].
Proof.
  destruct (draw_scatter_saves_on_y (world_with [ann; bob] 2 ["yes"])
              (mk_table [ann; bob] 2) "yes" [])
    as (w' & Hrun & _ & _ & _ & _ & Hno);
    [reflexivity | discriminate | reflexivity | reflexivity | ].
  destruct Hno as [Hplots Hfiles]; [discriminate|].
  exists w'. exact (conj Hrun (conj Hfiles Hplots)).
Defined.

Example save_answers :
  Py.lower (Py.strip " Y ") = "y" /\ Py.lower (Py.strip "y") = "y" /\
  Py.lower (Py.strip "yes") <> "y" /\ Py.lower (Py.strip "n") <> "y" /\
  Py.lower (Py.strip "") <> "y".
Proof. repeat split; (reflexivity || discriminate). Qed.

(** ** Binary64 arithmetic on the integers of a column *)

Section Binary64.

Lemma digits2_bounds p :
  2 ^ (Z.pos (digits2_pos p) - 1) <= Z.pos p < 2 ^ Z.pos (digits2_pos p).
Proof.
  induction p as [p IH|p IH|]; cbn [digits2_pos].
  - rewrite Pos2Z.inj_succ, (Pos2Z.inj_xI p).
    replace (Z.succ (Z.pos (digits2_pos p)) - 1)
      with (Z.succ (Z.pos (digits2_pos p) - 1)) by lia.
    rewrite !Z.pow_succ_r by lia. lia.
  - rewrite Pos2Z.inj_succ, (Pos2Z.inj_xO p).
    replace (Z.succ (Z.pos (digits2_pos p)) - 1)
      with (Z.succ (Z.pos (digits2_pos p) - 1)) by lia.
    rewrite !Z.pow_succ_r by lia. lia.
  - cbn. lia.
Qed.

Lemma digits2_unique p k :
  2 ^ (k - 1) <= Z.pos p < 2 ^ k -> Z.pos (digits2_pos p) = k.
Proof.
  intros [Hlo Hhi]. pose proof (digits2_bounds p) as [Dlo Dhi].
  assert (0 < k) as Hk.
  { destruct (Z.lt_trichotomy k 0) as [Hn|[->|Hp]]; [|cbn in Hhi; lia|done].
    rewrite Z.pow_neg_r in Hhi by done. lia. }
  destruct (Z.lt_trichotomy (Z.pos (digits2_pos p)) k) as [Hlt|[Heq|Hgt]];
    [|done|].
  - assert (2 ^ Z.pos (digits2_pos p) <= 2 ^ (k - 1))
      by (apply Z.pow_le_mono_r; lia). lia.
  - assert (2 ^ k <= 2 ^ (Z.pos (digits2_pos p) - 1))
      by (apply Z.pow_le_mono_r; lia). lia.
Qed.

Lemma pos_iter_xO p k : Z.pos (Pos.iter xO p k) = Z.pos p * 2 ^ Z.pos k.
Proof.
  induction k as [|k IH] using Pos.peano_ind.
  - cbn. lia.
  - rewrite Pos.iter_succ, Pos2Z.inj_xO, IH, Pos2Z.inj_succ,
      Z.pow_succ_r by lia. lia.
Qed.

(** A mantissa of 53 digits with an exponent in range is a result of
    rounding as it stands. *)
Lemma binary_round_aux_canonical s m e :
  Z.pos (digits2_pos m) = 53 -> -1074 <= e <= 971 ->
  binary_round_aux 53 1024 s (Z.pos m) e loc_Exact = S754_finite s m e.
Proof.
  intros Hd He. unfold binary_round_aux, shr_fexp, fexp, emin.
  cbn [Zdigits2 shr_record_of_loc]. rewrite Hd.
  replace (Z.max (53 + e - 53) (3 - 1024 - 53) - e) with 0 by lia.
  cbn [shr shr_m loc_of_shr_record round_nearest_even Zdigits2
       shr_record_of_loc].
  rewrite Hd.
  replace (Z.max (53 + e - 53) (3 - 1024 - 53) - e) with 0 by lia.
  cbn [shr shr_m].
  replace (e <=? 1024 - 53) with true; [done|].
  symmetry. apply Z.leb_le. lia.
Qed.

Lemma pow2_53 : 2 ^ 53 = 9007199254740992.
Proof. reflexivity. Qed.

Lemma pow2_52 : 2 ^ 52 = 4503599627370496.
Proof. reflexivity. Qed.

(** Every integer below [2^53] converts exactly. *)
Lemma of_int_finite v :
  0 < v < 2 ^ 53 ->
  exists m e, Pandas.of_int v = S754_finite false m e /\
    Z.pos (digits2_pos m) = 53 /\ -52 <= e <= 0 /\
    Z.pos m = v * 2 ^ (- e).
Proof.
  intros [Hlo Hhi]. destruct v as [|p|p]; try lia.
  pose proof (digits2_bounds p) as [Dlo Dhi].
  assert (Z.pos (digits2_pos p) <= 53) as Hd.
  { destruct (Z.le_gt_cases (Z.pos (digits2_pos p)) 53) as [|Hgt]; [done|].
    assert (2 ^ 53 <= 2 ^ (Z.pos (digits2_pos p) - 1))
      by (apply Z.pow_le_mono_r; lia). lia. }
  unfold Pandas.of_int, binary_normalize, binary_round, shl_align, fexp, emin.
  replace (Z.max (Z.pos (digits2_pos p) + 0 - 53) (3 - 1024 - 53) - 0)
    with (Z.pos (digits2_pos p) - 53) by lia.
  replace (Z.max (Z.pos (digits2_pos p) + 0 - 53) (3 - 1024 - 53))
    with (Z.pos (digits2_pos p) - 53) by lia.
  destruct (Z.pos (digits2_pos p) - 53) as [|k|k] eqn:Hk; [|lia|].
  - exists p, 0. rewrite binary_round_aux_canonical by lia.
    repeat split; try lia.
  - assert (Z.pos k = 53 - Z.pos (digits2_pos p)) as Hk' by lia.
    assert (Z.pos (digits2_pos (Pos.iter xO p k)) = 53) as Hd'.
    { apply digits2_unique. rewrite pos_iter_xO, Hk'.
      assert (2 ^ (53 - 1) = 2 ^ (Z.pos (digits2_pos p) - 1) *
                             2 ^ (53 - Z.pos (digits2_pos p))) as ->
        by (rewrite <- Z.pow_add_r by lia; f_equal; lia).
      assert (2 ^ 53 = 2 ^ Z.pos (digits2_pos p) *
                       2 ^ (53 - Z.pos (digits2_pos p))) as ->
        by (rewrite <- Z.pow_add_r by lia; f_equal; lia).
      assert (0 < 2 ^ (53 - Z.pos (digits2_pos p)))
        by (apply Z.pow_pos_nonneg; lia).
      split; [apply Z.mul_le_mono_nonneg_r; lia
             |apply Z.mul_lt_mono_pos_r; lia]. }
    exists (Pos.iter xO p k), (Z.neg k).
    rewrite binary_round_aux_canonical by lia.
    repeat split; try lia. by rewrite pos_iter_xO.
Qed.

(** Where the remainder [r] of a division by [d] lies in the unit
    interval. *)
Lemma new_location_compare d r :
  0 < d -> 0 <= r < d ->
  new_location d r =
  if r =? 0 then loc_Exact else loc_Inexact (2 * r ?= d).
Proof.
  intros Hd Hr. unfold new_location, new_location_even, new_location_odd.
  destruct (Z.even d) eqn:Hev; [done|].
  destruct (r =? 0); [done|]. f_equal.
  assert (Z.odd d = true) as Hodd by (by rewrite <- Z.negb_even, Hev).
  apply Z.odd_spec in Hodd as [h ->].
  destruct (Z.compare_spec (2 * r + 1) (2 * h + 1));
    destruct (Z.compare_spec (2 * r) (2 * h + 1)); done || lia.
Qed.

(** The mantissa [round_nearest_even] picks is a nearest one. *)
Lemma round_nearest_even_remainder q r d :
  0 < d -> 0 <= r < d ->
  let m := round_nearest_even q
             (if r =? 0 then loc_Exact else loc_Inexact (2 * r ?= d)) in
  (m = q \/ m = q + 1) /\ - d <= 2 * (m * d - (d * q + r)) <= d.
Proof.
  intros Hd Hr. cbv zeta. destruct (Z.eqb_spec r 0) as [->|Hne].
  - cbn [round_nearest_even]. split; [by left|lia].
  - destruct (Z.compare_spec (2 * r) d); cbn [round_nearest_even];
      try destruct (Z.even q); (split; [by (left + right)|lia]).
Qed.

Lemma loc_of_shr_record_of_loc m l :
  loc_of_shr_record (shr_record_of_loc m l) = l.
Proof. by destruct l as [|[]]. Qed.

Lemma shr_m_of_loc m l : shr_m (shr_record_of_loc m l) = m.
Proof. by destruct l as [|[]]. Qed.

Lemma round_nearest_even_cases m l :
  round_nearest_even m l = m \/ round_nearest_even m l = m + 1.
Proof. destruct l as [|[]]; cbn; try destruct (Z.even m); auto. Qed.

(** Rounding a mantissa of 53 digits moves it by one at most. *)
Lemma binary_round_aux_53 q e l :
  Z.pos (digits2_pos q) = 53 -> -1074 <= e <= 971 ->
  round_nearest_even (Z.pos q) l < 2 ^ 53 ->
  exists m, Z.pos m = round_nearest_even (Z.pos q) l /\
    Z.pos (digits2_pos m) = 53 /\
    binary_round_aux 53 1024 false (Z.pos q) e l = S754_finite false m e.
Proof.
  intros Hd He Hlt. pose proof (digits2_bounds q) as Bq. rewrite Hd in Bq.
  unfold binary_round_aux, shr_fexp at 1, fexp, emin.
  cbn [Zdigits2]. rewrite Hd.
  replace (Z.max (53 + e - 53) (3 - 1024 - 53) - e) with 0 by lia.
  cbn [shr]. rewrite loc_of_shr_record_of_loc, shr_m_of_loc.
  destruct (round_nearest_even (Z.pos q) l) as [|m|m] eqn:Hm;
    [pose proof (round_nearest_even_cases (Z.pos q) l); lia| |
     pose proof (round_nearest_even_cases (Z.pos q) l); lia].
  assert (Z.pos (digits2_pos m) = 53) as Hdm.
  { apply digits2_unique.
    pose proof (round_nearest_even_cases (Z.pos q) l). lia. }
  exists m. split; [done|]. split; [done|].
  unfold shr_fexp, fexp, emin. cbn [Zdigits2]. rewrite Hdm.
  replace (Z.max (53 + e - 53) (3 - 1024 - 53) - e) with 0 by lia.
  cbn [shr shr_m shr_record_of_loc].
  replace (e <=? 1024 - 53) with true; [done|].
  symmetry. apply Z.leb_le. lia.
Qed.

(** Rounding a mantissa of 54 digits: its last bit goes first. *)
Lemma binary_round_aux_54 q e l :
  Z.pos (digits2_pos q) = 54 -> -1074 <= e <= 970 ->
  let mrs := shr_1 (shr_record_of_loc (Z.pos q) l) in
  let M := round_nearest_even (shr_m mrs) (loc_of_shr_record mrs) in
  M < 2 ^ 53 ->
  exists m, Z.pos m = M /\
    Z.pos (digits2_pos m) = 53 /\
    binary_round_aux 53 1024 false (Z.pos q) e l = S754_finite false m (e + 1).
Proof.
  intros Hd He mrs M Hlt. pose proof (digits2_bounds q) as Bq. rewrite Hd in Bq.
  change (54 - 1) with 53 in Bq.
  assert (2 ^ 54 = 2 * 2 ^ 53) as H54 by reflexivity.
  assert (2 ^ 53 = 2 * 2 ^ 52) as H53 by reflexivity.
  assert (2 ^ 52 <= shr_m mrs /\ 2 * shr_m mrs <= Z.pos q) as Hm.
  { subst mrs. destruct q as [p|p|]; [| |cbn in Bq; lia];
      destruct l as [|[]]; cbn [shr_record_of_loc shr_1 shr_m]; lia. }
  pose proof (round_nearest_even_cases (shr_m mrs) (loc_of_shr_record mrs))
    as HM. fold M in HM.
  unfold binary_round_aux, shr_fexp at 1, fexp, emin.
  cbn [Zdigits2]. rewrite Hd.
  replace (Z.max (54 + e - 53) (3 - 1024 - 53) - e) with 1 by lia.
  cbn [shr SpecFloat.iter_pos]. fold mrs. fold M.
  clearbody M mrs. destruct M as [|m|m]; [lia| |lia].
  assert (Z.pos (digits2_pos m) = 53) as Hdm
    by (apply digits2_unique; lia).
  exists m. split; [done|]. split; [done|].
  unfold shr_fexp, fexp, emin. cbn [Zdigits2]. rewrite Hdm.
  replace (Z.max (53 + (e + 1) - 53) (3 - 1024 - 53) - (e + 1)) with 0 by lia.
  cbn [shr shr_m shr_record_of_loc].
  replace (e + 1 <=? 1024 - 53) with true; [done|].
  symmetry. apply Z.leb_le. lia.
Qed.

(** The quotient of two numbers with full mantissas: the result is a
    nearest binary64 number to the exact quotient.  With [j] the
    exponent adjustment, [m * 2^(ea - eb - 53 + j)] is within half a
    unit of its last place of [(ma * 2^ea) / (mb * 2^eb)]. *)
Lemma SFdiv_nearest ma ea mb eb :
  Z.pos (digits2_pos ma) = 53 -> Z.pos (digits2_pos mb) = 53 ->
  -52 <= ea <= 0 -> -52 <= eb <= 0 ->
  exists m j,
    SFdiv 53 1024 (S754_finite false ma ea) (S754_finite false mb eb) =
      S754_finite false m (ea - eb - 53 + j) /\
    (j = 0 \/ j = 1) /\
    Z.pos (digits2_pos m) = 53 /\
    - Z.pos mb <=
      2 * (Z.pos m * Z.pos mb - Z.pos ma * 2 ^ (53 - j)) <= Z.pos mb.
Proof.
  intros Hda Hdb Hea Heb.
  pose proof (digits2_bounds ma) as Ba. pose proof (digits2_bounds mb) as Bb.
  rewrite Hda in Ba. rewrite Hdb in Bb. change (53 - 1) with 52 in *.
  rewrite pow2_52, pow2_53 in *.
  unfold SFdiv, SFdiv_core_binary, fexp, emin. cbn [Zdigits2 xorb].
  rewrite Hda, Hdb.
  replace (Z.min (Z.max (53 + ea - (53 + eb) - 53) (3 - 1024 - 53)) (ea - eb))
    with (ea - eb - 53) by lia.
  replace (ea - eb - (ea - eb - 53)) with 53 by lia.
  cbv iota. rewrite Z.shiftl_mul_pow2, pow2_53 by lia.
  pose proof (Z_div_mod (Z.pos ma * 9007199254740992) (Z.pos mb) eq_refl)
    as Hdiv.
  destruct (Z.div_eucl _ _) as [q r]. destruct Hdiv as [Hq Hr].
  rewrite new_location_compare by lia.
  assert (4503599627370496 <= q <= 18014398509481982) as Bq by nia.
  destruct q as [|q|q]; [lia| |lia].
  destruct (Z.lt_ge_cases (Z.pos q) 9007199254740992) as [Hlt|Hge].
  - (* the quotient has 53 digits *)
    assert (Z.pos (digits2_pos q) = 53) as Hdq.
    { apply digits2_unique. change (53 - 1) with 52.
      rewrite pow2_52, pow2_53. lia. }
    assert (Z.pos q <= 9007199254740990) as Hq2 by nia.
    destruct (round_nearest_even_remainder (Z.pos q) r (Z.pos mb))
      as [HM Hnear]; [lia|lia|].
    destruct (binary_round_aux_53 q (ea - eb - 53)
                (if r =? 0 then loc_Exact
                 else loc_Inexact (2 * r ?= Z.pos mb)))
      as (m & Hm & Hdm & Hround); [done|lia|rewrite pow2_53; lia|].
    exists m, 0. rewrite Hround, Z.add_0_r, Z.sub_0_r, pow2_53, Hm.
    repeat split; auto; lia.
  - (* the quotient has 54 digits *)
    assert (Z.pos (digits2_pos q) = 54) as Hdq.
    { apply digits2_unique. change (54 - 1) with 53.
      change (2 ^ 54) with 18014398509481984. rewrite pow2_53. lia. }
    pose proof (binary_round_aux_54 q (ea - eb - 53)
                  (if r =? 0 then loc_Exact
                   else loc_Inexact (2 * r ?= Z.pos mb)) Hdq) as Hround.
    cbv zeta in Hround. rewrite pow2_53 in Hround.
    assert (exists M,
      round_nearest_even
        (shr_m (shr_1 (shr_record_of_loc (Z.pos q)
                         (if r =? 0 then loc_Exact
                          else loc_Inexact (2 * r ?= Z.pos mb)))))
        (loc_of_shr_record
           (shr_1 (shr_record_of_loc (Z.pos q)
                     (if r =? 0 then loc_Exact
                      else loc_Inexact (2 * r ?= Z.pos mb))))) = M /\
      M < 9007199254740992 /\
      - Z.pos mb <=
        2 * (M * Z.pos mb - Z.pos ma * 4503599627370496) <= Z.pos mb)
      as (M & HM & HMlt & Hnear).
    { eexists. split; [reflexivity|].
      destruct (Z.eqb_spec r 0) as [->|Hne];
        [|destruct (Z.compare_spec (2 * r) (Z.pos mb))];
        destruct q as [p|p|]; try lia;
        cbn [shr_record_of_loc shr_1 shr_m loc_of_shr_record
             round_nearest_even orb];
        try destruct (Z.even (Z.pos p)); lia. }
    rewrite HM in Hround.
    destruct Hround as (m & Hm & Hdm & Hround); [lia|done|].
    exists m, 1. rewrite Hround. change (53 - 1) with 52.
    rewrite pow2_52, Hm. repeat split; auto; lia.
Qed.

(** *** Sums that do not round *)

Lemma shr_1_even x :
  0 < x ->
  shr_1 (Build_shr_record (2 * x) false false) = Build_shr_record x false false.
Proof. intros Hx. destruct x as [|p|p]; try lia. reflexivity. Qed.

(** Shifting out [k] zero bits loses nothing. *)
Lemma iter_shr_1_exact k : forall x,
  0 < x ->
  SpecFloat.iter_pos shr_1 k (Build_shr_record (x * 2 ^ Z.pos k) false false)
  = Build_shr_record x false false.
Proof.
  induction k as [k IH|k IH|]; intros x Hx; cbn [SpecFloat.iter_pos].
  - assert (0 < 2 ^ Z.pos k) by (apply Z.pow_pos_nonneg; lia).
    replace (x * 2 ^ Z.pos k~1) with (2 * ((x * 2 ^ Z.pos k) * 2 ^ Z.pos k)).
    + rewrite shr_1_even by nia. rewrite IH by nia. by apply IH.
    + replace (Z.pos k~1) with (Z.pos k + Z.pos k + 1) by lia.
      rewrite !Z.pow_add_r by lia. change (2 ^ 1) with 2. lia.
  - assert (0 < 2 ^ Z.pos k) by (apply Z.pow_pos_nonneg; lia).
    replace (x * 2 ^ Z.pos k~0) with ((x * 2 ^ Z.pos k) * 2 ^ Z.pos k).
    + rewrite IH by nia. by apply IH.
    + replace (Z.pos k~0) with (Z.pos k + Z.pos k) by lia.
      rewrite !Z.pow_add_r by lia. lia.
  - change (2 ^ 1) with 2. rewrite Z.mul_comm. by apply shr_1_even.
Qed.

Lemma shr_fexp_canonical s m e :
  Z.pos (digits2_pos m) = 53 -> -1074 <= e <= 971 ->
  (let '(mrs, e') := shr_fexp 53 1024 (Z.pos m) e loc_Exact in
   match shr_m mrs with
   | 0 => S754_zero s
   | Z.pos m' =>
       if e' <=? 1024 - 53 then S754_finite s m' e' else S754_infinity s
   | Z.neg _ => S754_nan
   end) = S754_finite s m e.
Proof.
  intros Hd He. unfold shr_fexp, fexp, emin. cbn [Zdigits2]. rewrite Hd.
  replace (Z.max (53 + e - 53) (3 - 1024 - 53) - e) with 0 by lia.
  cbn [shr shr_m shr_record_of_loc].
  replace (e <=? 1024 - 53) with true; [done|].
  symmetry. apply Z.leb_le. lia.
Qed.

(** The binary64 number of an integer value [v] below [2^53], given as
    [ps * 2^ez]: the mantissa is [v] shifted to 53 digits. *)
Lemma binary_round_exact ps ez pv :
  ez <= 0 -> Z.pos pv < 2 ^ 53 -> Z.pos ps = Z.pos pv * 2 ^ (- ez) ->
  binary_round 53 1024 false ps ez =
  S754_finite false
    (Z.to_pos (Z.pos pv * 2 ^ (53 - Z.pos (digits2_pos pv))))
    (Z.pos (digits2_pos pv) - 53).
Proof.
  intros Hez Hv Hps.
  pose proof (digits2_bounds pv) as [Vlo Vhi].
  set (dv := Z.pos (digits2_pos pv)) in *.
  assert (1 <= dv <= 53) as Hdv.
  { split; [subst dv; lia|].
    destruct (Z.le_gt_cases dv 53) as [|Hgt]; [done|].
    assert (2 ^ 53 <= 2 ^ (dv - 1)) by (apply Z.pow_le_mono_r; lia). lia. }
  assert (0 < 2 ^ (- ez)) as Hpz by (apply Z.pow_pos_nonneg; lia).
  assert (0 < 2 ^ (53 - dv)) as Hpd by (apply Z.pow_pos_nonneg; lia).
  assert (Z.pos (digits2_pos ps) = dv - ez) as Hd.
  { apply digits2_unique. rewrite Hps.
    replace (dv - ez - 1) with ((dv - 1) + - ez) by lia.
    replace (dv - ez) with (dv + - ez) by lia.
    rewrite !Z.pow_add_r by lia. nia. }
  assert (2 ^ 52 <= Z.pos pv * 2 ^ (53 - dv) < 2 ^ 53) as Hx.
  { assert (2 ^ 52 = 2 ^ (dv - 1) * 2 ^ (53 - dv)) as ->
      by (rewrite <- Z.pow_add_r by lia; f_equal; lia).
    assert (2 ^ 53 = 2 ^ dv * 2 ^ (53 - dv)) as ->
      by (rewrite <- Z.pow_add_r by lia; f_equal; lia).
    nia. }
  destruct (Z.pos pv * 2 ^ (53 - dv)) as [|x|x] eqn:Ex; try lia.
  assert (Z.pos (digits2_pos x) = 53) as Hdx by (by apply digits2_unique).
  cbn [Z.to_pos].
  unfold binary_round, shl_align, fexp, emin. rewrite Hd.
  replace (Z.max (dv - ez + ez - 53) (3 - 1024 - 53)) with (dv - 53) by lia.
  destruct (dv - 53 - ez) as [|k|k] eqn:Hk.
  - assert (ps = x) as ->.
    { apply Pos2Z.inj. rewrite Hps, <- Ex. f_equal. f_equal. lia. }
    replace ez with (dv - 53) by lia.
    apply binary_round_aux_canonical; [done|lia].
  - unfold binary_round_aux, shr_fexp at 1, fexp, emin.
    cbn [Zdigits2 shr_record_of_loc]. rewrite Hd.
    replace (Z.max (dv - ez + ez - 53) (3 - 1024 - 53) - ez)
      with (Z.pos k) by lia.
    cbn [shr].
    replace (Z.pos ps) with (Z.pos x * 2 ^ Z.pos k).
    + rewrite iter_shr_1_exact by lia.
      cbn [shr_m loc_of_shr_record round_nearest_even].
      replace (ez + Z.pos k) with (dv - 53) by lia.
      apply shr_fexp_canonical; [done|lia].
    + rewrite Hps, <- Ex, <- Z.mul_assoc, <- Z.pow_add_r by lia.
      f_equal. f_equal. lia.
  - replace (Pos.iter xO ps k) with x.
    + apply binary_round_aux_canonical; [done|lia].
    + apply Pos2Z.inj. rewrite pos_iter_xO, Hps, <- Ex,
        <- Z.mul_assoc, <- Z.pow_add_r by lia.
      f_equal. f_equal. lia.
Qed.

Lemma of_int_binary_round ps ez pv :
  ez <= 0 -> Z.pos pv < 2 ^ 53 -> Z.pos ps = Z.pos pv * 2 ^ (- ez) ->
  binary_round 53 1024 false ps ez = Pandas.of_int (Z.pos pv).
Proof.
  intros Hez Hv Hps. unfold Pandas.of_int, binary_normalize.
  rewrite (binary_round_exact ps ez pv), (binary_round_exact pv 0 pv);
    try done. cbn. lia.
Qed.

Lemma shl_align_value mx ex ez :
  ez <= ex -> Z.pos (fst (shl_align mx ex ez)) = Z.pos mx * 2 ^ (ex - ez).
Proof.
  intros Hle. unfold shl_align.
  destruct (ez - ex) as [|d|d] eqn:Hd; try lia; cbn [fst].
  - replace (ex - ez) with 0 by lia. cbn. lia.
  - rewrite pos_iter_xO. f_equal. f_equal. lia.
Qed.

(** Adding two converted integers gives the converted sum, as long as
    the sum stays below [2^53]. *)
Lemma of_int_add a b :
  0 <= a -> 0 <= b -> a + b < 2 ^ 53 ->
  SFadd 53 1024 (Pandas.of_int a) (Pandas.of_int b) = Pandas.of_int (a + b).
Proof.
  intros Ha Hb Hab.
  destruct (Z.eq_dec a 0) as [->|Hna]; [|destruct (Z.eq_dec b 0) as [->|Hnb]].
  - change (Pandas.of_int 0) with (S754_zero false). rewrite Z.add_0_l.
    destruct (Z.eq_dec b 0) as [->|Hnb]; [done|].
    destruct (of_int_finite b) as (mb & eb & -> & _); [lia|done].
  - change (Pandas.of_int 0) with (S754_zero false). rewrite Z.add_0_r.
    destruct (of_int_finite a) as (ma & ea & -> & _); [lia|done].
  - destruct (of_int_finite a) as (ma & ea & -> & _ & Hea & Hma); [lia|].
    destruct (of_int_finite b) as (mb & eb & -> & _ & Heb & Hmb); [lia|].
    unfold SFadd. cbn [cond_Zopp].
    rewrite !shl_align_value by lia.
    set (ez := Z.min ea eb).
    assert (0 < 2 ^ (ea - ez)) by (apply Z.pow_pos_nonneg; lia).
    assert (0 < 2 ^ (eb - ez)) by (apply Z.pow_pos_nonneg; lia).
    destruct (Z.pos ma * 2 ^ (ea - ez) + Z.pos mb * 2 ^ (eb - ez))
      as [|ps|ps] eqn:Hps; try lia.
    destruct (a + b) as [|pv|pv] eqn:Hpv; try lia.
    cbn [binary_normalize]. apply of_int_binary_round; [lia|done|].
    rewrite <- Hps, <- Hpv, Hma, Hmb, Z.mul_add_distr_r,
      <- !Z.mul_assoc, <- !Z.pow_add_r by lia.
    f_equal; f_equal; f_equal; lia.
Qed.

End Binary64.

(** ** The printed averages *)

(** The exact sum of a column. *)
Definition total (xs : list Z) : Z := fold_right Z.add 0 xs.

(** The decimal [t / 10], written with one digit after the point. *)
Definition decimal_1 (t : Z) : string :=
  pretty (t / 10) +:+ "." +:+ pretty (t mod 10).

Lemma total_cons x xs : total (x :: xs) = x + total xs.
Proof. reflexivity. Qed.

Lemma total_nonneg xs : Forall (fun x => 0 <= x) xs -> 0 <= total xs.
Proof. induction 1 as [|x xs Hx _ IH]; [done|]. rewrite total_cons. lia. Qed.

Lemma sum_from_exact xs : forall acc,
  0 <= acc -> Forall (fun x => 0 <= x) xs -> acc + total xs < 2 ^ 53 ->
  fold_left (fun s x => SFadd 53 1024 s (Pandas.of_int x)) xs
    (Pandas.of_int acc) = Pandas.of_int (acc + total xs).
Proof.
  induction xs as [|x xs IH]; intros acc Hacc Hxs Hlt.
  - cbn. by rewrite Z.add_0_r.
  - inversion Hxs as [|? ? Hx Hrest]; subst.
    pose proof (total_nonneg xs Hrest) as Ht.
    rewrite total_cons in *. cbn [fold_left].
    rewrite of_int_add by lia. rewrite IH by (done || lia).
    f_equal. lia.
Qed.

Lemma sum_exact xs :
  Forall (fun x => 0 <= x) xs -> total xs < 2 ^ 53 ->
  Pandas.sum xs = Pandas.of_int (total xs).
Proof.
  intros Hxs Hlt. unfold Pandas.sum.
  change (S754_zero false) with (Pandas.of_int 0).
  by rewrite sum_from_exact.
Qed.

Lemma round_half_even_near n d :
  0 < d ->
  - d <= 2 * (round_half_even n d * d - n) <= d /\
  (0 <= n -> 0 <= round_half_even n d).
Proof.
  intros Hd. unfold round_half_even.
  pose proof (Z.div_mod n d) as Hn. pose proof (Z.mod_pos_bound n d Hd) as Hr.
  assert (0 <= n -> 0 <= n / d) as Hq by (intros; by apply Z.div_pos).
  destruct (Z.ltb_spec (2 * (n mod d)) d);
    [|destruct (Z.ltb_spec d (2 * (n mod d)));
      [|destruct (Z.even (n / d))]]; split; nia.
Qed.

Lemma tenths_near m e :
  e <= 0 ->
  - 2 ^ (- e) <= 2 * (tenths m e * 2 ^ (- e) - 10 * Z.pos m) <= 2 ^ (- e) /\
  0 <= tenths m e.
Proof.
  intros He. unfold tenths.
  assert (0 < 2 ^ (- e)) by (apply Z.pow_pos_nonneg; lia).
  destruct (Z.leb_spec 0 e).
  - assert (e = 0) as -> by lia. cbn. lia.
  - destruct (round_half_even_near (10 * Z.pos m) (2 ^ (- e))) as [? ?];
      [done|]. split; lia.
Qed.

(** The printed average of a column of non-negative integers is a
    nearest decimal with one digit after the point to the exact
    average: they differ by at most one twentieth. *)
Lemma mean_nearest_tenth xs :
  xs <> [] -> Forall (fun x => 0 <= x) xs ->
  total xs < 2 ^ 48 -> Z.of_nat (length xs) < 2 ^ 53 ->
  exists t, format_1f (Pandas.mean xs) = decimal_1 t /\ 0 <= t /\
    - Z.of_nat (length xs)
      <= 2 * (Z.of_nat (length xs) * t - 10 * total xs)
      <= Z.of_nat (length xs).
Proof.
  intros Hne Hxs Hsum Hlen. unfold Pandas.mean.
  set (n := Z.of_nat (length xs)) in *.
  assert (0 < n) as Hn by (destruct xs; [done|cbn in n; lia]).
  pose proof (total_nonneg xs Hxs) as Hpos.
  change (2 ^ 48) with 281474976710656 in Hsum.
  rewrite sum_exact by (done || (rewrite pow2_53; lia)).
  destruct (of_int_finite n) as (mb & eb & -> & Hdb & Heb & Hmb); [lia|].
  destruct (Z.eq_dec (total xs) 0) as [H0|Hne0].
  - rewrite H0. change (Pandas.of_int 0) with (S754_zero false).
    exists 0. split; [reflexivity|]. lia.
  - destruct (of_int_finite (total xs)) as (ma & ea & -> & Hda & Hea & Hma);
      [rewrite pow2_53; lia|].
    destruct (SFdiv_nearest ma ea mb eb) as (m & j & -> & Hj & Hdm & Hnear);
      try done.
    assert (ea - eb - 53 + j <= 0) as He by lia.
    destruct (tenths_near m (ea - eb - 53 + j) He) as [Ht Ht0].
    exists (tenths m (ea - eb - 53 + j)). split; [reflexivity|].
    split; [done|].
    pose proof (digits2_bounds m) as [Hm _]. rewrite Hdm in Hm.
    change (53 - 1) with 52 in Hm. rewrite pow2_52 in Hm.
    set (t := tenths m (ea - eb - 53 + j)) in *.
    assert (0 < 2 ^ (- ea)) as HA by (apply Z.pow_pos_nonneg; lia).
    assert (0 < 2 ^ (- eb)) as HB by (apply Z.pow_pos_nonneg; lia).
    assert (0 < 2 ^ (53 - j)) as HC by (apply Z.pow_pos_nonneg; lia).
    assert (0 < 2 ^ (- (ea - eb - 53 + j))) as HP
      by (apply Z.pow_pos_nonneg; lia).
    assert (2 ^ (- (ea - eb - 53 + j)) * 2 ^ (- eb) =
            2 ^ (53 - j) * 2 ^ (- ea)) as HPB.
    { rewrite <- !Z.pow_add_r by lia. f_equal. lia. }
    set (A := 2 ^ (- ea)) in *. set (B := 2 ^ (- eb)) in *.
    set (C := 2 ^ (53 - j)) in *.
    set (P := 2 ^ (- (ea - eb - 53 + j))) in *.
    clearbody A B C P t n.
    assert (- n <= 2 * (Z.pos m * n - total xs * P) <= n) as Hdiv.
    { assert (2 * (Z.pos m * Z.pos mb - Z.pos ma * C) =
              B * (2 * (Z.pos m * n - total xs * P))) as Heq.
      { rewrite Hmb, Hma.
        replace (total xs * A * C) with (total xs * (P * B)) by (rewrite HPB; ring).
        ring. }
      rewrite Heq, Hmb in Hnear. nia. }
    assert (10 * n < P) as HPn by nia.
    assert (P * (2 * (n * t - 10 * total xs)) =
            n * (2 * (t * P - 10 * Z.pos m)) +
            10 * (2 * (Z.pos m * n - total xs * P))) as Hsplit by ring.
    assert (- (n * P) <= n * (2 * (t * P - 10 * Z.pos m)) <= n * P) as Hfmt.
    { split; [rewrite <- Z.mul_opp_r|]; apply Z.mul_le_mono_nonneg_l; lia. }
    assert (- ((n + 1) * P) < P * (2 * (n * t - 10 * total xs)) < (n + 1) * P)
      as Hboth by lia.
    rewrite (Z.mul_comm (n + 1) P), <- Z.mul_opp_r in Hboth.
    destruct Hboth as [Hlo Hhi].
    apply Z.mul_lt_mono_pos_l in Hlo, Hhi; lia.
Qed.

Lemma tenths_exact m e v :
  e <= 0 -> Z.pos m = v * 2 ^ (- e) -> tenths m e = 10 * v.
Proof.
  intros He Hm. unfold tenths.
  assert (0 < 2 ^ (- e)) as HP by (apply Z.pow_pos_nonneg; lia).
  destruct (Z.leb_spec 0 e).
  - assert (e = 0) as -> by lia. rewrite Hm. cbn. lia.
  - unfold round_half_even.
    replace (10 * Z.pos m) with (10 * v * 2 ^ (- e)) by (rewrite Hm; ring).
    rewrite Z.div_mul, Z.mod_mul by lia.
    destruct (Z.ltb_spec (2 * 0) (2 ^ (- e))); [done|lia].
Qed.

Lemma decimal_1_whole v : decimal_1 (10 * v) = pretty v +:+ ".0".
Proof.
  unfold decimal_1. rewrite (Z.mul_comm 10 v), Z.div_mul, Z.mod_mul by done.
  reflexivity.
Qed.

(** The average of a single value below [2^53] is printed as that value
    with [.0] after it. *)
Lemma mean_singleton v :
  0 <= v < 2 ^ 53 -> format_1f (Pandas.mean [v]) = pretty v +:+ ".0".
Proof.
  intros [Hlo Hhi]. unfold Pandas.mean.
  rewrite sum_exact by (repeat constructor; cbn; lia).
  cbn [total fold_right length]. rewrite Z.add_0_r.
  change (Pandas.of_int (Z.of_nat 1))
    with (S754_finite false 4503599627370496 (-52)).
  destruct (Z.eq_dec v 0) as [->|Hne]; [reflexivity|].
  destruct (of_int_finite v) as (ma & ea & -> & Hda & Hea & Hma); [lia|].
  destruct (SFdiv_nearest ma ea 4503599627370496 (-52))
    as (m & j & -> & Hj & Hdm & Hnear); try done.
  pose proof (digits2_bounds m) as Bm. rewrite Hdm in Bm.
  pose proof (digits2_bounds ma) as Ba. rewrite Hda in Ba.
  change (53 - 1) with 52 in *. rewrite pow2_52, pow2_53 in *.
  destruct Hj as [-> | ->].
  - change (2 ^ (53 - 0)) with 9007199254740992 in Hnear. lia.
  - change (2 ^ (53 - 1)) with 4503599627370496 in Hnear.
    assert (m = ma) as -> by lia.
    replace (ea - -52 - 53 + 1) with ea by lia.
    cbn [format_1f sign_str]. rewrite (tenths_exact ma ea v) by (lia || done).
    apply decimal_1_whole.
Qed.

(** ** Statistics of the table *)

Arguments format_1f : simpl never.
Arguments Pandas.mean : simpl never.
Arguments Pandas.max : simpl never.
Arguments Pandas.min : simpl never.

Definition is_max (xs : list Z) (m : Z) : Prop :=
  m ∈ xs /\ Forall (fun x => x <= m) xs.

Definition is_min (xs : list Z) (m : Z) : Prop :=
  m ∈ xs /\ Forall (fun x => m <= x) xs.

(** [s] is a decimal with one digit after the point and no decimal of
    that form is nearer to the exact average of [xs]. *)
Definition nearest_tenth (xs : list Z) (s : string) : Prop :=
  exists t, s = decimal_1 t /\ 0 <= t /\
    - Z.of_nat (length xs)
    <= 2 * (Z.of_nat (length xs) * t - 10 * total xs)
    <= Z.of_nat (length xs).

(** A value that binary64 holds exactly whatever its digits. *)
Definition exact_float (v : Z) : Prop := 0 <= v < 2 ^ 53.

(** A column whose sum is exact in binary64 in whatever order it is
    added up: no value is negative and the total is below [2^53]. *)
Definition adds_exactly (xs : list Z) : Prop :=
  Forall (fun x => 0 <= x) xs /\ total xs < 2 ^ 53.

(** The binary64 quotient of the exact total of a column and its
    length. *)
Definition mean_of_total (xs : list Z) : spec_float :=
  SFdiv 53 1024 (Pandas.of_int (total xs))
    (Pandas.of_int (Z.of_nat (length xs))).

Lemma mean_exact xs : adds_exactly xs -> Pandas.mean xs = mean_of_total xs.
Proof.
  intros [Hxs Hlt]. unfold Pandas.mean, mean_of_total. by rewrite sum_exact.
Qed.

(** What [show_statistics] prints for a frame with rows. *)
Definition statistics_report (count : nat) (avg_age avg_iq avg_bench : string)
    (mx mn : Z) : list console_event :=
  [ Printed (String "010" "Data Statistics:");
    Printed "==============================";
    Printed ("Total users: " +:+ pretty (Z.of_nat count));
    Printed ("Average age: " +:+ avg_age);
    Printed ("Average IQ: " +:+ avg_iq);
    Printed ("Average bench press: " +:+ avg_bench +:+ " kg");
    Printed ("Max bench press: " +:+ pretty mx +:+ " kg");
    Printed ("Min bench press: " +:+ pretty mn +:+ " kg") ].

Lemma fold_left_max_spec rest : forall x,
  (fold_left Z.max rest x = x \/ fold_left Z.max rest x ∈ rest) /\
  x <= fold_left Z.max rest x /\
  Forall (fun y => y <= fold_left Z.max rest x) rest.
Proof.
  induction rest as [|y rest IH]; intros x; cbn [fold_left].
  - split; [by left|]. split; [lia|constructor].
  - destruct (IH (Z.max x y)) as (Hin & Hle & Hall). split; [|split].
    + destruct Hin as [Heq|Hin]; [|right; by right].
      rewrite Heq. destruct (Z.max_spec x y) as [[_ ->]|[_ ->]];
        [right; left|by left].
    + lia.
    + constructor; [lia|done].
Qed.

Lemma fold_left_min_spec rest : forall x,
  (fold_left Z.min rest x = x \/ fold_left Z.min rest x ∈ rest) /\
  fold_left Z.min rest x <= x /\
  Forall (fun y => fold_left Z.min rest x <= y) rest.
Proof.
  induction rest as [|y rest IH]; intros x; cbn [fold_left].
  - split; [by left|]. split; [lia|constructor].
  - destruct (IH (Z.min x y)) as (Hin & Hle & Hall). split; [|split].
    + destruct Hin as [Heq|Hin]; [|right; by right].
      rewrite Heq. destruct (Z.min_spec x y) as [[_ ->]|[_ ->]];
        [by left|right; left].
    + lia.
    + constructor; [lia|done].
Qed.

Lemma max_is_max xs :
  xs <> [] -> exists m, Pandas.max xs = Some m /\ is_max xs m.
Proof.
  destruct xs as [|x rest]; [done|]. intros _.
  destruct (fold_left_max_spec rest x) as (Hin & Hle & Hall).
  exists (fold_left Z.max rest x). split; [done|]. split.
  - destruct Hin as [->|Hin]; [left|by right].
  - by constructor.
Qed.

Lemma min_is_min xs :
  xs <> [] -> exists m, Pandas.min xs = Some m /\ is_min xs m.
Proof.
  destruct xs as [|x rest]; [done|]. intros _.
  destruct (fold_left_min_spec rest x) as (Hin & Hle & Hall).
  exists (fold_left Z.min rest x). split; [done|]. split.
  - destruct Hin as [->|Hin]; [left|by right].
  - by constructor.
Qed.

Lemma length_le_total xs :
  Forall (fun x => 0 < x) xs -> Z.of_nat (length xs) <= total xs.
Proof.
  induction 1 as [|x xs Hx _ IH]; [done|].
  rewrite total_cons. cbn [length]. lia.
Qed.

(** The output of [show_statistics] on a table with rows. *)
Lemma show_statistics_rows w t :
  disk w !! "users" = Some t -> rows t <> [] ->
  show_statistics w =
  Some (Ok (),
        mk_world (disk w) None (stdin w)
          (stdout w ++
             [ Printed (String "010" "Data Statistics:");
               Printed "==============================";
               Printed ("Total users: " +:+
                          pretty (Z.of_nat (length (rows t))));
               Printed ("Average age: " +:+
                          format_1f (Pandas.mean (map age (rows t))));
               Printed ("Average IQ: " +:+
                          format_1f (Pandas.mean (map iq (rows t))));
               Printed ("Average bench press: " +:+
                          format_1f (Pandas.mean (map bench_press (rows t)))
                          +:+ " kg");
               Printed ("Max bench press: " +:+
                          format_stat (Pandas.max (map bench_press (rows t)))
                          +:+ " kg");
               Printed ("Min bench press: " +:+
                          format_stat (Pandas.min (map bench_press (rows t)))
                          +:+ " kg") ])
          (sql_log w ++ [Executed Sqlite.SelectAll]) (files w) (plots w)).
Proof.
  intros Ht Hrows. pose proof (read_db_present w t Ht) as Hread.
  destruct w as [d p inp out log fs pl].
  unfold show_statistics, mbind, M_bind. rewrite Hread.
  rewrite df_empty_users, bool_decide_eq_false_2 by done.
  cbn [print emit after_query disk pending stdin stdout sql_log files plots
       records].
  unfold print, emit. cbn [disk pending stdin stdout sql_log files plots].
  rewrite <- !app_assoc. reflexivity.
Qed.

Lemma show_statistics_no_rows w t :
  disk w !! "users" = Some t -> rows t = [] ->
  show_statistics w =
  Some (Ok (),
        mk_world (disk w) None (stdin w)
          (stdout w ++ [Printed "No data available for statistics"])
          (sql_log w ++ [Executed Sqlite.SelectAll]) (files w) (plots w)).
Proof.
  intros Ht Hrows. pose proof (read_db_present w t Ht) as Hread.
  destruct w as [d p inp out log fs pl].
  unfold show_statistics, mbind, M_bind. rewrite Hread.
  rewrite df_empty_users, bool_decide_eq_true_2 by done. reflexivity.
Qed.

(** C6.  On a table without rows [show_statistics] prints the no-data
    line and nothing else.  On a table with rows it prints the heading,
    the number of rows, three averages, and the largest and the smallest
    bench press.  For a column whose sum is exact in binary64 (no value
    negative, total below [2^53]) the average printed is the binary64
    quotient of the total and the count in the format [.1f].  For rows
    within the storage constraints whose column sums stay below [2^48],
    each printed average is a decimal with one digit after the point
    that is nearest to the exact average.  For a single row whose values
    binary64 holds exactly, the count is 1, each average is the row's own
    value followed by [.0], and the largest and the smallest bench press
    are the row's. *)
Theorem show_statistics_reports (w : world) (t : table) :
  disk w !! "users" = Some t ->
  exists w',
    show_statistics w = Some (Ok (), w') /\
    disk w' = disk w /\ stdin w' = stdin w /\
    (rows t = [] ->
       stdout w' = stdout w ++ [Printed "No data available for statistics"]) /\
    (rows t <> [] ->
       exists avg_age avg_iq avg_bench mx mn,
         stdout w' = stdout w ++
           statistics_report (length (rows t)) avg_age avg_iq avg_bench mx mn /\
         is_max (map bench_press (rows t)) mx /\
         is_min (map bench_press (rows t)) mn /\
         (adds_exactly (map age (rows t)) ->
            avg_age = format_1f (mean_of_total (map age (rows t)))) /\
         (adds_exactly (map iq (rows t)) ->
            avg_iq = format_1f (mean_of_total (map iq (rows t)))) /\
         (adds_exactly (map bench_press (rows t)) ->
            avg_bench = format_1f (mean_of_total (map bench_press (rows t)))) /\
         (Forall valid_user (rows t) ->
          total (map age (rows t)) < 2 ^ 48 ->
          total (map iq (rows t)) < 2 ^ 48 ->
          total (map bench_press (rows t)) < 2 ^ 48 ->
          nearest_tenth (map age (rows t)) avg_age /\
          nearest_tenth (map iq (rows t)) avg_iq /\
          nearest_tenth (map bench_press (rows t)) avg_bench)) /\
    (forall r, rows t = [r] ->
       exact_float (age r) -> exact_float (iq r) ->
       exact_float (bench_press r) ->
       stdout w' = stdout w ++
         statistics_report 1
           (pretty (age r) +:+ ".0") (pretty (iq r) +:+ ".0")
           (pretty (bench_press r) +:+ ".0")
           (bench_press r) (bench_press r)).
Proof.
  intros Ht. destruct (decide (rows t = [])) as [Hnone|Hsome].
  - rewrite (show_statistics_no_rows w t Ht Hnone).
    eexists. split; [reflexivity|]. cbn [disk stdin stdout].
    repeat split; try done. intros r Hr. by rewrite Hr in Hnone.
  - rewrite (show_statistics_rows w t Ht Hsome).
    assert (forall f : user -> Z, map f (rows t) <> []) as Hmap
      by (intros f; destruct (rows t); done).
    destruct (max_is_max (map bench_press (rows t)) (Hmap _))
      as (mx & Emx & Hmx).
    destruct (min_is_min (map bench_press (rows t)) (Hmap _))
      as (mn & Emn & Hmn).
    eexists. split; [reflexivity|]. cbn [disk stdin stdout].
    split; [done|]. split; [done|]. split; [done|]. split.
    + intros _.
      exists (format_1f (Pandas.mean (map age (rows t)))),
             (format_1f (Pandas.mean (map iq (rows t)))),
             (format_1f (Pandas.mean (map bench_press (rows t)))), mx, mn.
      split; [by rewrite Emx, Emn|]. split; [done|]. split; [done|].
      split; [by intros ->%mean_exact|]. split; [by intros ->%mean_exact|].
      split; [by intros ->%mean_exact|].
      intros Hvalid Hage Hiq Hbench.
      assert (Z.of_nat (length (rows t)) < 2 ^ 53) as Hlen.
      { assert (Z.of_nat (length (map age (rows t))) <=
                total (map age (rows t))) as Hle.
        { apply length_le_total, Forall_map.
          eapply Forall_impl; [exact Hvalid|]. by intros r (? & _). }
        rewrite length_map in Hle.
        change (2 ^ 48) with 281474976710656 in Hage. rewrite pow2_53. lia. }
      repeat split; apply mean_nearest_tenth;
        rewrite ?length_map; try done; apply Forall_map;
        (eapply Forall_impl; [exact Hvalid|]);
        intros r (? & ? & ? & _); cbn; lia.
    + intros r Hr Hage Hiq Hbench. rewrite Hr in *. cbn [map length] in *.
      rewrite !mean_singleton by done.
      destruct Hmx as [Hmx _], Hmn as [Hmn _].
      apply list_elem_of_singleton in Hmx, Hmn. subst mx mn.
      by rewrite Emx, Emn.
Qed.

Lemma show_statistics_reports_witness :
  exists w',
    show_statistics (world_with [ann; bob] 2 []) = Some (Ok (), w') /\
    disk w' = disk (world_with [ann; bob] 2 []) /\
    stdout w' =
    [ Printed (String "010" "Data Statistics:");
      Printed "==============================";
      Printed "Total users: 2";
      Printed "Average age: 35.5";
      Printed "Average IQ: 102.5";
      Printed "Average bench press: 70.0 kg";
      Printed "Max bench press: 80 kg";
      Printed "Min bench press: 60 kg" ].
Proof.
  destruct (show_statistics_reports (world_with [ann; bob] 2 [])
              (mk_table [ann; bob] 2))
    as (w' & Hrun & Hdisk & _ & _ & Hrows & _); [reflexivity|].
  destruct Hrows as (a1 & a2 & a3 & mx & mn & Hout & Hmx & Hmn & H1 & H2 & H3 & _);
    [discriminate|].
  exists w'. split; [exact Hrun|]. split; [exact Hdisk|].
  rewrite Hout, H1, H2, H3
    by (split; [repeat constructor; cbn; lia | vm_compute; reflexivity]).
  assert (mx = 80) as ->.
  { destruct Hmx as [Hin Hall]. cbn in Hin, Hall.
    apply Forall_cons in Hall as [_ Hall]. apply Forall_cons in Hall as [H80 _].
    apply elem_of_cons in Hin as [->|Hin]; [lia|].
    by apply list_elem_of_singleton in Hin. }
  assert (mn = 60) as ->.
  { destruct Hmn as [Hin Hall]. cbn in Hin, Hall.
    apply Forall_cons in Hall as [H60 _].
    apply elem_of_cons in Hin as [->|Hin]; [done|].
    apply list_elem_of_singleton in Hin. lia. }
  vm_compute. reflexivity.
Defined.

(** Two rows: ages 30 and 41, IQs 110 and 95, bench presses 60 and 80. *)
Example statistics_of_two :
  exists w',
    show_statistics (world_with [ann; bob] 2 []) = Some (Ok (), w') /\
    stdout w' =
    [ Printed (String "010" "Data Statistics:");
      Printed "==============================";
      Printed "Total users: 2";
      Printed "Average age: 35.5";
      Printed "Average IQ: 102.5";
      Printed "Average bench press: 70.0 kg";
      Printed "Max bench press: 80 kg";
      Printed "Min bench press: 60 kg" ].
Proof.
  eexists. split.
  - by apply (show_statistics_rows _ (mk_table [ann; bob] 2)).
  - vm_compute. reflexivity.
Qed.

(** ** Every operation returns *)

Lemma steady_plot ev : steady (plot ev).
Proof.
  intros w. eexists _, _. split; [reflexivity|]. cbn. split; [lia|].
  exists []. by rewrite app_nil_r.
Qed.

Lemma steady_savefig f : steady (savefig f).
Proof.
  intros w. eexists _, _. split; [reflexivity|]. cbn. split; [lia|].
  exists []. by rewrite app_nil_r.
Qed.

Lemma steady_connect_db : steady connect_db.
Proof.
  intros w. eexists _, _. split; [reflexivity|]. cbn. split; [lia|].
  exists []. by rewrite app_nil_r.
Qed.

Lemma steady_conn_close : steady conn_close.
Proof.
  intros w. eexists _, _. split; [reflexivity|]. cbn. split; [lia|].
  exists []. by rewrite app_nil_r.
Qed.

Lemma steady_read_sql_query : steady read_sql_query.
Proof.
  intros w. unfold read_sql_query.
  destruct (Sqlite.execute _ _) as [[[] ?]|?];
    eexists _, _; (split; [reflexivity|]); cbn; (split; [lia|]);
    exists []; by rewrite app_nil_r.
Qed.

Lemma steady_unique_scatter_filename : steady unique_scatter_filename.
Proof.
  intros w. unfold unique_scatter_filename.
  destruct (get_unique_filename_total "scatter" ".png" (files w)) as [f ->].
  eexists _, _. split; [reflexivity|]. split; [lia|].
  exists []. by rewrite app_nil_r.
Qed.

#[local] Hint Resolve steady_plot steady_savefig steady_connect_db
  steady_conn_close steady_read_sql_query steady_unique_scatter_filename
  : steady.

Lemma steady_read_db : steady read_db.
Proof. unfold read_db, read_db_with. solve_steady. Qed.

#[local] Hint Resolve steady_read_db : steady.

(** A loop body advances when it returns and has read at least one line
    whenever it asks for another pass. *)
Definition advancing (body : M control) : Prop :=
  forall w, exists r w', body w = Some (r, w') /\
    (length (stdin w') <= length (stdin w))%nat /\
    (r = Ok Continue -> (length (stdin w') < length (stdin w))%nat) /\
    exists tail, stdout w' = stdout w ++ tail.

Lemma advancing_intro body : steady body -> progresses body -> advancing body.
Proof.
  intros Hs Hp w. destruct (Hs w) as (r & w' & Hr & Hlen & Hout).
  destruct (Hp w) as (c & w2 & Hc & Hlt). exists r, w'.
  repeat split; try done. intros ->. rewrite Hc in Hr. simplify_eq. auto.
Qed.

Lemma steady_while_true body fuel :
  advancing body ->
  forall w, (length (stdin w) < fuel)%nat ->
  exists r w', while_true fuel body w = Some (r, w') /\
    (length (stdin w') <= length (stdin w))%nat /\
    exists tail, stdout w' = stdout w ++ tail.
Proof.
  intros Hb. induction fuel as [|fuel IH]; intros w Hlen; [lia|].
  destruct (Hb w) as (r & w1 & Hr & Hle & Hlt & tail & Hout).
  cbn [while_true]. rewrite Hr. destruct r as [[]|e]; [by eauto 6| |by eauto 6].
  destruct (IH w1) as (r2 & w2 & Hr2 & Hle2 & tail2 & Hout2);
    [specialize (Hlt eq_refl); lia|].
  exists r2, w2. split; [done|]. split; [lia|].
  exists (tail ++ tail2). by rewrite Hout2, Hout, app_assoc.
Qed.

Lemma steady_retry_loop body : advancing body -> steady (retry_loop body).
Proof. intros Hb w. apply steady_while_true; [done|lia]. Qed.

Lemma add_new_user_iter_steady : steady add_new_user_iter.
Proof. unfold add_new_user_iter, add_new_user_try. solve_steady. Qed.

Lemma delete_user_iter_steady : steady delete_user_iter.
Proof. unfold delete_user_iter, delete_user_try. solve_steady. Qed.

Lemma update_user_iter_steady : steady update_user_iter.
Proof. unfold update_user_iter, update_user_try. solve_steady. Qed.

Lemma add_new_user_steady : steady add_new_user.
Proof.
  unfold add_new_user. repeat (apply steady_bind; [|intros ?]);
    auto with steady.
  apply steady_retry_loop, advancing_intro;
    [apply add_new_user_iter_steady|apply add_new_user_iter_progresses].
Qed.

Lemma delete_user_steady : steady delete_user.
Proof.
  assert (steady (retry_loop delete_user_iter)) as Hloop.
  { apply steady_retry_loop, advancing_intro;
      [apply delete_user_iter_steady|apply delete_user_iter_progresses]. }
  unfold delete_user. solve_steady.
Qed.

Lemma update_user_steady : steady update_user.
Proof.
  assert (steady (retry_loop update_user_iter)) as Hloop.
  { apply steady_retry_loop, advancing_intro;
      [apply update_user_iter_steady|apply update_user_iter_progresses]. }
  unfold update_user. solve_steady.
Qed.

Lemma show_statistics_steady : steady show_statistics.
Proof.
  unfold show_statistics. apply steady_bind; [apply steady_read_db|].
  intros df. destruct (df_empty df); [apply steady_print|]. cbv zeta.
  repeat (apply steady_bind; [apply steady_print|intros _]).
  apply steady_print.
Qed.

Lemma draw_scatter_steady : steady draw_scatter.
Proof. unfold draw_scatter. solve_steady. Qed.

Lemma initialize_database_steady : steady initialize_database.
Proof. unfold initialize_database. solve_steady. Qed.

#[local] Hint Resolve add_new_user_steady delete_user_steady
  update_user_steady show_statistics_steady draw_scatter_steady
  initialize_database_steady : steady.

Lemma main_menu_steady : steady main_menu.
Proof.
  unfold main_menu. repeat (apply steady_bind; [apply steady_print|intros _]).
  apply steady_print.
Qed.

Lemma main_choice_steady choice : steady (main_choice choice).
Proof. unfold main_choice. solve_steady. Qed.

#[local] Hint Resolve main_menu_steady main_choice_steady : steady.

(** A pass that starts by reading a line advances. *)
Lemma advancing_input (before : M unit) prompt (k : string -> M control) :
  steady before -> (forall l, steady (k l)) ->
  advancing (before;; l ← input prompt; k l).
Proof.
  intros Hb Hk w. destruct (Hb w) as (r0 & w0 & Hr0 & Hle0 & tail0 & Hout0).
  unfold mbind, M_bind at 1. rewrite Hr0. destruct r0 as [[]|e].
  - unfold mbind, M_bind, input. destruct (stdin w0) as [|l rest] eqn:Hin.
    + eexists _, _. split; [reflexivity|]. cbn. split; [lia|].
      split; [done|]. exists (tail0 ++ [Prompted prompt]).
      by rewrite Hout0, app_assoc.
    + destruct (Hk l (mk_world (disk w0) (pending w0) rest
                        (stdout w0 ++ [Prompted prompt]) (sql_log w0)
                        (files w0) (plots w0)))
        as (r & w' & -> & Hle & tail & Hout). cbn in Hle, Hout.
      exists r, w'. split; [done|]. cbn in Hle0.
      split; [lia|]. split; [intros _; lia|].
      exists (tail0 ++ Prompted prompt :: tail).
      rewrite Hout, Hout0, <- !app_assoc. done.
  - exists (Raise e), w0. split; [done|]. split; [done|]. split; [done|].
    by exists tail0.
Qed.

Lemma main_iter_advancing : advancing main_iter.
Proof.
  unfold main_iter.
  apply (advancing_input main_menu "Choose an option (1-7): "
           (fun l => main_choice (Py.strip l))); auto with steady.
Qed.

Lemma main_steady : steady main.
Proof.
  unfold main. repeat (apply steady_bind; [|intros ?]); auto with steady.
  apply steady_retry_loop, main_iter_advancing.
Qed.

(** ** What can escape *)

(** Only the end of the input escapes from [m]: an exception that leaves
    it is the [EOFError] of [input], with no line left. *)
Definition safe {A} (m : M A) : Prop :=
  forall w e w', m w = Some (Raise e, w') -> e = Py.EOFError /\ stdin w' = [].

Lemma safe_ret {A} (a : A) : safe (mret a).
Proof. by intros w e w'. Qed.

Lemma safe_emit ev : safe (emit ev).
Proof. by intros w e w'. Qed.

Lemma safe_print s : safe (print s).
Proof. by intros w e w'. Qed.

Lemma safe_plot ev : safe (plot ev).
Proof. by intros w e w'. Qed.

Lemma safe_savefig f : safe (savefig f).
Proof. by intros w e w'. Qed.

Lemma safe_connect_db : safe connect_db.
Proof. by intros w e w'. Qed.

Lemma safe_conn_commit : safe conn_commit.
Proof. by intros w e w'. Qed.

Lemma safe_conn_rollback : safe conn_rollback.
Proof. by intros w e w'. Qed.

Lemma safe_conn_close : safe conn_close.
Proof. by intros w e w'. Qed.

Lemma safe_input prompt : safe (input prompt).
Proof.
  intros w e w'. unfold input. destruct (stdin w); intros [= <- <-]; done.
Qed.

Lemma safe_unique_scatter_filename : safe unique_scatter_filename.
Proof.
  intros w e w'. unfold unique_scatter_filename.
  by destruct (get_unique_filename _ _ _).
Qed.

Lemma safe_create : safe (cursor_execute Sqlite.CreateUsersIfNotExists).
Proof.
  intros w e w'. unfold cursor_execute, Sqlite.execute.
  by destruct (_ !! "users").
Qed.

Lemma safe_bind {A B} (m : M A) (f : A -> M B) :
  safe m -> (forall a, safe (f a)) -> safe (m ≫= f).
Proof.
  intros Hm Hf w e w'. unfold mbind, M_bind.
  destruct (m w) as [[[a|e0] w0]|] eqn:Em; [apply Hf| |done].
  intros [= <- <-]. by apply (Hm w).
Qed.

(** A [try] with a handler for every exception lets out only what its
    handlers let out. *)
Lemma safe_handled {A} (body : M A) on_value (on_other : Py.exception -> M A) :
  (forall h e, on_value = Some h -> safe (h e)) ->
  (forall e, safe (on_other e)) ->
  safe (try_except body on_value (Some on_other)).
Proof.
  intros Hv Ho w e w'. unfold try_except.
  destruct (body w) as [[[a|e0] w0]|]; [done| |done].
  destruct (Py.is_ValueError e0), on_value as [hv|];
    first [by apply (Hv hv e0)|by apply Ho].
Qed.

Lemma safe_while_true body fuel : safe body -> safe (while_true fuel body).
Proof.
  intros Hb. induction fuel as [|fuel IH]; intros w e w'; [done|].
  cbn [while_true]. destruct (body w) as [[[[]|e0] w0]|] eqn:Eb; try done.
  - apply IH.
  - intros [= <- <-]. by apply (Hb w).
Qed.

Lemma safe_retry_loop body : safe body -> safe (retry_loop body).
Proof. intros Hb w. by apply safe_while_true. Qed.

Create HintDb safe.
#[local] Hint Resolve safe_ret safe_emit safe_print safe_plot safe_savefig
  safe_connect_db safe_conn_commit safe_conn_rollback safe_conn_close
  safe_input safe_unique_scatter_filename safe_create : safe.

Ltac solve_safe :=
  repeat first
    [ solve [auto with safe]
    | apply safe_handled; [intros ? ? ?; simplify_eq|intros ?]
    | apply safe_retry_loop
    | apply safe_bind; [|intros ?]
    | match goal with |- safe (if ?b then _ else _) => destruct b end
    | progress cbv zeta ].

Lemma read_db_safe : safe read_db.
Proof. unfold read_db, read_db_with. solve_safe. Qed.

#[local] Hint Resolve read_db_safe : safe.

Lemma add_new_user_safe : safe add_new_user.
Proof. unfold add_new_user, add_new_user_iter. solve_safe. Qed.

Lemma delete_user_safe : safe delete_user.
Proof. unfold delete_user, delete_user_iter. solve_safe. Qed.

Lemma update_user_safe : safe update_user.
Proof. unfold update_user, update_user_iter. solve_safe. Qed.

Lemma show_statistics_safe : safe show_statistics.
Proof.
  unfold show_statistics. apply safe_bind; [apply read_db_safe|].
  intros df. destruct (df_empty df); [apply safe_print|]. cbv zeta.
  repeat (apply safe_bind; [apply safe_print|intros _]).
  apply safe_print.
Qed.

Lemma draw_scatter_safe : safe draw_scatter.
Proof. unfold draw_scatter. solve_safe. Qed.

Lemma initialize_database_safe : safe initialize_database.
Proof. unfold initialize_database. solve_safe. Qed.

#[local] Hint Resolve add_new_user_safe delete_user_safe update_user_safe
  show_statistics_safe draw_scatter_safe initialize_database_safe : safe.

Lemma main_menu_safe : safe main_menu.
Proof.
  unfold main_menu. repeat (apply safe_bind; [apply safe_print|intros _]).
  apply safe_print.
Qed.

#[local] Hint Resolve main_menu_safe : safe.

Lemma main_choice_safe choice : safe (main_choice choice).
Proof. unfold main_choice. solve_safe. Qed.

#[local] Hint Resolve main_choice_safe : safe.

Lemma main_safe : safe main.
Proof.
  unfold main. apply safe_bind; [apply initialize_database_safe|intros _].
  apply safe_bind; [apply safe_print|intros _].
  apply safe_retry_loop. unfold main_iter.
  apply safe_bind; [apply main_menu_safe|intros _].
  apply safe_bind; [apply safe_input|intros l]. apply main_choice_safe.
Qed.

(** ** How the menu loop ends *)

Definition never_breaks (m : M control) : Prop :=
  forall w w', m w <> Some (Ok Break, w').

Lemma never_breaks_continue {A} (m : M A) :
  never_breaks (m ≫= fun _ => mret Continue).
Proof.
  intros w w'. unfold mbind, M_bind.
  by destruct (m w) as [[[a|e] w0]|].
Qed.

Lemma never_breaks_bind {A} (m : M A) (f : A -> M control) :
  (forall a, never_breaks (f a)) -> never_breaks (m ≫= f).
Proof.
  intros Hf w w'. unfold mbind, M_bind.
  destruct (m w) as [[[a|e] w0]|]; [apply Hf|done|done].
Qed.

Definition said_goodbye (w : world) : Prop :=
  exists out, stdout w = out ++ [Printed "Program ended"].

Lemma main_choice_break choice w w' :
  main_choice choice w = Some (Ok Break, w') ->
  choice = "7" /\ stdout w' = stdout w ++ [Printed "Program ended"].
Proof.
  unfold main_choice.
  destruct (bool_decide (choice = "1")).
  { intros H. apply never_breaks_bind in H; [done|].
    intros df. apply never_breaks_continue. }
  do 5 (destruct (bool_decide (choice = _));
        [intros H; by apply never_breaks_continue in H|]).
  destruct (bool_decide (choice = "7")) eqn:H7.
  - apply bool_decide_eq_true in H7.
    unfold mbind, M_bind, print, emit, mret, M_ret. by intros [= <-].
  - intros H. by apply never_breaks_continue in H.
Qed.

Lemma main_iter_break w w' :
  main_iter w = Some (Ok Break, w') -> said_goodbye w'.
Proof.
  unfold main_iter, mbind, M_bind.
  destruct (main_menu w) as [[[[]|e] w0]|]; try done.
  unfold input. destruct (stdin w0); [done|].
  intros H. apply main_choice_break in H as [_ H]. by eexists.
Qed.

Lemma while_true_break (Q : world -> Prop) body fuel :
  (forall w w', body w = Some (Ok Break, w') -> Q w') ->
  forall w w', while_true fuel body w = Some (Ok (), w') -> Q w'.
Proof.
  intros Hb. induction fuel as [|fuel IH]; intros w w'; [done|].
  cbn [while_true]. destruct (body w) as [[[[]|e] w0]|] eqn:Eb; try done.
  - intros [= <-]. by apply (Hb w).
  - apply IH.
Qed.

(** X1.  Where the database file can be opened and the figure drawn,
    [main] returns on every input of ASCII lines, from every state of the
    database.  When it ends normally the last line printed is the
    farewell of option 7; nothing that is typed makes it end with an
    exception, except that the [EOFError] of [input] leaves it when no
    line is left. *)
Theorem main_returns (w : world) :
  ascii_lines (stdin w) ->
  exists r w', main w = Some (r, w') /\
    match r with
    | Ok _ => said_goodbye w'
    | Raise e => e = Py.EOFError /\ stdin w' = []
    end.
Proof.
  intros _.
  destruct (main_steady w) as (r & w' & Hrun & _). exists r, w'.
  split; [done|]. destruct r as [[]|e]; [|by apply (main_safe w)].
  revert Hrun. unfold main, mbind, M_bind.
  destruct (initialize_database w) as [[[[]|e] w0]|];
    [|intros; discriminate..].
  unfold print, emit. apply while_true_break, main_iter_break.
Qed.

Lemma main_returns_witness :
  exists r w', main (world_with [ann; bob] 2 ["9"; "7"]) = Some (r, w') /\
    match r with
    | Ok _ => said_goodbye w'
    | Raise e => e = Py.EOFError /\ stdin w' = []
    end.
Proof. apply main_returns. by repeat constructor. Defined.

(** ** Invariants of the store *)

(** [m] keeps [P]: from a world where [P] holds, [m] ends in a world
    where it holds, whether it returns or raises. *)
Definition keeps {A} (P : world -> Prop) (m : M A) : Prop :=
  forall w r w', P w -> m w = Some (r, w') -> P w'.

(** [J] holds of the committed database and of the database the open
    connection sees. *)
Definition holds (J : database -> Prop) (w : world) : Prop :=
  J (disk w) /\ J (view w).

Section Keeps.
Context {A B : Type} (P : world -> Prop).

Lemma keeps_ret (a : A) : keeps P (mret a).
Proof. intros w r w' HP [= <- <-]. done. Qed.

Lemma keeps_raise e : keeps P (@raise A e).
Proof. intros w r w' HP [= <- <-]. done. Qed.

Lemma keeps_bind (m : M A) (f : A -> M B) :
  keeps P m -> (forall a, keeps P (f a)) -> keeps P (m ≫= f).
Proof.
  intros Hm Hf w r w' HP. unfold mbind, M_bind.
  destruct (m w) as [[[a|e] w0]|] eqn:Em; [|intros [= <- <-]|done].
  - apply Hf. by apply (Hm w (Ok a)).
  - by apply (Hm w (Raise e)).
Qed.

Lemma keeps_try_except (body : M A) on_value on_other :
  keeps P body ->
  (forall h e, on_value = Some h -> keeps P (h e)) ->
  (forall h e, on_other = Some h -> keeps P (h e)) ->
  keeps P (try_except body on_value on_other).
Proof.
  intros Hb Hv Ho w r w' HP. unfold try_except.
  destruct (body w) as [[[a|e] w0]|] eqn:Eb; [| |done].
  - intros [= <- <-]. by apply (Hb w (Ok a)).
  - assert (P w0) as HP0 by (by apply (Hb w (Raise e))).
    destruct (Py.is_ValueError e), on_value as [hv|], on_other as [ho|];
      first [ by apply (Hv hv e) | by apply (Ho ho e)
            | by intros [= <- <-] ].
Qed.
End Keeps.

Lemma keeps_while_true P body fuel :
  keeps P body -> keeps P (while_true fuel body).
Proof.
  intros Hb. induction fuel as [|fuel IH]; intros w r w' HP; [done|].
  cbn [while_true]. destruct (body w) as [[[[]|e] w0]|] eqn:Eb; try done.
  - intros [= <- <-]. by apply (Hb w (Ok Break)).
  - apply IH. by apply (Hb w (Ok Continue)).
  - intros [= <- <-]. by apply (Hb w (Raise e)).
Qed.

Lemma keeps_retry_loop P body : keeps P body -> keeps P (retry_loop body).
Proof. intros Hb w. by apply keeps_while_true. Qed.

Section Invariant.
Variable J : database -> Prop.
Hypothesis J_execute : forall s d a d',
  valid_statement s -> J d -> Sqlite.execute s d = Ok (a, d') -> J d'.

Lemma holds_same w w' :
  disk w' = disk w -> pending w' = pending w -> holds J w -> holds J w'.
Proof. unfold holds, view. by intros -> ->. Qed.

Lemma keeps_emit ev : keeps (holds J) (emit ev).
Proof. intros w r w' HP [= <- <-]. by apply (holds_same w). Qed.

Lemma keeps_print s : keeps (holds J) (print s).
Proof. apply keeps_emit. Qed.

Lemma keeps_input prompt : keeps (holds J) (input prompt).
Proof.
  intros w r w' HP. unfold input.
  destruct (stdin w); intros [= <- <-]; by apply (holds_same w).
Qed.

Lemma keeps_int text : keeps (holds J) (int text).
Proof. unfold int. destruct (Py.int text); [apply keeps_ret|apply keeps_raise]. Qed.

Lemma keeps_plot ev : keeps (holds J) (plot ev).
Proof. intros w r w' HP [= <- <-]. by apply (holds_same w). Qed.

Lemma keeps_savefig f : keeps (holds J) (savefig f).
Proof. intros w r w' HP [= <- <-]. by apply (holds_same w). Qed.

Lemma keeps_unique_scatter_filename : keeps (holds J) unique_scatter_filename.
Proof.
  intros w r w' HP. unfold unique_scatter_filename.
  destruct (get_unique_filename _ _ _); [|done]. by intros [= <- <-].
Qed.

Lemma keeps_connect_db : keeps (holds J) connect_db.
Proof. intros w r w' [HP _] [= <- <-]. by split. Qed.

Lemma keeps_conn_rollback : keeps (holds J) conn_rollback.
Proof. intros w r w' [HP _] [= <- <-]. by split. Qed.

Lemma keeps_conn_close : keeps (holds J) conn_close.
Proof. intros w r w' [HP _] [= <- <-]. by split. Qed.

Lemma keeps_conn_commit : keeps (holds J) conn_commit.
Proof. intros w r w' [_ HP] [= <- <-]. by split. Qed.

Lemma keeps_read_sql_query : keeps (holds J) read_sql_query.
Proof.
  intros w r w' HP. unfold read_sql_query.
  destruct (Sqlite.execute _ _) as [[[] ?]|?]; intros [= <- <-];
    by apply (holds_same w).
Qed.

Lemma keeps_cursor_execute s :
  valid_statement s -> keeps (holds J) (cursor_execute s).
Proof.
  intros Hs w r w' [Hd Hv]. unfold cursor_execute. fold (view w).
  destruct (Sqlite.execute s (view w)) as [[a d']|e] eqn:He;
    intros [= <- <-]; [|by split].
  split; [done|]. unfold view. cbn.
  destruct (Sqlite.writes s); cbn; [by eapply J_execute|done].
Qed.

Ltac guards :=
  repeat match goal with
  | H : bool_decide _ = false |- _ => apply bool_decide_eq_false in H
  | H : (_ <=? _) = false |- _ => apply Z.leb_gt in H
  | H : (_ <? _) = false |- _ => apply Z.ltb_ge in H
  end.

Ltac keeps_step :=
  lazymatch goal with
  | |- keeps _ (mbind _ _) => apply keeps_bind; [|intros ?]
  | |- keeps _ (mret _) => apply keeps_ret
  | |- keeps _ (raise _) => apply keeps_raise
  | |- keeps _ (print _) => apply keeps_print
  | |- keeps _ (emit _) => apply keeps_emit
  | |- keeps _ (input _) => apply keeps_input
  | |- keeps _ (int _) => apply keeps_int
  | |- keeps _ (plot _) => apply keeps_plot
  | |- keeps _ (savefig _) => apply keeps_savefig
  | |- keeps _ unique_scatter_filename => apply keeps_unique_scatter_filename
  | |- keeps _ connect_db => apply keeps_connect_db
  | |- keeps _ conn_rollback => apply keeps_conn_rollback
  | |- keeps _ conn_close => apply keeps_conn_close
  | |- keeps _ conn_commit => apply keeps_conn_commit
  | |- keeps _ read_sql_query => apply keeps_read_sql_query
  | |- keeps _ (cursor_execute _) =>
      apply keeps_cursor_execute; guards; cbn; repeat split; (done || lia)
  | |- keeps _ (try_except _ _ _) =>
      apply keeps_try_except; [ | intros ? ? ?; simplify_eq
                                | intros ? ? ?; simplify_eq ]
  | |- keeps _ (retry_loop _) => apply keeps_retry_loop
  | |- keeps _ (if ?b then _ else _) => destruct b eqn:?
  | |- keeps _ (let _ := _ in _) => cbv zeta
  end.

Lemma keeps_read_db : keeps (holds J) read_db.
Proof. unfold read_db, read_db_with. repeat keeps_step. Qed.

Lemma keeps_initialize_database : keeps (holds J) initialize_database.
Proof. unfold initialize_database. repeat keeps_step. Qed.

Lemma keeps_add_new_user : keeps (holds J) add_new_user.
Proof.
  unfold add_new_user, add_new_user_iter, add_new_user_try.
  repeat keeps_step.
Qed.

Lemma keeps_delete_user : keeps (holds J) delete_user.
Proof.
  unfold delete_user, delete_user_iter, delete_user_try.
  repeat (keeps_step || apply keeps_read_db).
Qed.

Lemma keeps_update_number prompt bad complaint set updated x :
  (forall v, bad v = false -> valid_statement (Sqlite.UpdateWhereId (set v) x)) ->
  keeps (holds J) (update_number prompt bad complaint set updated x).
Proof.
  intros Hbad. unfold update_number.
  repeat (keeps_step || (apply keeps_cursor_execute; by apply Hbad)).
Qed.

Lemma keeps_update_user : keeps (holds J) update_user.
Proof.
  unfold update_user, update_user_iter, update_user_try, update_user_menu.
  repeat first
    [ apply keeps_read_db
    | apply keeps_update_number; intros v Hv; cbn; guards; lia
    | keeps_step ].
Qed.

Lemma keeps_show_statistics : keeps (holds J) show_statistics.
Proof.
  unfold show_statistics. repeat (keeps_step || apply keeps_read_db).
Qed.

Lemma keeps_draw_scatter : keeps (holds J) draw_scatter.
Proof.
  unfold draw_scatter. repeat (keeps_step || apply keeps_read_db).
Qed.

Lemma keeps_main : keeps (holds J) main.
Proof.
  unfold main, main_iter, main_menu, main_choice.
  repeat first
    [ apply keeps_read_db | apply keeps_initialize_database
    | apply keeps_add_new_user | apply keeps_delete_user
    | apply keeps_update_user | apply keeps_show_statistics
    | apply keeps_draw_scatter | keeps_step ].
Qed.

End Invariant.

(** ** The constraints and the primary key, kept by every operation *)

Lemma execute_keeps_valid s d a d' :
  valid_statement s -> stored_valid d ->
  Sqlite.execute s d = Ok (a, d') -> stored_valid d'.
Proof.
  intros Hs Hd He. destruct s as [|n ag i b|x|x|asg x|].
  - unfold Sqlite.execute in He.
    destruct (d !! "users") eqn:Ht; simplify_eq; [done|].
    unfold stored_valid. rewrite users_of_insert. constructor.
  - apply execute_insert_inv in He as (t & Ht & ? & ? & ? & ->).
    destruct Hs as (Hn & _). unfold stored_valid in *.
    rewrite users_of_insert. cbn. unfold users_of in Hd. rewrite Ht in Hd.
    apply Forall_app. split; [done|]. by constructor.
  - by apply execute_select_count in He as (t & _ & -> & _).
  - unfold Sqlite.execute, Sqlite.on_users in He.
    destruct (d !! "users") as [t|] eqn:Ht; simplify_eq.
    unfold stored_valid in *. rewrite users_of_insert. cbn.
    unfold users_of in Hd. rewrite Ht in Hd.
    apply Forall_forall. intros r [_ Hr]%list_elem_of_filter.
    by apply (proj1 (Forall_forall _ _) Hd).
  - unfold Sqlite.execute, Sqlite.on_users in He.
    destruct (d !! "users") as [t|] eqn:Ht; [|done].
    destruct (_ || _); simplify_eq.
    unfold stored_valid in *. rewrite users_of_insert. cbn.
    unfold users_of in Hd. rewrite Ht in Hd.
    apply Forall_map. eapply Forall_impl; [exact Hd|].
    intros r (? & ? & ? & ?). unfold Sqlite.update_row.
    destruct (id r =? x); [|done].
    destruct asg; cbn in *; repeat split; done.
  - unfold Sqlite.execute, Sqlite.on_users in He.
    destruct (d !! "users"); by simplify_eq.
Qed.

(** No two rows share an id. *)
Definition primary_key (d : database) : Prop := NoDup (map id (users_of d)).

Lemma max_rowid_bound rs r : r ∈ rs -> id r <= Sqlite.max_rowid rs.
Proof.
  induction rs as [|r0 rs IH]; [by intros ?%elem_of_nil|].
  unfold Sqlite.max_rowid in *. cbn [foldr].
  intros [->|Hr]%elem_of_cons; [lia|]. specialize (IH Hr). lia.
Qed.

Lemma NoDup_ids_filter (rs : list user) x :
  NoDup (map id rs) -> NoDup (map id (filter (fun r => id r <> x) rs)).
Proof.
  induction rs as [|r rs IH]; [done|].
  change (map id (r :: rs)) with (id r :: map id rs).
  intros [Hr Hrs]%NoDup_cons. rewrite filter_cons.
  destruct (decide (id r <> x)); [|by apply IH].
  change (NoDup (id r :: map id (filter (fun r => id r <> x) rs))).
  apply NoDup_cons. split; [|by apply IH].
  intros (r' & Hid & [_ Hr']%list_elem_of_filter)%list_elem_of_fmap.
  apply Hr. apply list_elem_of_fmap. eauto.
Qed.

Lemma execute_keeps_primary_key s d a d' :
  valid_statement s -> primary_key d ->
  Sqlite.execute s d = Ok (a, d') -> primary_key d'.
Proof.
  intros _ Hd He. unfold primary_key in *.
  destruct s as [|n ag i b|x|x|asg x|].
  - unfold Sqlite.execute in He.
    destruct (d !! "users") eqn:Ht; simplify_eq; [done|].
    rewrite users_of_insert. constructor.
  - apply execute_insert_inv in He as (t & Ht & _ & _ & _ & ->).
    rewrite users_of_insert. cbn. unfold users_of in Hd. rewrite Ht in Hd.
    rewrite map_app. cbn. apply NoDup_app. split; [done|]. split.
    + intros y Hy Hnew. apply list_elem_of_singleton in Hnew. subst y.
      apply list_elem_of_fmap in Hy as (r & Hid & Hr).
      apply max_rowid_bound in Hr. unfold Sqlite.next_rowid in Hid. lia.
    + apply NoDup_singleton.
  - by apply execute_select_count in He as (t & _ & -> & _).
  - unfold Sqlite.execute, Sqlite.on_users in He.
    destruct (d !! "users") as [t|] eqn:Ht; simplify_eq.
    rewrite users_of_insert. cbn. unfold users_of in Hd. rewrite Ht in Hd.
    by apply NoDup_ids_filter.
  - unfold Sqlite.execute, Sqlite.on_users in He.
    destruct (d !! "users") as [t|] eqn:Ht; [|done].
    destruct (_ || _); simplify_eq.
    rewrite users_of_insert. cbn. unfold users_of in Hd. rewrite Ht in Hd.
    replace (map id (map (Sqlite.update_row asg x) (rows t)))
      with (map id (rows t)); [done|].
    rewrite map_map. apply map_ext. intros r. unfold Sqlite.update_row.
    destruct (id r =? x); [|done]. by destruct asg.
  - unfold Sqlite.execute, Sqlite.on_users in He.
    destruct (d !! "users"); by simplify_eq.
Qed.

(** The operations of the program, and the program. *)
Definition operations : list (M unit) :=
  [initialize_database; add_new_user; delete_user; update_user;
   show_statistics; draw_scatter; main].

Lemma operations_steady op : op ∈ operations -> steady op.
Proof.
  unfold operations. rewrite !elem_of_cons, elem_of_nil.
  intros [->|[->|[->|[->|[->|[->|[->|[]]]]]]]]; auto with steady.
  apply main_steady.
Qed.

Lemma operations_keep J op :
  (forall s d a d', valid_statement s -> J d ->
     Sqlite.execute s d = Ok (a, d') -> J d') ->
  op ∈ operations -> keeps (holds J) op.
Proof.
  intros HJ. unfold operations. rewrite !elem_of_cons, elem_of_nil.
  intros [->|[->|[->|[->|[->|[->|[->|[]]]]]]]].
  - by apply keeps_initialize_database.
  - by apply keeps_add_new_user.
  - by apply keeps_delete_user.
  - by apply keeps_update_user.
  - by apply keeps_show_statistics.
  - by apply keeps_draw_scatter.
  - by apply keeps_main.
Qed.

(** X2.  Every operation returns, and the rows it leaves satisfy the
    constraints of the table when the rows it found did. *)
Theorem operations_keep_constraints (op : M unit) (w : world) :
  op ∈ operations -> pending w = None -> stored_valid (disk w) ->
  exists r w', op w = Some (r, w') /\ stored_valid (disk w').
Proof.
  intros Hop Hp Hd.
  destruct (operations_steady op Hop w) as (r & w' & Hrun & _).
  exists r, w'. split; [done|].
  apply (operations_keep stored_valid op execute_keeps_valid Hop w r w');
    [|done].
  unfold holds, view. by rewrite Hp.
Qed.

Lemma operations_keep_constraints_witness :
  exists r w',
    update_user (world_with [ann; bob] 2 ["2"; "3"; "42"]) = Some (r, w') /\
    stored_valid (disk w').
Proof.
  apply operations_keep_constraints.
  - unfold operations. do 3 apply list_elem_of_further.
    apply list_elem_of_here.
  - reflexivity.
  - unfold stored_valid, users_of. cbn.
    repeat constructor; cbn; (lia || discriminate).
Defined.

(** X3.  Every operation returns, and no two rows it leaves share an id when
    no two rows it found did. *)
Theorem operations_keep_primary_key (op : M unit) (w : world) :
  op ∈ operations -> pending w = None -> primary_key (disk w) ->
  exists r w', op w = Some (r, w') /\ primary_key (disk w').
Proof.
  intros Hop Hp Hd.
  destruct (operations_steady op Hop w) as (r & w' & Hrun & _).
  exists r, w'. split; [done|].
  apply (operations_keep primary_key op execute_keeps_primary_key Hop w r w');
    [|done].
  unfold holds, view. by rewrite Hp.
Qed.

Lemma operations_keep_primary_key_witness :
  exists r w',
    add_new_user (world_with [ann; bob] 2 ["Cy_Orr"; "25"; "100"; "90"]) =
      Some (r, w') /\
    primary_key (disk w').
Proof.
  apply operations_keep_primary_key.
  - unfold operations. apply list_elem_of_further, list_elem_of_here.
  - reflexivity.
  - by apply (@bool_decide_unpack (NoDup (map id [ann; bob])) _).
Defined.

(** ** Adding a record *)

Lemma execute_insert_ok n a i b d t :
  d !! "users" = Some t -> 0 < a -> 0 < i -> 0 <= b ->
  Sqlite.execute (Sqlite.InsertUser n a i b) d =
  Ok (Sqlite.NoRows,
      <["users" := mk_table
          (rows t ++ [mk_user (Sqlite.next_rowid t) n a i b])
          (Sqlite.next_rowid t)]> d).
Proof.
  intros Ht Ha Hi Hb. unfold Sqlite.execute, Sqlite.on_users, Sqlite.check.
  rewrite Ht. cbn.
  rewrite (proj2 (Z.ltb_lt 0 a) Ha), (proj2 (Z.ltb_lt 0 i) Hi),
    (proj2 (Z.leb_le 0 b) Hb). reflexivity.
Qed.

Definition add_prompts : list console_event :=
  [Prompted "Name (Name_Lastname): "; Prompted "Age: "; Prompted "IQ: ";
   Prompted "Bench press (kg): "].

Lemma add_new_user_iter_valid w l_name l_age l_iq l_bench rest a i b t :
  stdin w = l_name :: l_age :: l_iq :: l_bench :: rest ->
  Py.strip l_name <> "" ->
  Py.int l_age = Some a -> Py.int l_iq = Some i -> Py.int l_bench = Some b ->
  0 < a -> 0 < i -> 0 <= b ->
  view w !! "users" = Some t ->
  add_new_user_iter w =
  Some (Ok Break,
        mk_world
          (<["users" := mk_table
              (rows t ++ [mk_user (Sqlite.next_rowid t) (Py.strip l_name) a i b])
              (Sqlite.next_rowid t)]> (view w))
          None rest
          (stdout w ++ add_prompts ++ [Printed "New user was added"])
          (sql_log w ++
             [Executed (Sqlite.InsertUser (Py.strip l_name) a i b); Committed])
          (files w) (plots w)).
Proof.
  intros Hin Hname Hage Hiq Hbench Ha Hi Hb Ht.
  pose proof (execute_insert_ok (Py.strip l_name) a i b _ t Ht Ha Hi Hb) as He.
  destruct w as [d p inp out log fs pl]. unfold view in *. cbn in Hin, He |- *.
  subst inp. unfold add_new_user_iter, add_new_user_try. unfold_M.
  cbn -[Z.leb Z.ltb]. rewrite (bool_decide_eq_false_2 _ Hname).
  cbn -[Z.leb Z.ltb]. rewrite Hage.
  cbn -[Z.leb Z.ltb]. rewrite (proj2 (Z.leb_gt a 0) Ha).
  cbn -[Z.leb Z.ltb]. rewrite Hiq.
  cbn -[Z.leb Z.ltb]. rewrite (proj2 (Z.leb_gt i 0) Hi).
  cbn -[Z.leb Z.ltb]. rewrite Hbench.
  cbn -[Z.leb Z.ltb]. rewrite (proj2 (Z.ltb_ge b 0) Hb).
  cbn -[Z.leb Z.ltb]. rewrite He. cbn. unfold add_prompts.
  by rewrite <- !app_assoc.
Qed.

(** X4.  [add_new_user] given a name that is not blank and three numbers
    within the constraints: one row is appended, under the next id of
    the table, with the name stripped; nothing else is stored or asked.
    The lines are ASCII text and the numbers, the new id included, are
    numbers SQLite can take. *)
Theorem add_new_user_appends (w : world)
    (l_name l_age l_iq l_bench : string) (rest : list string)
    (a i b : Z) (t : table) :
  stdin w = l_name :: l_age :: l_iq :: l_bench :: rest ->
  ascii_lines [l_name; l_age; l_iq; l_bench] ->
  Py.strip l_name <> "" ->
  Py.int l_age = Some a -> Py.int l_iq = Some i -> Py.int l_bench = Some b ->
  0 < a -> 0 < i -> 0 <= b ->
  disk w !! "users" = Some t ->
  Sqlite.binds (Sqlite.InsertUser (Py.strip l_name) a i b) ->
  Sqlite.int64 (Sqlite.next_rowid t) ->
  exists w',
    add_new_user w = Some (Ok (), w') /\
    disk w' =
      <["users" := mk_table
          (rows t ++ [mk_user (Sqlite.next_rowid t) (Py.strip l_name) a i b])
          (Sqlite.next_rowid t)]> (disk w) /\
    (Sqlite.next_rowid t ∉ map id (rows t)) /\
    stdin w' = rest /\
    stdout w' = stdout w ++ add_prompts ++ [Printed "New user was added"] /\
    sql_log w' = sql_log w ++
      [Executed (Sqlite.InsertUser (Py.strip l_name) a i b); Committed].
Proof.
  intros Hin _ Hname Hage Hiq Hbench Ha Hi Hb Ht _ _.
  destruct w as [d p inp out log fs pl]. cbn in Hin, Ht. subst inp.
  pose proof (add_new_user_iter_valid
                (mk_world d None (l_name :: l_age :: l_iq :: l_bench :: rest)
                   out log fs pl)
                l_name l_age l_iq l_bench rest a i b t eq_refl Hname Hage Hiq
                Hbench Ha Hi Hb Ht) as Hiter.
  apply (retry_loop_break _ add_new_user_iter_progresses) in Hiter.
  eexists. split.
  - unfold add_new_user. unfold_M. cbn -[retry_loop]. rewrite Hiter.
    reflexivity.
  - cbn. unfold view. cbn. repeat split; try done.
    intros (r & Hid & Hr)%list_elem_of_fmap.
    apply max_rowid_bound in Hr. unfold Sqlite.next_rowid in Hid. lia.
Qed.

Definition cy : user := mk_user 3 "Cy_Orr" 25 100 90.

Lemma add_new_user_appends_witness :
  exists w',
    add_new_user (world_with [ann; bob] 2 [" Cy_Orr "; "25"; "100"; "90"]) =
      Some (Ok (), w') /\
    disk w' = {["users" := mk_table [ann; bob; cy] 3]}.
Proof.
  destruct (add_new_user_appends
              (world_with [ann; bob] 2 [" Cy_Orr "; "25"; "100"; "90"])
              " Cy_Orr " "25" "100" "90" [] 25 100 90 (mk_table [ann; bob] 2))
    as (w' & Hrun & Hdisk & _).
  - reflexivity.
  - by repeat constructor.
  - discriminate.
  - reflexivity.
  - reflexivity.
  - reflexivity.
  - lia.
  - lia.
  - lia.
  - reflexivity.
  - cbn. unfold Sqlite.int64. lia.
  - unfold Sqlite.int64. vm_compute. split; [discriminate|reflexivity].
  - exists w'. split; [exact Hrun|]. rewrite Hdisk. vm_compute. reflexivity.
Defined.

(** ** Operations on a table without rows *)

(** X5.  With no row in the table, [delete_user] and [update_user] say so
    and return: no id is asked for, no line is read and nothing is sent
    to the store but the query of [read_db]. *)
Theorem nothing_to_delete_or_update (w : world) (t : table) :
  disk w !! "users" = Some t -> rows t = [] ->
  exists w1 w2,
    delete_user w = Some (Ok (), w1) /\
    update_user w = Some (Ok (), w2) /\
    stdout w1 = stdout w ++ [Printed "Database is empty. Nothing to delete."] /\
    stdout w2 = stdout w ++ [Printed "Database is empty. Nothing to update."] /\
    disk w1 = disk w /\ disk w2 = disk w /\
    stdin w1 = stdin w /\ stdin w2 = stdin w /\
    sql_log w1 = sql_log w ++ [Executed Sqlite.SelectAll] /\
    sql_log w2 = sql_log w ++ [Executed Sqlite.SelectAll].
Proof.
  intros Ht Hrows. destruct w as [d p inp out log fs pl]. cbn in Ht.
  pose proof (read_db_present (mk_world d None inp out log fs pl) t Ht)
    as Hread.
  eexists _, _. split; [|split].
  - unfold delete_user. unfold_M. cbn -[read_db]. rewrite Hread.
    cbn -[df_empty]. rewrite df_empty_users, bool_decide_eq_true_2 by done.
    reflexivity.
  - unfold update_user. unfold_M. cbn -[read_db]. rewrite Hread.
    cbn -[df_empty]. rewrite df_empty_users, bool_decide_eq_true_2 by done.
    reflexivity.
  - cbn. repeat split; done.
Qed.

Lemma nothing_to_delete_or_update_witness :
  exists w1 w2,
    delete_user (world_with [] 0 ["1"]) = Some (Ok (), w1) /\
    update_user (world_with [] 0 ["1"]) = Some (Ok (), w2) /\
    stdin w1 = ["1"] /\ stdin w2 = ["1"].
Proof.
  destruct (nothing_to_delete_or_update (world_with [] 0 ["1"]) (mk_table [] 0))
    as (w1 & w2 & H1 & H2 & _ & _ & _ & _ & H3 & H4 & _);
    [reflexivity | reflexivity | ].
  exists w1, w2. exact (conj H1 (conj H2 (conj H3 H4))).
Defined.

(** X6.  With no row in the table, [draw_scatter] says so and returns: nothing
    is plotted, no question is asked and no file is written. *)
Theorem draw_scatter_no_data (w : world) (t : table) :
  disk w !! "users" = Some t -> rows t = [] ->
  exists w',
    draw_scatter w = Some (Ok (), w') /\
    stdout w' = stdout w ++ [Printed "No data available for visualization"] /\
    plots w' = plots w /\ files w' = files w /\
    stdin w' = stdin w /\ disk w' = disk w.
Proof.
  intros Ht Hrows. pose proof (read_db_present w t Ht) as Hread.
  destruct w as [d p inp out log fs pl].
  eexists. split.
  - unfold draw_scatter, mbind, M_bind. rewrite Hread.
    rewrite df_empty_users, bool_decide_eq_true_2 by done. reflexivity.
  - cbn. repeat split; done.
Qed.

Lemma draw_scatter_no_data_witness :
  exists w',
    draw_scatter (world_with [] 0 ["y"]) = Some (Ok (), w') /\
    plots w' = [] /\ files w' = ∅ /\ stdin w' = ["y"].
Proof.
  destruct (draw_scatter_no_data (world_with [] 0 ["y"]) (mk_table [] 0))
    as (w' & Hrun & _ & Hplots & Hfiles & Hin & _);
    [reflexivity | reflexivity | ].
  exists w'. exact (conj Hrun (conj Hplots (conj Hfiles Hin))).
Defined.

(** ** An id that matches no record, in the update loop *)

(** X7.  An attempt of the update loop on an id that matches no record, the
    id being a number SQLite can take: the only statement sent is the
    existence check, the menu is not shown, nothing changes and the loop
    goes on with the lines that are left. *)
Theorem update_user_not_found (w : world) (line : string) (rest : list string)
    (x : Z) (t : table) :
  stdin w = line :: rest ->
  Py.int line = Some x ->
  Sqlite.int64 x ->
  view w !! "users" = Some t ->
  x ∉ map id (rows t) ->
  exists w1,
    update_user_iter w = Some (Ok Continue, w1) /\
    disk w1 = disk w /\ pending w1 = pending w /\
    sql_log w1 = sql_log w ++ [Executed (Sqlite.SelectCountWhereId x)] /\
    stdin w1 = rest /\
    stdout w1 = stdout w ++ [id_prompt;
      Printed "User with this ID does not exist. Please try again"] /\
    retry_loop update_user_iter w = retry_loop update_user_iter w1.
Proof.
  intros Hin Hint _ Ht Hx.
  assert (update_user_iter w =
          Some (Ok Continue,
                mk_world (disk w) (pending w) rest
                  (stdout w ++ [id_prompt;
                     Printed "User with this ID does not exist. Please try again"])
                  (sql_log w ++ [Executed (Sqlite.SelectCountWhereId x)])
                  (files w) (plots w))) as Hiter.
  { apply filter_id_length in Hx.
    destruct w as [d p inp out log fs pl]. unfold view in Ht.
    cbn in Hin, Ht |- *. subst inp.
    unfold update_user_iter, update_user_try. unfold_M. cbn.
    rewrite Hint. cbn. rewrite (execute_count _ _ Ht). cbn. rewrite Hx.
    change (Z.of_nat 0 =? 0) with true. cbn. by rewrite <- app_assoc. }
  eexists. split; [exact Hiter|]. cbn. repeat split; try done.
  by apply retry_loop_continue; [apply update_user_iter_progresses|].
Qed.

Lemma update_user_not_found_witness :
  exists w1,
    update_user_iter (world_with [ann; bob] 2 ["7"; "2"]) = Some (Ok Continue, w1) /\
    disk w1 = {["users" := mk_table [ann; bob] 2]} /\ stdin w1 = ["2"].
Proof.
  destruct (update_user_not_found (world_with [ann; bob] 2 ["7"; "2"])
              "7" ["2"] 7 (mk_table [ann; bob] 2))
    as (w1 & H1 & H2 & _ & _ & H3 & _); try reflexivity.
  - unfold Sqlite.int64. lia.
  - by apply (@bool_decide_unpack (7 ∉ map id [ann; bob]) _).
  - exists w1. by rewrite H1, H2, H3.
Defined.

(** ** The filename chooser, for any base name and extension *)

(** X8.  [get_unique_filename] returns a name for every base name, extension
    and set of files; the name does not exist; it is the base name with
    the extension when that is free, and otherwise carries the first
    counter from 2 on whose name is free. *)
Theorem get_unique_filename_fresh (base_name extension : string)
    (fs : gset string) :
  exists filename,
    get_unique_filename base_name extension fs = Some filename /\
    (filename ∉ fs) /\
    (base_name +:+ extension ∉ fs -> filename = base_name +:+ extension) /\
    (base_name +:+ extension ∈ fs ->
       exists n, 2 <= n /\
         filename = base_name +:+ pretty n +:+ extension /\
         forall m, 2 <= m < n -> base_name +:+ pretty m +:+ extension ∈ fs).
Proof.
  unfold get_unique_filename, path_exists.
  destruct (decide (base_name +:+ extension ∈ fs)) as [Hin|Hout].
  - rewrite bool_decide_eq_true_2 by done. cbn [negb].
    destruct (unique_filename_from_first base_name extension (S (size fs)) fs 2)
      as (n & Hn & Hrun & Hfree & Hbusy); [lia|].
    exists (numbered base_name extension n). split; [done|].
    split; [done|]. split; [done|]. intros _. by exists n.
  - rewrite bool_decide_eq_false_2 by done. cbn [negb].
    exists (base_name +:+ extension). split; [done|]. split; [done|].
    split; [done|]. done.
Qed.

(** ** The menu *)

Definition menu_lines : list console_event :=
  [Printed (String "010" "Options:"); Printed "1. View all users";
   Printed "2. Add new user"; Printed "3. Delete user";
   Printed "4. Update user"; Printed "5. Show statistics";
   Printed "6. Create scatter plot"; Printed "7. Exit"].

Definition choice_prompt : console_event :=
  Prompted "Choose an option (1-7): ".

Lemma run_print {B} s (f : unit -> M B) w :
  (print s ≫= f) w =
  f () (mk_world (disk w) (pending w) (stdin w) (stdout w ++ [Printed s])
          (sql_log w) (files w) (plots w)).
Proof. reflexivity. Qed.

(** The world after the menu has been shown and a choice read. *)
Definition after_choice (w : world) (rest : list string) : world :=
  mk_world (disk w) (pending w) rest (stdout w ++ menu_lines ++ [choice_prompt])
    (sql_log w) (files w) (plots w).

Lemma main_iter_choice w l rest :
  stdin w = l :: rest ->
  main_iter w = main_choice (Py.strip l) (after_choice w rest).
Proof.
  destruct w as [d p inp out log fs pl]. cbn. intros ->.
  unfold main_iter, main_menu, after_choice, menu_lines, choice_prompt.
  unfold mbind at 1, M_bind at 1.
  repeat (rewrite run_print; cbn [disk pending stdin stdout sql_log files plots]).
  unfold print, emit, mbind, M_bind, input.
  cbn [disk pending stdin stdout sql_log files plots].
  by rewrite <- !app_assoc.
Qed.

(** The choices the menu knows. *)
Definition choices : list string := ["1"; "2"; "3"; "4"; "5"; "6"; "7"].

(** X9.  A pass of the menu loop on a line that is none of the choices: the
    menu is shown, the line is read, the complaint is printed and the
    loop goes on; nothing is sent to the store. *)
Theorem main_iter_invalid_choice (w : world) (l : string) (rest : list string) :
  stdin w = l :: rest ->
  Py.isascii l = true ->
  Py.strip l ∉ choices ->
  exists w',
    main_iter w = Some (Ok Continue, w') /\
    stdout w' = stdout w ++ menu_lines ++
      [choice_prompt;
       Printed "Invalid choice. Please enter a number between 1 and 7."] /\
    stdin w' = rest /\ disk w' = disk w /\ pending w' = pending w /\
    sql_log w' = sql_log w /\ plots w' = plots w /\ files w' = files w.
Proof.
  intros Hin _ Hno.
  assert (forall c, c ∈ choices -> Py.strip l <> c) as Hne
    by (intros c Hc E; apply Hno; by rewrite E).
  rewrite (main_iter_choice w l rest Hin). unfold main_choice.
  rewrite !bool_decide_eq_false_2
    by (apply Hne; by apply (@bool_decide_unpack (_ ∈ choices) _)).
  eexists. split; [reflexivity|]. cbn.
  by rewrite <- !app_assoc.
Qed.

Lemma main_iter_invalid_choice_witness :
  exists w',
    main_iter (world_with [ann; bob] 2 ["8"; "7"]) = Some (Ok Continue, w') /\
    stdin w' = ["7"] /\ sql_log w' = [].
Proof.
  destruct (main_iter_invalid_choice (world_with [ann; bob] 2 ["8"; "7"])
              "8" ["7"])
    as (w' & Hrun & _ & Hin & _ & _ & Hlog & _); [reflexivity | reflexivity | | ].
  - by apply (@bool_decide_unpack (Py.strip "8" ∉ choices) _).
  - exists w'. exact (conj Hrun (conj Hin Hlog)).
Defined.

(** X10.  A pass of the menu loop on choice 1, with a table to read: the rows
    are printed, or the line that says there are none, and the loop goes
    on; the database is only read. *)
Theorem main_iter_view (w : world) (l : string) (rest : list string)
    (t : table) :
  stdin w = l :: rest ->
  Py.isascii l = true ->
  Py.strip l = "1" ->
  disk w !! "users" = Some t ->
  exists w',
    main_iter w = Some (Ok Continue, w') /\
    stdout w' = stdout w ++ menu_lines ++ [choice_prompt] ++
      (if bool_decide (rows t = []) then [Printed "Database is empty"]
       else [Printed (String "010" "Current database content:");
             PrintedFrame (mk_frame users_columns (rows t))]) /\
    stdin w' = rest /\ disk w' = disk w /\
    sql_log w' = sql_log w ++ [Executed Sqlite.SelectAll].
Proof.
  intros Hin _ Hc Ht.
  rewrite (main_iter_choice w l rest Hin). unfold main_choice. rewrite Hc.
  decide_literals. cbv iota.
  pose proof (read_db_present (after_choice w rest) t Ht) as Hread.
  unfold mbind at 1, M_bind at 1. rewrite Hread.
  rewrite df_empty_users.
  destruct (bool_decide (rows t = [])); eexists; (split; [reflexivity|]);
    cbn; by rewrite <- ?app_assoc.
Qed.

Lemma main_iter_view_witness :
  exists w',
    main_iter (world_with [ann; bob] 2 [" 1 "]) = Some (Ok Continue, w') /\
    stdout w' = menu_lines ++
      [choice_prompt; Printed (String "010" "Current database content:");
       PrintedFrame (mk_frame users_columns [ann; bob])].
Proof.
  destruct (main_iter_view (world_with [ann; bob] 2 [" 1 "]) " 1 " []
              (mk_table [ann; bob] 2))
    as (w' & Hrun & Hout & _); try reflexivity.
  exists w'. split; [exact Hrun|]. rewrite Hout. reflexivity.
Defined.

(** X11.  The program given choice 7 at its first menu: the table is ensured,
    the banner and the menu are shown, the farewell is printed and
    [main] returns; a table that exists is left as it is. *)
Theorem main_exits (w : world) (l : string) (rest : list string) :
  stdin w = l :: rest ->
  Py.isascii l = true ->
  Py.strip l = "7" ->
  exists w',
    main w = Some (Ok (), w') /\
    stdout w' = stdout w ++ [Printed "=== User Database Manager ==="] ++
      menu_lines ++ [choice_prompt; Printed "Program ended"] /\
    stdin w' = rest /\
    sql_log w' = sql_log w ++
      [Executed Sqlite.CreateUsersIfNotExists; Committed] /\
    (forall t, disk w !! "users" = Some t -> disk w' = disk w) /\
    (disk w !! "users" = None ->
       disk w' = <["users" := mk_table [] 0]> (disk w)).
Proof.
  intros Hin _ Hc. unfold main. unfold mbind at 1, M_bind at 1.
  rewrite initialize_database_run. rewrite run_print.
  cbn [disk pending stdin stdout sql_log files plots].
  unfold retry_loop. cbn [disk pending stdin stdout sql_log files plots].
  rewrite Hin. cbn [length while_true].
  rewrite (main_iter_choice _ l rest) by reflexivity.
  unfold main_choice. rewrite Hc. decide_literals. cbv iota.
  eexists. split; [reflexivity|]. cbn.
  split; [by rewrite <- !app_assoc|]. split; [done|]. split; [done|].
  split; [by intros t ->|by intros ->].
Qed.

Lemma main_exits_witness :
  exists w',
    main (world_with [ann; bob] 2 ["7"]) = Some (Ok (), w') /\
    stdin w' = [] /\ disk w' = {["users" := mk_table [ann; bob] 2]}.
Proof.
  destruct (main_exits (world_with [ann; bob] 2 ["7"]) "7" [])
    as (w' & Hrun & _ & Hin & _ & Hdisk & _); try reflexivity.
  exists w'. split; [exact Hrun|]. split; [exact Hin|].
  exact (Hdisk (mk_table [ann; bob] 2) eq_refl).
Defined.
